(** * 4D paper storage core: fingerprint index, encrypted object store,
      temporal index and deduplication scheduler.

    A shallow embedding of the Python sources
      src/agents/data_management/data_deduplication.py
      src/agents/data_management/deduplication_scheduler.py
      src/agents/data_management/four_d_data_handler.py
      src/agents/data_management/data_encryption.py
      src/agents/data_management/data_ingestion.py (the file types)
      src/agents/notification/user_notifier.py
      src/core/models/paper_model.py
      src/core/security/hash_utils.py
      src/core/security/encryption.py
      src/storage/timeseries_db.py
    and the properties of the storage design checked against them.

    Part I holds the embedding (one module per source file, after the Python
    values they share), Part II the lemmas and theorems on the design of the
    storage, Part III further properties of the modules. *)

From Stdlib Require Import ZArith NArith QArith List String Ascii Lia Bool.
From Stdlib Require Import Floats.
From Stdlib Require Import Permutation Sorted.
From stdpp Require Import base option list sorting gmap.

(* Nested inductive types get their induction principles by hand. *)
Set Warnings "-register-all".

Local Open Scope N_scope.

(* ================================================================== *)
(** * Part I. The embedding                                             *)
(* ================================================================== *)

(** ** Python values shared by the modules *)

Module Py.

(** A Python [str] is a sequence of Unicode code points (0 .. 0x10FFFF, lone
    surrogates included: [str] does not exclude them). *)
Abbreviation pystr := (list N).

(** An ASCII literal of the source, as a [pystr]. *)
Definition lit (s : string) : pystr :=
  map N_of_ascii (list_ascii_of_string s).

(** The characters the models print one at a time. *)
Definition ch_quote : N := 34.      (* the double quote *)
Definition ch_backslash : N := 92.
Definition ch_newline : N := 10.

(** An exception: its class name and [str(e)]. *)
Record exn : Type := Exn { exn_class : pystr; exn_msg : pystr }.

(** An exception of a library whose text no property reads: the text is
    left empty. *)
Definition library_error (class : pystr) : exn := Exn class [].

(** The outcome of a call that may raise. *)
Inductive outcome (A : Type) : Type :=
| Ok (a : A)
| Raise (e : exn).
Arguments Ok {A} a.
Arguments Raise {A} e.

Definition bind {A B} (m : outcome A) (k : A -> outcome B) : outcome B :=
  match m with
  | Ok a => k a
  | Raise e => Raise e
  end.

#[export] Instance outcome_bind : MBind outcome := fun _ _ k m => bind m k.
#[export] Instance outcome_ret : MRet outcome := fun _ a => Ok a.

Definition returns {A} (m : outcome A) : bool :=
  match m with Ok _ => true | Raise _ => false end.

(** [str.__lt__], [str.__eq__]: code point by code point, a proper prefix
    first. *)
Fixpoint str_compare (a b : pystr) : comparison :=
  match a, b with
  | [], [] => Eq
  | [], _ :: _ => Lt
  | _ :: _, [] => Gt
  | x :: a', y :: b' =>
      match N.compare x y with
      | Eq => str_compare a' b'
      | c => c
      end
  end.

Definition str_ltb (a b : pystr) : bool :=
  match str_compare a b with Lt => true | _ => false end.

Definition str_eqb (a b : pystr) : bool :=
  match str_compare a b with Eq => true | _ => false end.

(** [s.startswith(prefix)], [s.endswith(suffix)] *)
Fixpoint startswith (prefix s : pystr) : bool :=
  match prefix, s with
  | [], _ => true
  | _ :: _, [] => false
  | x :: prefix', y :: s' => (x =? y) && startswith prefix' s'
  end.

Definition endswith (suffix s : pystr) : bool :=
  startswith (rev suffix) (rev s).

(** [s.replace(old, new)] for a text [old] that is not empty: the
    occurrences of [old] are taken from the left and do not overlap. [skip]
    counts the characters of an occurrence that are still to be passed. *)
Fixpoint replace_from (old new : pystr) (skip : nat) (s : pystr) : pystr :=
  match s with
  | [] => []
  | c :: s' =>
      match skip with
      | S k => replace_from old new k s'
      | O =>
          if startswith old s
          then new ++ replace_from old new (length old - 1) s'
          else c :: replace_from old new 0 s'
      end
  end.

Definition replace (old new s : pystr) : pystr := replace_from old new 0 s.

(** [sep.join(parts)] *)
Fixpoint join (sep : pystr) (parts : list pystr) : pystr :=
  match parts with
  | [] => []
  | [p] => p
  | p :: rest => p ++ sep ++ join sep rest
  end.

(** One lowercase hexadecimal digit. *)
Definition hex_digit (d : N) : N :=
  if d <? 10 then 48 + d else 87 + d.

(** [n] as [k] lowercase hexadecimal digits (the low [4k] bits of [n]). *)
Fixpoint hex_fixed (k : nat) (n : N) : pystr :=
  match k with
  | O => []
  | S k' => hex_fixed k' (N.shiftr n 4) ++ [hex_digit (N.land n 15)]
  end.

(** A lowercase hexadecimal digit. *)
Definition is_hex_digit (c : N) : bool :=
  (48 <=? c) && (c <=? 57) || (97 <=? c) && (c <=? 102).

(** [n] as [k] decimal digits, zero padded (the value of [n mod 10^k]). *)
Fixpoint dec_fixed (k : nat) (n : N) : pystr :=
  match k with
  | O => []
  | S k' => dec_fixed k' (n / 10) ++ [48 + n mod 10]
  end.

(** [str(n)] for a natural number: decimal, no padding. The fuel is the
    number of binary digits, which bounds the number of decimal ones. *)
Fixpoint dec_digits (fuel : nat) (n : N) (acc : pystr) : pystr :=
  match fuel with
  | O => acc
  | S f =>
      let acc' := (48 + n mod 10) :: acc in
      if n / 10 =? 0 then acc' else dec_digits f (n / 10) acc'
  end.

Definition str_of_N (n : N) : pystr :=
  dec_digits (S (N.to_nat (N.log2 n))) n [].

(** [str(z)] for a Python [int]. *)
Definition str_of_Z (z : Z) : pystr :=
  match z with
  | Zneg p => 45 :: str_of_N (Npos p)
  | _ => str_of_N (Z.to_N z)
  end.

(** *** [str.encode("utf-8")]

    Strict error handler: a surrogate cannot be encoded. The exception
    reports the whole run of surrogates that starts at the first one, as
    CPython's encoder does. *)

Definition is_surrogate (c : N) : bool := (0xD800 <=? c) && (c <=? 0xDFFF).

Definition utf8_char (c : N) : list N :=
  if c <? 0x80 then [c]
  else if c <? 0x800 then
    [N.lor 0xC0 (N.shiftr c 6); N.lor 0x80 (N.land c 0x3F)]
  else if c <? 0x10000 then
    [N.lor 0xE0 (N.shiftr c 12);
     N.lor 0x80 (N.land (N.shiftr c 6) 0x3F);
     N.lor 0x80 (N.land c 0x3F)]
  else
    [N.lor 0xF0 (N.land (N.shiftr c 18) 0x07);
     N.lor 0x80 (N.land (N.shiftr c 12) 0x3F);
     N.lor 0x80 (N.land (N.shiftr c 6) 0x3F);
     N.lor 0x80 (N.land c 0x3F)].

(** Length of the run of surrogates at the head of [s]. *)
Fixpoint surrogate_run (s : pystr) : N :=
  match s with
  | c :: s' => if is_surrogate c then 1 + surrogate_run s' else 0
  | [] => 0
  end.

(** [str(e)] of the [UnicodeEncodeError] for the run [start .. start+len-1]
    whose first character is [c]. *)
Definition unicode_encode_error (c start len : N) : exn :=
  Exn (lit "UnicodeEncodeError")
    (if len =? 1 then
       lit "'utf-8' codec can't encode character '" ++ [ch_backslash]
         ++ lit "u" ++ hex_fixed 4 c ++ lit "' in position "
         ++ str_of_N start ++ lit ": surrogates not allowed"
     else
       lit "'utf-8' codec can't encode characters in position "
         ++ str_of_N start ++ lit "-" ++ str_of_N (start + len - 1)
         ++ lit ": surrogates not allowed").

Fixpoint utf8_encode_from (pos : N) (s : pystr) : outcome (list N) :=
  match s with
  | [] => Ok []
  | c :: s' =>
      if is_surrogate c then
        Raise (unicode_encode_error c pos (1 + surrogate_run s'))
      else
        bind (utf8_encode_from (pos + 1) s') (fun bs => Ok (utf8_char c ++ bs))
  end.

Definition utf8_encode (s : pystr) : outcome (list N) := utf8_encode_from 0 s.

(** A [dict] with [str] keys: the items in insertion order. *)

(** [d.get(k)] *)
Fixpoint dict_get {V} (k : pystr) (d : list (pystr * V)) : option V :=
  match d with
  | [] => None
  | (k', v) :: d' => if str_eqb k' k then Some v else dict_get k d'
  end.

(** [d[k] = v]: an existing key keeps its place. *)
Fixpoint dict_set {V} (k : pystr) (v : V) (d : list (pystr * V))
  : list (pystr * V) :=
  match d with
  | [] => [(k, v)]
  | (k', v') :: d' =>
      if str_eqb k' k then (k', v) :: d' else (k', v') :: dict_set k v d'
  end.

(** [k in d] *)
Definition dict_mem {V} (k : pystr) (d : list (pystr * V)) : bool :=
  existsb (fun kv => str_eqb (fst kv) k) d.

(** [del d[k]] *)
Definition dict_del {V} (k : pystr) (d : list (pystr * V))
  : list (pystr * V) :=
  List.filter (fun kv => negb (str_eqb (fst kv) k)) d.

(** A text that holds no surrogate. *)
Definition encodable (s : pystr) : Prop :=
  Forall (fun c => is_surrogate c = false) s.

(** A text of Unicode scalar values: code points, and no surrogate among
    them. *)
Definition scalar_text (s : pystr) : Prop :=
  Forall (fun c => c <= 0x10FFFF /\ is_surrogate c = false) s.

(** A stable sort by a strict "less than" test on keys, as [sorted],
    [list.sort] and the stable array sorts are: [x] goes before the first
    element that is not smaller than it, and equal keys keep their order. *)
Section StableSort.
  Context {A K : Type} (key : A -> K) (ltb : K -> K -> bool).

Fixpoint insert_sorted (x : A) (l : list A) : list A :=
  match l with
  | [] => [x]
  | y :: l' =>
      if ltb (key y) (key x) then y :: insert_sorted x l' else x :: y :: l'
  end.

Fixpoint stable_sort (l : list A) : list A :=
  match l with
  | [] => []
  | x :: l' => insert_sorted x (stable_sort l')
  end.

(** [a] may stand before [b]: the key of [b] is not smaller. *)
Definition key_le (a b : A) : Prop := ltb (key b) (key a) = false.

End StableSort.

End Py.

(** ** [datetime.datetime], without a time zone *)

Module Datetime.
Import Py.

(** The fields of a [datetime]. *)
Record fields : Type := {
  year : N;
  month : N;
  day : N;
  hour : N;
  minute : N;
  second : N;
  microsecond : N
}.

Definition is_leap (y : N) : bool :=
  (y mod 4 =? 0) && (negb (y mod 100 =? 0) || (y mod 400 =? 0)).

Definition days_in_month (y m : N) : N :=
  if m =? 2 then (if is_leap y then 29 else 28)
  else if (m =? 4) || (m =? 6) || (m =? 9) || (m =? 11) then 30
  else 31.

(** What the constructor of [datetime] checks. *)
Definition valid (f : fields) : bool :=
  (1 <=? year f) && (year f <=? 9999)
  && (1 <=? month f) && (month f <=? 12)
  && (1 <=? day f) && (day f <=? days_in_month (year f) (month f))
  && (hour f <? 24) && (minute f <? 60) && (second f <? 60)
  && (microsecond f <? 1000000).

(** A [datetime] object: fields that passed the check. *)
Record datetime : Type := {
  dt : fields;
  dt_valid : valid dt = true
}.

(** [datetime(...)]; [None] stands for the [ValueError] of a field out of
    range. *)
Definition make (f : fields) : option datetime :=
  match valid f as b return valid f = b -> option datetime with
  | true => fun H => Some {| dt := f; dt_valid := H |}
  | false => fun _ => None
  end eq_refl.

(** Two [datetime]s compare as the tuples of their fields do, and those
    lexicographically, as strings of code points do. *)
Definition tuple (f : fields) : list N :=
  [year f; month f; day f; hour f; minute f; second f; microsecond f].

Definition compare (a b : datetime) : comparison :=
  str_compare (tuple (dt a)) (tuple (dt b)).

(** [a <= b] *)
Definition leb (a b : datetime) : bool :=
  match compare a b with Gt => false | _ => true end.

(** [a != b] *)
Definition neqb (a b : datetime) : bool :=
  match compare a b with Eq => false | _ => true end.

(** [t.isoformat()]: the microseconds are left out when they are zero. *)
Definition isoformat (t : datetime) : pystr :=
  let f := dt t in
  dec_fixed 4 (year f) ++ lit "-" ++ dec_fixed 2 (month f) ++ lit "-"
    ++ dec_fixed 2 (day f) ++ lit "T" ++ dec_fixed 2 (hour f) ++ lit ":"
    ++ dec_fixed 2 (minute f) ++ lit ":" ++ dec_fixed 2 (second f)
    ++ (if microsecond f =? 0 then []
        else lit "." ++ dec_fixed 6 (microsecond f)).

(** [t.strftime("%Y%m%d_%H%M%S_%f")]. The year is written on four digits
    (for a year below 1000 the C library decides whether it is padded). *)
Definition strftime_key (t : datetime) : pystr :=
  let f := dt t in
  dec_fixed 4 (year f) ++ dec_fixed 2 (month f) ++ dec_fixed 2 (day f)
    ++ lit "_" ++ dec_fixed 2 (hour f) ++ dec_fixed 2 (minute f)
    ++ dec_fixed 2 (second f) ++ lit "_" ++ dec_fixed 6 (microsecond f).

(** Reading [k] decimal digits, and one given character. *)
Definition digit_val (c : N) : option N :=
  if (48 <=? c) && (c <=? 57) then Some (c - 48) else None.

Fixpoint read_digits (k : nat) (acc : N) (s : pystr) : option (N * pystr) :=
  match k, s with
  | O, _ => Some (acc, s)
  | S k', c :: s' =>
      d ← digit_val c; read_digits k' (10 * acc + d) s'
  | S _, [] => None
  end.

Definition read_char (c : N) (s : pystr) : option pystr :=
  match s with
  | x :: s' => if x =? c then Some s' else None
  | [] => None
  end.

Definition at_end (s : pystr) : option unit :=
  match s with [] => Some tt | _ => None end.

(** [datetime.strptime(s, "%Y%m%d_%H%M%S_%f")] on the zero-padded fields
    that [strftime] writes (the library also reads fields of fewer digits,
    which [strftime] does not write). *)
Definition strptime_padded (s : pystr) : option datetime :=
  '(y, s) ← read_digits 4 0 s;
  '(m, s) ← read_digits 2 0 s;
  '(d, s) ← read_digits 2 0 s;
  s ← read_char 95 s;
  '(h, s) ← read_digits 2 0 s;
  '(mi, s) ← read_digits 2 0 s;
  '(sec, s) ← read_digits 2 0 s;
  s ← read_char 95 s;
  '(us, s) ← read_digits 6 0 s;
  _ ← at_end s;
  make {| year := y; month := m; day := d; hour := h; minute := mi;
          second := sec; microsecond := us |}.

(** [datetime.fromisoformat(s)] on what [isoformat] writes. *)
Definition fromisoformat (s : pystr) : option datetime :=
  '(y, s) ← read_digits 4 0 s;
  s ← read_char 45 s;
  '(m, s) ← read_digits 2 0 s;
  s ← read_char 45 s;
  '(d, s) ← read_digits 2 0 s;
  s ← read_char 84 s;
  '(h, s) ← read_digits 2 0 s;
  s ← read_char 58 s;
  '(mi, s) ← read_digits 2 0 s;
  s ← read_char 58 s;
  '(sec, s) ← read_digits 2 0 s;
  '(us, s) ← match s with
              | [] => Some (0, [])
              | _ => s ← read_char 46 s; read_digits 6 0 s
              end;
  _ ← at_end s;
  make {| year := y; month := m; day := d; hour := h; minute := mi;
          second := sec; microsecond := us |}.

End Datetime.

(** ** [hashlib.sha256] (FIPS 180-4), on a list of bytes *)

Module Sha256.

Definition mask32 : N := 0xFFFFFFFF.
Definition add32 (x y : N) : N := N.land (x + y) mask32.
Definition rotr (n x : N) : N :=
  N.lor (N.shiftr x n) (N.land (N.shiftl x (32 - n)) mask32).
Definition not32 (x : N) : N := N.lxor x mask32.

Definition Ch (x y z : N) : N := N.lxor (N.land x y) (N.land (not32 x) z).
Definition Maj (x y z : N) : N :=
  N.lxor (N.lxor (N.land x y) (N.land x z)) (N.land y z).
Definition Sigma0 (x : N) : N :=
  N.lxor (N.lxor (rotr 2 x) (rotr 13 x)) (rotr 22 x).
Definition Sigma1 (x : N) : N :=
  N.lxor (N.lxor (rotr 6 x) (rotr 11 x)) (rotr 25 x).
Definition sigma0 (x : N) : N :=
  N.lxor (N.lxor (rotr 7 x) (rotr 18 x)) (N.shiftr x 3).
Definition sigma1 (x : N) : N :=
  N.lxor (N.lxor (rotr 17 x) (rotr 19 x)) (N.shiftr x 10).

(** The first 64 primes. *)
Definition is_prime (n : N) : bool :=
  forallb (fun d => negb (n mod N.of_nat d =? 0)) (seq 2 (N.to_nat n - 2)).

Definition primes : list N :=
  List.filter is_prime (map N.of_nat (seq 2 310)).

(** The integer cube root, one bit at a time from bit [k - 1] down. *)
Fixpoint cube_root (k : nat) (n r : N) : N :=
  match k with
  | O => r
  | S k' =>
      let r' := r + 2 ^ N.of_nat k' in
      cube_root k' n (if r' * r' * r' <=? n then r' else r)
  end.

(** The round constants: the first 32 bits of the fractional parts of the
    cube roots of the first 64 primes. *)
Definition K : list N :=
  Eval vm_compute in
    map (fun p => cube_root 36 (p * 2 ^ 96) 0 mod 2 ^ 32) primes.

(** The initial hash value: the first 32 bits of the fractional parts of
    the square roots of the first 8 primes. *)
Definition H0 : list N :=
  Eval vm_compute in
    map (fun p => N.sqrt (p * 2 ^ 64) mod 2 ^ 32) (firstn 8 primes).

(** Padding: the byte 0x80, zeros up to 56 mod 64, the bit length on eight
    bytes, big endian. *)
Definition be_bytes (k : nat) (n : N) : list N :=
  map (fun i => N.land (N.shiftr n (8 * N.of_nat i)) 0xFF) (rev (seq 0 k)).

Definition pad (msg : list N) : list N :=
  let len := N.of_nat (length msg) in
  let zeros := N.to_nat ((119 - len mod 64) mod 64) in
  msg ++ [0x80] ++ repeat 0 zeros ++ be_bytes 8 (8 * len).

(** Big-endian 32-bit words of a byte string whose length is a multiple
    of four. *)
Fixpoint words (bs : list N) : list N :=
  match bs with
  | b0 :: b1 :: b2 :: b3 :: rest =>
      (N.shiftl b0 24 + N.shiftl b1 16 + N.shiftl b2 8 + b3) :: words rest
  | _ => []
  end.

(** The message schedule, most recent word first. *)
Fixpoint schedule (n : nat) (w : list N) : list N :=
  match n with
  | O => w
  | S n' =>
      let x :=
        add32 (add32 (sigma1 (nth 1 w 0)) (nth 6 w 0))
              (add32 (sigma0 (nth 14 w 0)) (nth 15 w 0)) in
      schedule n' (x :: w)
  end.

Definition state : Type := (N * N * N * N * N * N * N * N)%type.

Definition round (s : state) (kw : N * N) : state :=
  let '(a, b, c, d, e, f, g, h) := s in
  let t1 :=
    add32 (add32 (add32 h (Sigma1 e)) (add32 (Ch e f g) (fst kw))) (snd kw) in
  let t2 := add32 (Sigma0 a) (Maj a b c) in
  (add32 t1 t2, a, b, c, add32 d t1, e, f, g).

Definition compress (s : state) (block : list N) : state :=
  let w := rev (schedule 48 (rev block)) in
  let '(a, b, c, d, e, f, g, h) := fold_left round (combine K w) s in
  let '(a0, b0, c0, d0, e0, f0, g0, h0) := s in
  (add32 a0 a, add32 b0 b, add32 c0 c, add32 d0 d,
   add32 e0 e, add32 f0 f, add32 g0 g, add32 h0 h).

(** The blocks of sixteen words; [n] bounds their number. *)
Fixpoint blocks (n : nat) (ws : list N) : list (list N) :=
  match n, ws with
  | S n', _ :: _ => firstn 16 ws :: blocks n' (skipn 16 ws)
  | _, _ => []
  end.

Definition init : state :=
  match H0 with
  | [a; b; c; d; e; f; g; h] => (a, b, c, d, e, f, g, h)
  | _ => (0, 0, 0, 0, 0, 0, 0, 0)
  end.

Definition digest_words (msg : list N) : list N :=
  let ws := words (pad msg) in
  let '(a, b, c, d, e, f, g, h) :=
    fold_left compress (blocks (length ws) ws) init in
  [a; b; c; d; e; f; g; h].

(** [hashlib.sha256(msg).hexdigest()] *)
Definition hexdigest (msg : list N) : Py.pystr :=
  concat (map (Py.hex_fixed 8) (digest_words msg)).

End Sha256.

(** ** [json]: what the sources write with it, and what is read *)

Module Json.
Import Py.

(** What [json.loads] returns. *)
Inductive value : Type :=
| JNull
| JBool (b : bool)
| JInt (z : Z)
| JFloat (f : float)
| JStr (s : pystr)
| JArr (items : list value)
| JObj (items : list (pystr * value)).

(** The escape of one character with [ensure_ascii=False]: the quote, the
    backslash and the control characters below 0x20; everything else is
    written as it is (a lone surrogate too). *)
Definition short_escape (c : N) : option pystr :=
  if c =? 34 then Some [ch_backslash; 34]
  else if c =? 92 then Some [ch_backslash; 92]
  else if c =? 10 then Some (ch_backslash :: lit "n")
  else if c =? 13 then Some (ch_backslash :: lit "r")
  else if c =? 9 then Some (ch_backslash :: lit "t")
  else if c =? 8 then Some (ch_backslash :: lit "b")
  else if c =? 12 then Some (ch_backslash :: lit "f")
  else None.

Definition u_escape (c : N) : pystr :=
  ch_backslash :: lit "u" ++ hex_fixed 4 c.

Definition escape_char (c : N) : pystr :=
  match short_escape c with
  | Some e => e
  | None => if c <? 32 then u_escape c else [c]
  end.

(** The escape with [ensure_ascii=True] (the default of [json.dump]): all
    that is outside the printable ASCII range is written as one escape, or
    as a surrogate pair above the basic plane. *)
Definition escape_char_ascii (c : N) : pystr :=
  match short_escape c with
  | Some e => e
  | None =>
      if (32 <=? c) && (c <=? 126) then [c]
      else if c <? 0x10000 then u_escape c
      else
        let n := c - 0x10000 in
        u_escape (N.lor 0xD800 (N.land (N.shiftr n 10) 0x3FF))
          ++ u_escape (N.lor 0xDC00 (N.land n 0x3FF))
  end.

Definition quoted (esc : N -> pystr) (s : pystr) : pystr :=
  [ch_quote] ++ concat (map esc s) ++ [ch_quote].

(** [json.dumps(d, ensure_ascii=False)] for a [dict] from [str] to [str]. *)
Definition dumps_str_dict (d : list (pystr * pystr)) : pystr :=
  lit "{"
    ++ join (lit ", ")
         (map (fun kv => quoted escape_char (fst kv) ++ lit ": "
                           ++ quoted escape_char (snd kv)) d)
    ++ lit "}".

(** [json.dumps(d, indent=2)] for a [dict] from [str] to [str], written at
    nesting depth [depth] (the braces of the value of a key of an outer
    dictionary are at depth one). *)
Definition indent (depth : nat) : pystr :=
  ch_newline :: concat (repeat (lit "  ") depth).

Definition dumps_str_dict_indent (depth : nat) (d : list (pystr * pystr))
  : pystr :=
  match d with
  | [] => lit "{}"
  | _ =>
      lit "{" ++ indent (S depth)
        ++ join (lit "," ++ indent (S depth))
             (map (fun kv => quoted escape_char_ascii (fst kv) ++ lit ": "
                               ++ quoted escape_char_ascii (snd kv)) d)
        ++ indent depth ++ lit "}"
  end.

(** *** Reading back what was written

    [json.loads(json.dumps(v))], for the default [ensure_ascii=True]: a
    number, a truth value and [None] come back as they are; in a text, a high
    surrogate that is followed by a low one was written as two escapes and is
    read as the one character they encode; the keys of an object are read in
    order, and where two keys are read as the same text the later value takes
    the place of the earlier one. *)
Definition is_high_surrogate (c : N) : bool :=
  (0xD800 <=? c) && (c <=? 0xDBFF).
Definition is_low_surrogate (c : N) : bool :=
  (0xDC00 <=? c) && (c <=? 0xDFFF).

Fixpoint combine_surrogates (s : pystr) : pystr :=
  match s with
  | c :: ((d :: s'') as s') =>
      if is_high_surrogate c && is_low_surrogate d
      then (0x10000 + N.shiftl (c - 0xD800) 10 + (d - 0xDC00))
             :: combine_surrogates s''
      else c :: combine_surrogates s'
  | _ => s
  end.

Fixpoint reload (v : value) : value :=
  match v with
  | JStr s => JStr (combine_surrogates s)
  | JArr items => JArr (map reload items)
  | JObj items =>
      JObj (fold_left
              (fun d kv =>
                 match kv with
                 | (k, x) => dict_set (combine_surrogates k) (reload x) d
                 end) items [])
  | _ => v
  end.

(** [bool(v)] for a value that was read. *)
Definition truthy (v : value) : bool :=
  match v with
  | JNull => false
  | JBool b => b
  | JInt z => negb (z =? 0)%Z
  | JFloat f => negb (PrimFloat.eqb f 0%float)
  | JStr s => negb (length s =? 0)%nat
  | JArr items => negb (length items =? 0)%nat
  | JObj items => negb (length items =? 0)%nat
  end.

(** *** Reading a text

    [json.loads], as the scanner of CPython reads a text. The result is
    [None] where the call raises: [JSONDecodeError] for a text that is no
    JSON document, [ValueError] for an integer of more digits than the
    interpreter converts, [RecursionError] for containers nested deeper than
    the interpreter follows. *)

Definition is_whitespace (c : N) : bool :=
  (c =? 32) || (c =? 9) || (c =? 10) || (c =? 13).

Fixpoint skip_whitespace (s : pystr) : pystr :=
  match s with
  | c :: s' => if is_whitespace c then skip_whitespace s' else s
  | [] => []
  end.

Definition hex_value (c : N) : option N :=
  if (48 <=? c) && (c <=? 57) then Some (c - 48)
  else if (97 <=? c) && (c <=? 102) then Some (c - 87)
  else if (65 <=? c) && (c <=? 70) then Some (c - 55)
  else None.

Definition hex4 (a b c d : N) : option N :=
  match hex_value a, hex_value b, hex_value c, hex_value d with
  | Some x, Some y, Some z, Some w => Some (((x * 16 + y) * 16 + z) * 16 + w)
  | _, _, _, _ => None
  end.

(** The character after a backslash, [u] apart. *)
Definition unescape (c : N) : option N :=
  if c =? 34 then Some 34
  else if c =? 92 then Some 92
  else if c =? 47 then Some 47
  else if c =? 98 then Some 8
  else if c =? 102 then Some 12
  else if c =? 110 then Some 10
  else if c =? 114 then Some 13
  else if c =? 116 then Some 9
  else None.

Definition join_surrogates (high low : N) : N :=
  0x10000 + N.lor (N.shiftl (N.land high 0x3FF) 10) (N.land low 0x3FF).

Definition cons_char (c : N) (r : option (pystr * pystr))
  : option (pystr * pystr) :=
  match r with
  | Some (t, rest) => Some (c :: t, rest)
  | None => None
  end.

(** After the escape of a high surrogate [u]: the escape of a low
    surrogate that follows it, and is itself followed by a character, is
    taken with it. [scan] reads the rest of the string. *)
Definition after_high_surrogate (scan : pystr -> option (pystr * pystr))
    (u : N) (s3 : pystr) : option (pystr * pystr) :=
  match s3 with
  | b :: v :: g1 :: g2 :: g3 :: g4 :: ((_ :: _) as s4) =>
      if (b =? 92) && (v =? 117) then
        match hex4 g1 g2 g3 g4 with
        | None => None
        | Some u2 =>
            if is_low_surrogate u2
            then cons_char (join_surrogates u u2) (scan s4)
            else cons_char u (scan s3)
        end
      else cons_char u (scan s3)
  | _ => cons_char u (scan s3)
  end.

(** The text of a string, from behind its opening quote, and what follows
    its closing quote. A control character ends the reading, and so do a
    string that is not closed, an escape that is none, and an escape [u]
    that is not followed by four hexadecimal digits and one character
    more. *)
Fixpoint scanstring (s : pystr) : option (pystr * pystr) :=
  match s with
  | [] => None
  | c :: s1 =>
      if c =? 34 then Some ([], s1)
      else if c =? 92 then
        match s1 with
        | [] => None
        | e :: s2 =>
            if e =? 117 then
              match s2 with
              | h1 :: h2 :: h3 :: h4 :: ((_ :: _) as s3) =>
                  match hex4 h1 h2 h3 h4 with
                  | None => None
                  | Some u =>
                      if is_high_surrogate u
                      then after_high_surrogate scanstring u s3
                      else cons_char u (scanstring s3)
                  end
              | _ => None
              end
            else
              match unescape e with
              | Some x => cons_char x (scanstring s2)
              | None => None
              end
        end
      else if c <=? 31 then None
      else cons_char c (scanstring s1)
  end.

(** *** Numbers *)

Definition is_digit (c : N) : bool := (48 <=? c) && (c <=? 57).

Fixpoint span_digits (s : pystr) : pystr * pystr :=
  match s with
  | c :: s' =>
      if is_digit c
      then let (ds, rest) := span_digits s' in (c :: ds, rest)
      else ([], s)
  | [] => ([], [])
  end.

(** The value of a run of decimal digits. *)
Definition digits_value (ds : pystr) : Z :=
  fold_left (fun acc c => (acc * 10 + Z.of_N (c - 48))%Z) ds 0%Z.

(** [float(text)] for a number of the JSON grammar: the digits of the
    integer part and of the fraction, and the exponent; the nearest binary64
    number, ties to even. *)
Definition float_of_decimal (negative : bool) (digits : pystr) (exp10 : Z)
  : float :=
  match digits_value digits with
  | Zpos m =>
      SF2Prim
        match exp10 with
        | Zneg k =>
            SFdiv 53 1024 (S754_finite negative m 0)
              (S754_finite false (10 ^ k)%positive 0)
        | _ =>
            binary_normalize 53 1024
              (if negative then Zneg (m * Z.to_pos (10 ^ exp10))
               else Zpos (m * Z.to_pos (10 ^ exp10)))
              0 false
        end
  | _ => if negative then (-0)%float else 0%float
  end.

(** A number at the head of [s]: the sign, the integer part, the fraction
    when a digit follows the point, the exponent when a digit follows the
    [e] and its sign; and what is left of [s]. *)
Record number : Type := {
  n_negative : bool;
  n_integer : pystr;
  n_fraction : option pystr;
  n_exponent : option (bool * pystr)
}.

Definition match_exponent (s : pystr) : option (bool * pystr) * pystr :=
  match s with
  | e :: s1 =>
      if (e =? 101) || (e =? 69) then
        let (negative, s2) :=
          match s1 with
          | sg :: s2 =>
              if sg =? 45 then (true, s2)
              else if sg =? 43 then (false, s2)
              else (false, s1)
          | [] => (false, s1)
          end in
        match span_digits s2 with
        | ([], _) => (None, s)
        | (ds, rest) => (Some (negative, ds), rest)
        end
      else (None, s)
  | [] => (None, s)
  end.

Definition match_fraction (s : pystr) : option pystr * pystr :=
  match s with
  | p :: s1 =>
      if p =? 46 then
        match span_digits s1 with
        | ([], _) => (None, s)
        | (ds, rest) => (Some ds, rest)
        end
      else (None, s)
  | [] => (None, s)
  end.

Definition match_number (s : pystr) : option (number * pystr) :=
  let (negative, s1) :=
    match s with
    | c :: s' => if c =? 45 then (true, s') else (false, s)
    | [] => (false, s)
    end in
  match s1 with
  | d :: s2 =>
      let integer :=
        if d =? 48 then Some ([d], s2)
        else if is_digit d
        then let (ds, rest) := span_digits s2 in Some (d :: ds, rest)
        else None in
      match integer with
      | Some (int, s3) =>
          let (frac, s4) := match_fraction s3 in
          let (exp, s5) := match_exponent s4 in
          Some ({| n_negative := negative; n_integer := int;
                   n_fraction := frac; n_exponent := exp |}, s5)
      | None => None
      end
  | [] => None
  end.

Section Scan.
  (** [sys.get_int_max_str_digits()]: zero where the interpreter sets no
      limit. *)
  Variable int_max_str_digits : nat.

Definition number_value (n : number) : option value :=
  match n_fraction n, n_exponent n with
  | None, None =>
      if (0 <? int_max_str_digits)%nat
           && (int_max_str_digits <? length (n_integer n))%nat
      then None
      else
        let z := digits_value (n_integer n) in
        Some (JInt (if n_negative n then - z else z)%Z)
  | frac, exp =>
      let f := default [] frac in
      let e :=
        match exp with
        | Some (negative, ds) =>
            if negative then (- digits_value ds)%Z else digits_value ds
        | None => 0%Z
        end in
      Some (JFloat (float_of_decimal (n_negative n) (n_integer n ++ f)
                      (e - Z.of_nat (length f))))
  end.

(** The members of an object, from its first key on: [acc] holds the
    members read so far. The fuel is the length of the text. *)
Fixpoint parse_members (scan : pystr -> option (value * pystr))
    (fuel : nat) (acc : list (pystr * value)) (s : pystr)
  : option (value * pystr) :=
  match fuel, s with
  | S fuel', q :: s1 =>
      if q =? 34 then
        match scanstring s1 with
        | Some (key, s2) =>
            match skip_whitespace s2 with
            | colon :: s3 =>
                if colon =? 58 then
                  match scan (skip_whitespace s3) with
                  | Some (val, s4) =>
                      let acc' := dict_set key val acc in
                      match skip_whitespace s4 with
                      | c :: s5 =>
                          if c =? 125 then Some (JObj acc', s5)
                          else if c =? 44
                          then parse_members scan fuel' acc'
                                 (skip_whitespace s5)
                          else None
                      | [] => None
                      end
                  | None => None
                  end
                else None
            | [] => None
            end
        | None => None
        end
      else None
  | _, _ => None
  end.

(** The items of an array, from its first item on. *)
Fixpoint parse_items (scan : pystr -> option (value * pystr))
    (fuel : nat) (acc : list value) (s : pystr)
  : option (value * pystr) :=
  match fuel with
  | S fuel' =>
      match scan s with
      | Some (val, s1) =>
          match skip_whitespace s1 with
          | c :: s2 =>
              if c =? 93 then Some (JArr (acc ++ [val]), s2)
              else if c =? 44
              then parse_items scan fuel' (acc ++ [val]) (skip_whitespace s2)
              else None
          | [] => None
          end
      | None => None
      end
  | O => None
  end.

(** One value at the head of [s]; [depth] is the number of containers
    that may still be opened, one in the other. *)
Fixpoint scan_once (depth : nat) (s : pystr) {struct depth}
  : option (value * pystr) :=
  let number :=
    match match_number s with
    | Some (n, rest) =>
        match number_value n with
        | Some v => Some (v, rest)
        | None => None
        end
    | None => None
    end in
  match s with
  | [] => None
  | c :: s1 =>
      if c =? 34 then
        match scanstring s1 with
        | Some (t, rest) => Some (JStr t, rest)
        | None => None
        end
      else if c =? 123 then
        match depth with
        | S d =>
            match skip_whitespace s1 with
            | c' :: s2 =>
                if c' =? 125 then Some (JObj [], s2)
                else parse_members (scan_once d) (length s1) []
                       (skip_whitespace s1)
            | [] => None
            end
        | O => None
        end
      else if c =? 91 then
        match depth with
        | S d =>
            match skip_whitespace s1 with
            | c' :: s2 =>
                if c' =? 93 then Some (JArr [], s2)
                else parse_items (scan_once d) (length s1) []
                       (skip_whitespace s1)
            | [] => None
            end
        | O => None
        end
      else if startswith (lit "null") s then Some (JNull, skipn 4 s)
      else if startswith (lit "true") s then Some (JBool true, skipn 4 s)
      else if startswith (lit "false") s then Some (JBool false, skipn 5 s)
      else if startswith (lit "NaN") s then Some (JFloat nan, skipn 3 s)
      else if startswith (lit "Infinity") s
      then Some (JFloat infinity, skipn 8 s)
      else if startswith (lit "-Infinity") s
      then Some (JFloat neg_infinity, skipn 9 s)
      else number
  end.

(** [json.loads] *)
Definition loads (depth : nat) (s : pystr) : option value :=
  match scan_once depth (skip_whitespace s) with
  | Some (v, rest) =>
      match skip_whitespace rest with
      | [] => Some v
      | _ :: _ => None
      end
  | None => None
  end.

End Scan.

(** [f] reads nothing of a text that is cut before its end. *)
Definition fails_before {X} (f : pystr -> option X) (t : pystr) : Prop :=
  forall p q, t = p ++ q -> q <> [] -> f p = None.

End Json.

(** ** src/agents/data_management/data_deduplication.py *)

Module DataDeduplication.
Import Py.

(** *** The data that is hashed *)

(** A [pandas.DataFrame]: the column labels, and the rows, each with its
    index label and its cells by column position. A cell is kept as the text
    [to_csv] writes for it. The index is an integer index (the [RangeIndex]
    that [read_csv] gives a frame, or what is left of it after the rows were
    moved). *)
Record DataFrame : Type := {
  columns : list pystr;
  rows : list (Z * list pystr)
}.

(** [df.sort_index(axis=0)]: the rows by index label. *)
Definition sort_index_0 (df : DataFrame) : DataFrame :=
  {| columns := columns df;
     rows := stable_sort fst Z.ltb (rows df) |}.

(** [df.sort_index(axis=1)]: the columns by column label, the cells of each
    row with them. *)
Definition column_order (cols : list pystr) : list nat :=
  stable_sort (fun i => nth i cols []) str_ltb (seq 0 (length cols)).

Definition take {A} (d : A) (order : list nat) (l : list A) : list A :=
  map (fun i => nth i l d) order.

Definition sort_index_1 (df : DataFrame) : DataFrame :=
  let order := column_order (columns df) in
  {| columns := take [] order (columns df);
     rows := map (fun r => (fst r, take [] order (snd r))) (rows df) |}.

(** [df.to_csv(index=False)]: the header line, then one line per row. *)
Definition csv_line (fields : list pystr) : pystr :=
  join (lit ",") fields ++ [ch_newline].

Definition to_csv (df : DataFrame) : pystr :=
  csv_line (columns df) ++ concat (map (fun r => csv_line (snd r)) (rows df)).

(** A [numpy.ndarray], flattened. A numeric array is an array of 64-bit
    signed integers. An array of objects is sorted and printed by numpy; it
    is kept as its size and the outcome of [str(np.sort(data.flatten()))]. *)
Inductive ndarray : Type :=
| Int64Array (items : list Z)
| ObjectArray (size : N) (sorted_str : outcome pystr).

(** [a.tostring()] of an int64 array: eight bytes per item, little endian,
    two's complement. *)
Definition le_bytes64 (z : Z) : list N :=
  let n := Z.to_N (z mod 2 ^ 64) in
  map (fun i => N.land (N.shiftr n (8 * N.of_nat i)) 0xFF) (seq 0 8).

Definition tostring (items : list Z) : list N :=
  concat (map le_bytes64 items).

(** [bytes.hex()] *)
Definition bytes_hex (bs : list N) : pystr :=
  concat (map (hex_fixed 2) bs).

(** The values [calculate_data_hash] tells apart. The keys of a [dict] are
    [str] and distinct, in insertion order. A value of any other class is
    kept as the outcome of [str(data)]. *)
Inductive pyval : Type :=
| VDataFrame (df : DataFrame)
| VArray (a : ndarray)
| VDict (items : list (pystr * pyval))
| VStr (s : pystr)
| VInt (z : Z)
| VObject (str_outcome : outcome pystr).

(** The dictionary comprehension over the sorted items: the first value
    whose hash raises ends it. *)
Fixpoint comprehension (l : list (pystr * outcome pystr))
  : outcome (list (pystr * pystr)) :=
  match l with
  | [] => Ok []
  | (k, r) :: l' =>
      bind r (fun h => bind (comprehension l') (fun t => Ok ((k, h) :: t)))
  end.

(** [data_str] after the [try] statement: the text of the block, or the
    error text of the [except] clause when the block raised. *)
Definition data_str (block : outcome pystr) : pystr :=
  match block with
  | Ok s => s
  | Raise e => lit "error_" ++ exn_msg e
  end.

(** The last line, outside the [try] statement: the text is encoded and
    hashed. *)
Definition hash_text (block : outcome pystr) : outcome pystr :=
  bind (utf8_encode (data_str block)) (fun bs => Ok (Sha256.hexdigest bs)).

(** The [try] block of [calculate_data_hash], with the hash of the values
    of a dictionary (the function itself, below). The values are hashed
    where they stand and the pairs sorted by key afterwards; the source sorts
    the items first, which gives the same ([try_block_dict]).
    [tostring] is the method of numpy before 2.0. *)
Fixpoint try_block (data : pyval) : outcome pystr :=
  match data with
  | VDataFrame df => Ok (to_csv (sort_index_1 (sort_index_0 df)))
  | VArray (Int64Array items) =>
      if (0 <? length items)%nat
      then Ok (bytes_hex (tostring (stable_sort id Z.ltb items)))
      else Ok (lit "empty_array")
  | VArray (ObjectArray size sorted_str) =>
      if 0 <? size then sorted_str else Ok (lit "empty_array")
  | VDict items =>
      let hashed :=
        map (fun kv => match kv with
                       | (k, v) => (k, hash_text (try_block v))
                       end) items in
      bind (comprehension (stable_sort fst str_ltb hashed))
           (fun sorted_dict => Ok (Json.dumps_str_dict sorted_dict))
  | VStr s => Ok s
  | VInt z => Ok (str_of_Z z)
  | VObject r => r
  end.

(** [DataDeduplication.calculate_data_hash] *)
Definition calculate_data_hash (data : pyval) : outcome pystr :=
  hash_text (try_block data).

(** Two values that differ in the order of the elements of their numeric
    arrays and in the order of the keys of their dictionaries, at any
    depth. *)
Inductive reordered : pyval -> pyval -> Prop :=
| reordered_refl (v : pyval) : reordered v v
| reordered_array (a b : list Z) :
    Permutation a b ->
    reordered (VArray (Int64Array a)) (VArray (Int64Array b))
| reordered_dict (i1 i1' i2 : list (pystr * pyval)) :
    Forall2 (fun x y => fst x = fst y /\ reordered (snd x) (snd y)) i1 i1' ->
    Permutation i1' i2 ->
    reordered (VDict i1) (VDict i2).

(** The keys of a dictionary are distinct, at any depth. *)
Inductive distinct_keys : pyval -> Prop :=
| distinct_keys_dict (items : list (pystr * pyval)) :
    NoDup (map fst items) ->
    Forall (fun kv => distinct_keys (snd kv)) items ->
    distinct_keys (VDict items)
| distinct_keys_frame (df : DataFrame) : distinct_keys (VDataFrame df)
| distinct_keys_array (a : ndarray) : distinct_keys (VArray a)
| distinct_keys_str (s : pystr) : distinct_keys (VStr s)
| distinct_keys_int (z : Z) : distinct_keys (VInt z)
| distinct_keys_object (r : outcome pystr) : distinct_keys (VObject r).

(** *** The index *)

(** An entry of the index, as [add_data_to_index] writes it. *)
Record entry : Type := {
  e_hash : pystr;
  e_data_type : pystr;
  e_paper_id : pystr;
  e_user_id : pystr;
  e_timestamp : pystr
}.

(** [self.data_index]: a [dict] from entry id to entry, in insertion order. *)
Abbreviation index := (list (pystr * entry)).

(** One item of the list [find_similar_data] returns. *)
Record match_item : Type := {
  m_entry_id : pystr;
  m_paper_id : pystr;
  m_user_id : pystr;
  m_data_type : pystr;
  m_timestamp : pystr;
  m_similarity : Q;
  m_match_type : pystr
}.

Definition match_of (entry_id : pystr) (e : entry) (similarity : Q)
    (match_type : pystr) : match_item :=
  {| m_entry_id := entry_id;
     m_paper_id := e_paper_id e;
     m_user_id := e_user_id e;
     m_data_type := e_data_type e;
     m_timestamp := e_timestamp e;
     m_similarity := similarity;
     m_match_type := match_type |}.

(** [find_similar_data] *)
Fixpoint find_similar_data (idx : index) (data_hash data_type : pystr)
  : list match_item :=
  match idx with
  | [] => []
  | (entry_id, e) :: idx' =>
      let rest := find_similar_data idx' data_hash data_type in
      if str_eqb (e_hash e) data_hash then
        match_of entry_id e 1 (lit "exact") :: rest
      else if str_eqb (e_data_type e) data_type then
        match_of entry_id e (1 # 2) (lit "type") :: rest
      else rest
  end.

(** [_generate_recommendation] *)
Definition _generate_recommendation (has_duplicate has_similar : bool)
  : pystr :=
  if has_duplicate then
    lit "Exact duplicate found. Consider using existing data instead of uploading again."
  else if has_similar then
    lit "Similar data found. Review existing data to avoid redundancy."
  else
    lit "No duplicate or similar data found. Safe to upload.".

(** The result of a duplication check. *)
Record verdict : Type := {
  v_data_hash : pystr;
  v_data_type : pystr;
  has_duplicate : bool;
  has_similar : bool;
  similar_data : list match_item;
  recommendation : pystr
}.

(** [check_duplication_by_hash]; the paper and the user are not read. *)
Definition check_duplication_by_hash (idx : index)
    (data_hash data_type paper_id user_id : pystr) : verdict :=
  let similar := find_similar_data idx data_hash data_type in
  let has_exact_match :=
    existsb (fun item => Qeq_bool (m_similarity item) 1) similar in
  let has_similar_match := (0 <? length similar)%nat in
  {| v_data_hash := data_hash;
     v_data_type := data_type;
     has_duplicate := has_exact_match;
     has_similar := has_similar_match;
     similar_data := similar;
     recommendation :=
       _generate_recommendation has_exact_match has_similar_match |}.


(** *** Persistence of the index *)

(** What another process can see of a file while it is written: the file
    system after each system call. [open(path, "w")] creates the file or cuts
    it to length zero; the buffered text reaches the file in pieces of at
    most [bufsize] characters, the last of them when the file is closed. *)
Inductive fs_event : Type :=
| EvTruncate (path : pystr)
| EvAppend (path : pystr) (chunk : pystr)
| EvRename (src dst : pystr)
| EvRemove (path : pystr).

Definition fs_apply (fs : gmap pystr pystr) (ev : fs_event)
  : gmap pystr pystr :=
  match ev with
  | EvTruncate p => <[p := []]> fs
  | EvAppend p chunk => <[p := default [] (fs !! p) ++ chunk]> fs
  | EvRename src dst =>
      match fs !! src with
      | Some c => <[dst := c]> (delete src fs)
      | None => fs
      end
  | EvRemove p => delete p fs
  end.

(** The file systems a run of events goes through, the last one last. *)
Fixpoint fs_trace (fs : gmap pystr pystr) (evs : list fs_event)
  : list (gmap pystr pystr) :=
  match evs with
  | [] => []
  | ev :: evs' => fs_apply fs ev :: fs_trace (fs_apply fs ev) evs'
  end.

Definition fs_run (fs : gmap pystr pystr) (evs : list fs_event)
  : gmap pystr pystr :=
  fold_left fs_apply evs fs.

(** A run of events replaces the file [p] as a whole, for whoever reads it
    meanwhile, when every file system the run goes through shows [p] either
    as it was before the run or as it is after it. *)
Definition atomic_replace (fs : gmap pystr pystr) (p : pystr)
    (evs : list fs_event) : Prop :=
  Forall (fun st => st !! p = fs !! p \/ st !! p = fs_run fs evs !! p)
    (fs_trace fs evs).

(** A run of events rewrites the file [p] in place with [text]: it cuts
    [p] to length zero and appends to it, and touches no other path; the
    first thing a reader can see is the empty file, what it sees at any
    time is the beginning of [text], and the whole of [text] at the end. *)
Definition rewrites_in_place (fs : gmap pystr pystr) (p text : pystr)
    (evs : list fs_event) : Prop :=
  Forall (fun ev => ev = EvTruncate p \/ exists c, ev = EvAppend p c) evs /\
  (exists rest, fs_trace fs evs = <[p := []]> fs :: rest) /\
  Forall (fun st =>
            (exists pre, st !! p = Some pre /\ pre `prefix_of` text) /\
            forall q, q <> p -> st !! q = fs !! q)
    (fs_trace fs evs) /\
  fs_run fs evs !! p = Some text.

(** The pieces of a text, [S n] characters each; the fuel is the length. *)
Fixpoint chunks (fuel n : nat) (s : pystr) : list pystr :=
  match fuel, s with
  | S f, _ :: _ => firstn (S n) s :: chunks f n (skipn (S n) s)
  | _, _ => []
  end.

(** [json.dump(self.data_index, f, indent=2)] *)
Definition entry_fields (e : entry) : list (pystr * pystr) :=
  [(lit "hash", e_hash e);
   (lit "data_type", e_data_type e);
   (lit "paper_id", e_paper_id e);
   (lit "user_id", e_user_id e);
   (lit "timestamp", e_timestamp e)].

Definition dump_index (idx : index) : pystr :=
  match idx with
  | [] => lit "{}"
  | _ =>
      lit "{" ++ Json.indent 1
        ++ join (lit "," ++ Json.indent 1)
             (map (fun kv => Json.quoted Json.escape_char_ascii (fst kv)
                               ++ lit ": "
                               ++ Json.dumps_str_dict_indent 1
                                    (entry_fields (snd kv))) idx)
        ++ Json.indent 0 ++ lit "}"
  end.

(** The service: where the index is kept, and the index in memory. [bufsize]
    is the size of the interpreter's write buffer, less one. *)
Record service : Type := {
  data_index_path : pystr;
  data_index : index;
  bufsize : nat
}.

Definition with_index (s : service) (idx : index) : service :=
  {| data_index_path := data_index_path s;
     data_index := idx;
     bufsize := bufsize s |}.

(** [_save_data_index]: the events of
    [with open(self.data_index_path, "w") as f: json.dump(...)]. *)
Definition _save_data_index (s : service) : list fs_event :=
  let text := dump_index (data_index s) in
  EvTruncate (data_index_path s)
    :: map (EvAppend (data_index_path s))
         (chunks (length text) (bufsize s) text).

(** [add_data_to_index]. [now_stamp] is [datetime.utcnow().timestamp()] as
    the f-string prints it and [now_iso] the later
    [datetime.utcnow().isoformat()]. The result is the entry id, the service
    afterwards and the events of the save. *)
Definition add_data_to_index (s : service)
    (data_hash data_type paper_id user_id now_stamp now_iso : pystr)
  : pystr * service * list fs_event :=
  let entry_id :=
    lit "entry_" ++ paper_id ++ lit "_" ++ user_id ++ lit "_" ++ now_stamp in
  let e :=
    {| e_hash := data_hash;
       e_data_type := data_type;
       e_paper_id := paper_id;
       e_user_id := user_id;
       e_timestamp := now_iso |} in
  let s' := with_index s (dict_set entry_id e (data_index s)) in
  (entry_id, s', _save_data_index s').

(** [remove_data_from_index] *)
Definition remove_data_from_index (s : service) (entry_id : pystr)
  : bool * service * list fs_event :=
  if dict_mem entry_id (data_index s) then
    let s' := with_index s (dict_del entry_id (data_index s)) in
    (true, s', _save_data_index s')
  else (false, s, []).

(** *** Reading the index back *)

(** The object of an entry, as it is read. *)
Definition entry_value (e : entry) : Json.value :=
  Json.JObj (map (fun kv => (kv.1, Json.JStr kv.2)) (entry_fields e)).

(** An entry whose fields are texts of scalar values. *)
Definition scalar_entry (e : entry) : Prop :=
  Forall (fun kv => scalar_text kv.2) (entry_fields e).

(** An entry, of the object that was read for it: the five fields in the
    order in which [add_data_to_index] sets them, each a text. *)
Definition entry_of_value (v : Json.value) : option entry :=
  match v with
  | Json.JObj [(k1, Json.JStr h); (k2, Json.JStr t); (k3, Json.JStr p);
               (k4, Json.JStr u); (k5, Json.JStr ts)] =>
      if str_eqb k1 (lit "hash") && str_eqb k2 (lit "data_type")
           && str_eqb k3 (lit "paper_id") && str_eqb k4 (lit "user_id")
           && str_eqb k5 (lit "timestamp")
      then Some {| e_hash := h; e_data_type := t; e_paper_id := p;
                   e_user_id := u; e_timestamp := ts |}
      else None
  | _ => None
  end.

Definition index_of_value (v : Json.value) : option index :=
  match v with
  | Json.JObj items =>
      mapM (fun kv => match entry_of_value kv.2 with
                      | Some e => Some (kv.1, e)
                      | None => None
                      end) items
  | _ => None
  end.

(** [_load_data_index], for a service that finds the files [fs]: without
    a file the index is empty, and so it is when [json.load] raises, whatever
    it raises. [int_max_str_digits] and [depth] are the limits of the
    interpreter on the digits of an integer and on nested containers. The
    result is [None] where the file holds a JSON document that is not an
    index as [_save_data_index] writes one, an object of objects of the five
    fields. *)
Definition _load_data_index (int_max_str_digits depth : nat)
    (fs : gmap pystr pystr) (s : service) : option service :=
  match fs !! data_index_path s with
  | Some text =>
      match Json.loads int_max_str_digits depth text with
      | Some v =>
          match index_of_value v with
          | Some idx => Some (with_index s idx)
          | None => None
          end
      | None => Some (with_index s [])
      end
  | None => Some (with_index s [])
  end.

End DataDeduplication.

(** ** src/agents/data_management/deduplication_scheduler.py *)

Module DeduplicationScheduler.
Import Py DataDeduplication.

(** A call of [UserNotifier.send_deduplication_alert]. *)
Record alert : Type := {
  a_user_id : pystr;
  a_message : pystr;
  a_duplicate_info : option (list match_item * pystr * pystr);
  a_similar_info : option (list match_item * pystr * pystr)
}.

(** An item of [results["details"]]. *)
Record detail : Type := {
  d_entry_id : pystr;
  d_paper_id : pystr;
  d_user_id : pystr;
  d_data_type : pystr;
  d_timestamp : pystr;
  d_has_duplicate : bool;
  d_has_similar : bool;
  d_recommendation : pystr
}.

(** [results], without the time of the run. *)
Record results : Type := {
  total_data : nat;
  checked_data : nat;
  duplicate_found : nat;
  similar_found : nat;
  details : list detail
}.

(** [data_ids and entry_id not in data_ids]: the entry is passed over. *)
Definition skipped (data_ids : option (list pystr)) (entry_id : pystr)
  : bool :=
  match data_ids with
  | None | Some [] => false
  | Some ids => negb (existsb (str_eqb entry_id) ids)
  end.

(** The entries of [l] that a run restricted to [data_ids] checks. *)
Definition checked (data_ids : option (list pystr)) (l : index) : index :=
  List.filter (fun item => negb (skipped data_ids (fst item))) l.

(** The two alerts of the loop of [run_deduplication], for the entry [e]
    and the result [check] of its check. *)
Definition duplicate_alert (e : entry) (check : verdict) : alert :=
  {| a_user_id := e_user_id e;
     a_message := lit "Exact duplicate found during scheduled deduplication";
     a_duplicate_info :=
       Some (similar_data check, v_data_hash check, v_data_type check);
     a_similar_info := None |}.

Definition similar_alert (e : entry) (check : verdict) : alert :=
  {| a_user_id := e_user_id e;
     a_message := lit "Similar data found during scheduled deduplication";
     a_duplicate_info := None;
     a_similar_info :=
       Some (similar_data check, v_data_hash check, v_data_type check) |}.

(** The check of an entry against the index, with its own hash. *)
Definition recheck (idx : index) (e : entry) : verdict :=
  check_duplication_by_hash idx (e_hash e) (e_data_type e)
    (e_paper_id e) (e_user_id e).

(** The body of the loop of [run_deduplication] for one entry: the results
    and the alerts sent so far, updated. *)
Definition check_entry (idx : index) (data_ids : option (list pystr))
    (acc : results * list alert) (item : pystr * entry)
  : results * list alert :=
  if skipped data_ids (fst item) then acc
  else
    let e := snd item in
    let check := recheck idx e in
    let sent1 :=
      if has_duplicate check
      then snd acc ++ [duplicate_alert e check] else snd acc in
    let sent2 :=
      if has_similar check then sent1 ++ [similar_alert e check] else sent1 in
    ({| total_data := total_data (fst acc);
        checked_data := S (checked_data (fst acc));
        duplicate_found :=
          if has_duplicate check then S (duplicate_found (fst acc))
          else duplicate_found (fst acc);
        similar_found :=
          if has_similar check then S (similar_found (fst acc))
          else similar_found (fst acc);
        details :=
          details (fst acc) ++
            [{| d_entry_id := fst item;
                d_paper_id := e_paper_id e;
                d_user_id := e_user_id e;
                d_data_type := e_data_type e;
                d_timestamp := e_timestamp e;
                d_has_duplicate := has_duplicate check;
                d_has_similar := has_similar check;
                d_recommendation := recommendation check |}] |},
     sent2).

(** [run_deduplication]: the results it returns and the alerts it sends, in
    order. (The summary it writes to the log directory is left out.) *)
Definition run_deduplication (idx : index) (data_ids : option (list pystr))
  : results * list alert :=
  fold_left (check_entry idx data_ids) idx
    ({| total_data := length idx;
        checked_data := 0;
        duplicate_found := 0;
        similar_found := 0;
        details := [] |}, []).

(** [trigger_manual_deduplication] *)
Definition trigger_manual_deduplication (idx : index)
    (data_ids : option (list pystr)) : results * list alert :=
  run_deduplication idx data_ids.

End DeduplicationScheduler.

(** ** src/core/models/paper_model.py *)

Module PaperModel.
Import Py Datetime.

Record SpaceCoordinate : Type := {
  latitude : float;
  longitude : float;
  altitude : option float;
  coordinate_system : pystr
}.

Record FourDDataReference : Type := {
  ref_data_id : pystr;
  ref_timestamp : datetime;
  ref_space_coordinate : option SpaceCoordinate;
  ref_data_hash : pystr;
  ref_data_type : pystr;
  ref_description : option pystr
}.

Record PaperVersion : Type := {
  version_id : pystr;
  version_number : Z;
  create_time : datetime;
  update_reason : pystr;
  four_d_data_references : list FourDDataReference;
  paper_content_hash : pystr;
  author_team : list pystr;
  space_context : option SpaceCoordinate
}.

Record DynamicPaper : Type := {
  paper_id : pystr;
  title : pystr;
  research_purpose : pystr;
  creator : pystr;
  paper_create_time : datetime;
  latest_version : Z;
  versions : list PaperVersion;
  is_encrypted : bool;
  access_permissions : list (pystr * pystr);
  long_term_tracking : bool
}.

(** The paper with another version list and latest version number. *)
Definition with_versions (self : DynamicPaper) (vs : list PaperVersion)
    (latest : Z) : DynamicPaper :=
  {| paper_id := paper_id self;
     title := title self;
     research_purpose := research_purpose self;
     creator := creator self;
     paper_create_time := paper_create_time self;
     latest_version := latest;
     versions := vs;
     is_encrypted := is_encrypted self;
     access_permissions := access_permissions self;
     long_term_tracking := long_term_tracking self |}.

(** [DynamicPaper.add_new_version]: what the call gives and the paper after
    it. *)
Definition add_new_version (self : DynamicPaper) (version : PaperVersion)
  : outcome unit * DynamicPaper :=
  if negb (version_number version =? latest_version self + 1)%Z then
    (Raise (Exn (lit "ValueError")
              (lit "Invalid version number: expected "
                 ++ str_of_Z (latest_version self + 1) ++ lit ", got "
                 ++ str_of_Z (version_number version))),
     self)
  else
    (Ok tt,
     with_versions self (versions self ++ [version])
       (version_number version)).

(** The paper after a run of calls of [add_new_version], one per version
    of the list, the calls that raise included. *)
Definition after_calls (self : DynamicPaper) (vs : list PaperVersion)
  : DynamicPaper :=
  fold_left (fun p v => snd (add_new_version p v)) vs self.

End PaperModel.

(** ** src/core/security/hash_utils.py *)

Module HashUtils.
Import Py.

(** [calculate_data_hash] on a [str]. *)
Definition calculate_data_hash (data : pystr) : outcome pystr :=
  bs ← utf8_encode data; Ok (Sha256.hexdigest bs).

End HashUtils.

(** ** Files: HDF5 containers and encrypted tokens *)

Module Storage.
Import Py.

(** A [numpy.ndarray] of integers with at least one axis: what
    [create_dataset] stores and [f[key][:]] reads back. *)
Record array : Type := {
  shape : list N;
  items : list Z
}.

(** An HDF5 file: its attributes, each a JSON text kept as the value it
    encodes, and its datasets by name. *)
Record h5file : Type := {
  attrs : gmap pystr Json.value;
  datasets : gmap pystr array
}.

(** The bytes of a file: an HDF5 container, or the token that
    [Fernet(key).encrypt] makes of the bytes of a file. *)
Inductive content : Type :=
| Hdf5 (f : h5file)
| Token (key : list N) (plain : content).

(** [os.path.join(a, b)] *)
Definition is_absolute (b : pystr) : bool :=
  match b with
  | c :: _ => c =? 47
  | [] => false
  end.

Definition ends_with_slash (a : pystr) : bool :=
  match last a with
  | Some c => c =? 47
  | None => true
  end.

Definition path_join (a b : pystr) : pystr :=
  if is_absolute b then b
  else if ends_with_slash a then a ++ b
  else a ++ lit "/" ++ b.

End Storage.

(** ** src/core/security/encryption.py *)

Module Encryption.
Import Py Storage.

(** [encrypt_content]: Fernet is authenticated encryption, and a token
    opens under the key that made it and under no other. *)
Definition encrypt_content (raw : content) (key : list N) : content :=
  Token key raw.

(** [decrypt_content] *)
Definition decrypt_content (encrypted : content) (key : list N)
  : outcome content :=
  match encrypted with
  | Token k plain =>
      if bool_decide (k = key) then Ok plain
      else Raise (Exn (lit "ValueError")
                    (lit "Decryption failed: invalid key or tampered content"))
  | Hdf5 _ =>
      Raise (Exn (lit "ValueError")
               (lit "Decryption failed: invalid key or tampered content"))
  end.

End Encryption.

(** ** src/agents/data_management/four_d_data_handler.py *)

Module FourDDataHandler.
Import Py Datetime PaperModel Storage Encryption.

(** [data_content]: an array, or a dictionary of arrays (its keys distinct
    plain names, in insertion order). *)
Inductive payload : Type :=
| Single (a : array)
| Keyed (d : list (pystr * array)).

(** [result["data"]]: an array or a dictionary of arrays. *)
Inductive loaded_data : Type :=
| LArray (a : array)
| LDict (d : gmap pystr array).

(** The dictionary [load_four_d_data] returns. *)
Record result : Type := {
  r_metadata : Json.value;
  r_data : loaded_data
}.

(** [space_coordinate.dict()] *)
Definition coordinate_dict (c : SpaceCoordinate) : Json.value :=
  Json.JObj
    [(lit "latitude", Json.JFloat (latitude c));
     (lit "longitude", Json.JFloat (longitude c));
     (lit "altitude",
      match altitude c with
      | Some a => Json.JFloat a
      | None => Json.JNull
      end);
     (lit "coordinate_system", Json.JStr (coordinate_system c))].

(** [data_space != space_coordinate.dict()], for what [save_four_d_data]
    stores under "space_coordinate". *)
Definition float_field_eqb (v : option Json.value) (x : option float)
  : bool :=
  match v, x with
  | Some (Json.JFloat a), Some b => PrimFloat.eqb a b
  | Some Json.JNull, None => true
  | _, _ => false
  end.

Definition coordinate_differs (data_space : Json.value)
    (c : SpaceCoordinate) : bool :=
  match data_space with
  | Json.JObj d =>
      negb ((length d =? 4)%nat
            && float_field_eqb (dict_get (lit "latitude") d)
                 (Some (latitude c))
            && float_field_eqb (dict_get (lit "longitude") d)
                 (Some (longitude c))
            && float_field_eqb (dict_get (lit "altitude") d) (altitude c)
            && match dict_get (lit "coordinate_system") d with
               | Some (Json.JStr s) => str_eqb s (coordinate_system c)
               | _ => false
               end)
  | _ => true
  end.

(** One of the three numbers of a coordinate is not a number. *)
Definition has_nan (c : SpaceCoordinate) : bool :=
  PrimFloat.is_nan (latitude c) || PrimFloat.is_nan (longitude c)
  || match altitude c with
     | Some a => PrimFloat.is_nan a
     | None => false
     end.

(** [str(t)] for a [datetime]: [isoformat] with a space for the "T". *)
Definition str_of_datetime (t : datetime) : pystr :=
  map (fun c => if c =? 84 then 32 else c) (isoformat t).

Section Handler.
  (** [str(data_content)], which numpy prints. *)
  Variable payload_str : payload -> pystr.
  (** [self.storage_path] *)
  Variable storage_path : pystr.

Definition hdf5_ext : pystr := lit ".h5.enc".

(** The metadata of step 1. [now] is [datetime.utcnow()]. *)
Definition metadata_of (data_id user_id paper_id : pystr)
    (timestamp : datetime) (space_coordinate : option SpaceCoordinate)
    (data_hash : pystr) (now : datetime) : Json.value :=
  Json.JObj
    [(lit "data_id", Json.JStr data_id);
     (lit "user_id", Json.JStr user_id);
     (lit "paper_id", Json.JStr paper_id);
     (lit "timestamp", Json.JStr (isoformat timestamp));
     (lit "space_coordinate",
      match space_coordinate with
      | Some c => coordinate_dict c
      | None => Json.JNull
      end);
     (lit "data_hash", Json.JStr data_hash);
     (lit "create_time", Json.JStr (isoformat now))].

(** The datasets of step 2. *)
Definition datasets_of (data_content : payload) : gmap pystr array :=
  match data_content with
  | Keyed d => list_to_map d
  | Single a => {[ lit "data" := a ]}
  end.

(** [save_four_d_data]: what the call gives and the files afterwards. *)
Definition save_four_d_data (fs : gmap pystr content)
    (data_content : payload) (data_id user_id paper_id : pystr)
    (timestamp : datetime) (space_coordinate : option SpaceCoordinate)
    (encryption_key : list N) (now : datetime)
  : outcome pystr * gmap pystr content :=
  match HashUtils.calculate_data_hash (payload_str data_content) with
  | Raise e => (Raise e, fs)
  | Ok data_hash =>
      let metadata :=
        metadata_of data_id user_id paper_id timestamp space_coordinate
          data_hash now in
      let hdf5_path := path_join storage_path (data_id ++ lit ".h5") in
      let file :=
        {| attrs := {[ lit "metadata" := metadata ]};
           datasets := datasets_of data_content |} in
      let fs1 := <[hdf5_path := Hdf5 file]> fs in
      let encrypted_data := encrypt_content (Hdf5 file) encryption_key in
      let encrypted_path := path_join storage_path (data_id ++ hdf5_ext) in
      let fs2 := <[encrypted_path := encrypted_data]> fs1 in
      (Ok encrypted_path, delete hdf5_path fs2)
  end.

(** Step 4 of [load_four_d_data]: reading the temporary file. *)
Definition read_temp (temp : content) (timestamp : option datetime)
    (space_coordinate : option SpaceCoordinate) : outcome result :=
  match temp with
  | Token _ _ =>
      Raise (library_error (lit "OSError"))
  | Hdf5 f =>
      match attrs f !! lit "metadata" with
      | None => Raise (Exn (lit "KeyError") (lit "'metadata'"))
      | Some (Json.JObj md as metadata) =>
          _ ← match timestamp with
              | None => Ok tt
              | Some t =>
                  match dict_get (lit "timestamp") md with
                  | Some (Json.JStr text) =>
                      match fromisoformat text with
                      | None =>
                          Raise (library_error (lit "ValueError"))
                      | Some data_timestamp =>
                          if neqb data_timestamp t then
                            Raise (Exn (lit "ValueError")
                                     (lit "Timestamp mismatch: expected "
                                        ++ str_of_datetime t ++ lit ", got "
                                        ++ str_of_datetime data_timestamp))
                          else Ok tt
                      end
                  | Some _ =>
                      Raise (library_error (lit "TypeError"))
                  | None => Raise (Exn (lit "KeyError") (lit "'timestamp'"))
                  end
              end;
          _ ← match space_coordinate with
              | None => Ok tt
              | Some c =>
                  match dict_get (lit "space_coordinate") md with
                  | None =>
                      Raise (Exn (lit "KeyError") (lit "'space_coordinate'"))
                  | Some data_space =>
                      if coordinate_differs data_space c then
                        (* the text goes on with the two coordinates *)
                        Raise (Exn (lit "ValueError")
                                 (lit "Spatial coordinate mismatch"))
                      else Ok tt
                  end
              end;
          let data := datasets f in
          if (1 <? size data)%nat then
            Ok {| r_metadata := metadata; r_data := LDict data |}
          else
            match data !! lit "data" with
            | Some a => Ok {| r_metadata := metadata; r_data := LArray a |}
            | None => Raise (Exn (lit "KeyError") (lit "'data'"))
            end
      | Some _ =>
          Raise (library_error (lit "TypeError"))
      end
  end.

(** [load_four_d_data]: what the call gives and the files afterwards (the
    temporary file stays when step 4 raises). *)
Definition load_four_d_data (fs : gmap pystr content) (data_id : pystr)
    (encryption_key : list N) (timestamp : option datetime)
    (space_coordinate : option SpaceCoordinate)
  : outcome result * gmap pystr content :=
  let encrypted_path := path_join storage_path (data_id ++ hdf5_ext) in
  match fs !! encrypted_path with
  | None =>
      (Raise (Exn (lit "FileNotFoundError")
                (lit "4D data " ++ data_id ++ lit " not found")), fs)
  | Some encrypted_data =>
      match decrypt_content encrypted_data encryption_key with
      | Raise e => (Raise e, fs)
      | Ok decrypted_data =>
          let temp_hdf5_path :=
            path_join storage_path (data_id ++ lit "_temp.h5") in
          let fs1 := <[temp_hdf5_path := decrypted_data]> fs in
          match read_temp decrypted_data timestamp space_coordinate with
          | Raise e => (Raise e, fs1)
          | Ok r => (Ok r, delete temp_hdf5_path fs1)
          end
      end
  end.

End Handler.

(** Two stores hold the same encrypted files: they agree on every path
    that ends in "c", as the paths of the encrypted files do, and may differ
    in the temporary files, whose paths end in "5". *)
Definition same_encrypted (fs1 fs2 : gmap pystr content) : Prop :=
  forall q, last q = Some 99 -> fs1 !! q = fs2 !! q.

(** *** Tracing the data of a paper *)

Section Tracing.
  (** [self.storage_path] *)
  Variable storage_path : pystr.
  (** [datetime.fromisoformat]; [None] stands for its [ValueError], and for
      a result with a time zone, whose comparison with the bounds raises
      [TypeError]. *)
  Variable fromisoformat : pystr -> option datetime.

(** [_extract_metadata_without_decrypt]: what the call gives and the files
    afterwards (the temporary file stays when the container cannot be
    read). *)
Definition _extract_metadata_without_decrypt (fs : gmap pystr content)
    (encrypted_data : content) (key : list N)
  : outcome Json.value * gmap pystr content :=
  match decrypt_content encrypted_data key with
  | Raise e => (Raise e, fs)
  | Ok decrypted_data =>
      let temp_path := path_join storage_path (lit "temp_metadata.h5") in
      let fs1 := <[temp_path := decrypted_data]> fs in
      match decrypted_data with
      | Token _ _ => (Raise (library_error (lit "OSError")), fs1)
      | Hdf5 f =>
          match attrs f !! lit "metadata" with
          | None => (Raise (Exn (lit "KeyError") (lit "'metadata'")), fs1)
          | Some metadata => (Ok metadata, delete temp_path fs1)
          end
      end
  end.

(** [metadata[k]] for what [json.loads] returned. *)
Definition subscript (metadata : Json.value) (k : pystr)
  : outcome Json.value :=
  match metadata with
  | Json.JObj d =>
      match dict_get k d with
      | Some v => Ok v
      | None => Raise (Exn (lit "KeyError") (lit "'" ++ k ++ lit "'"))
      end
  | _ => Raise (library_error (lit "TypeError"))
  end.

(** [v == s] for a value that was read and a [str]. *)
Definition equals_str (v : Json.value) (s : pystr) : bool :=
  match v with
  | Json.JStr x => str_eqb x s
  | _ => false
  end.

(** The filters of lines 187 to 191: the paper, then the user, then the
    time. *)
Definition selected (metadata : Json.value) (paper_id user_id : pystr)
    (start_time end_time : datetime) : outcome bool :=
  p ← subscript metadata (lit "paper_id");
  if negb (equals_str p paper_id) then Ok false
  else
    u ← subscript metadata (lit "user_id");
    if negb (equals_str u user_id) then Ok false
    else
      ts ← subscript metadata (lit "timestamp");
      match ts with
      | Json.JStr text =>
          match fromisoformat text with
          | Some data_timestamp =>
              Ok (leb start_time data_timestamp
                  && leb data_timestamp end_time)
          | None => Raise (library_error (lit "ValueError"))
          end
      | _ => Raise (library_error (lit "TypeError"))
      end.

(** The body of the loop over the names of the directory: [traced_data]
    and the files, after the name [filename]. Whatever the [try] block raises
    is passed over. *)
Definition trace_file (paper_id user_id : pystr)
    (start_time end_time : datetime) (key : list N)
    (acc : list (pystr * result) * gmap pystr content) (filename : pystr)
  : list (pystr * result) * gmap pystr content :=
  if negb (endswith hdf5_ext filename) then acc
  else
    let data_id := replace hdf5_ext [] filename in
    match snd acc !! path_join storage_path filename with
    | None => acc
    | Some encrypted_data =>
        match
          _extract_metadata_without_decrypt (snd acc) encrypted_data key
        with
        | (Raise _, fs1) => (fst acc, fs1)
        | (Ok metadata, fs1) =>
            match selected metadata paper_id user_id start_time end_time with
            | Ok true =>
                match load_four_d_data storage_path fs1 data_id key None None
                with
                | (Ok r, fs2) => (dict_set data_id r (fst acc), fs2)
                | (Raise _, fs2) => (fst acc, fs2)
                end
            | _ => (fst acc, fs1)
            end
        end
    end.

(** [trace_four_d_data_by_time]. [listing] is [os.listdir] of the storage
    directory, in the order it gives the names. *)
Definition trace_four_d_data_by_time (fs : gmap pystr content)
    (listing : list pystr) (paper_id : pystr)
    (start_time end_time : datetime) (user_id : pystr) (key : list N)
  : list (pystr * result) * gmap pystr content :=
  fold_left (trace_file paper_id user_id start_time end_time key) listing
    ([], fs).

End Tracing.

End FourDDataHandler.

(** ** src/storage/timeseries_db.py *)

Module TimeSeriesDB.
Import Py Datetime.

(** [s.split("_")] *)
Fixpoint split_on (sep : N) (s : pystr) : list pystr :=
  match s with
  | [] => [[]]
  | c :: s' =>
      if c =? sep then [] :: split_on sep s'
      else match split_on sep s' with
           | p :: ps => (c :: p) :: ps
           | [] => [[c]]
           end
  end.

(** The key of a version in the group of its paper (line 52). *)
Definition ts_key (timestamp : datetime) (version_number : Z) : pystr :=
  strftime_key timestamp ++ lit "_" ++ str_of_Z version_number.

(** A dataset of a paper group, as [json.loads(paper_group[ts_key][()])]
    finds it: the value it decodes to, or [None] when reading or decoding
    raises. *)
Abbreviation dataset := (option Json.value).

(** The group of a paper: its members in the order of iteration. *)
Abbreviation group := (list (pystr * dataset)).

(** A version as the range query returns it: a dictionary. *)
Abbreviation version_data := (list (pystr * Json.value)).

Section Queries.
  (** [datetime.strptime(s, "%Y%m%d_%H%M%S_%f")]; [None] stands for its
      [ValueError]. *)
  Variable strptime : pystr -> option datetime.

(** Lines 108-109: the timestamp in a key; [None] when the key has fewer
    than three parts ([IndexError]) or when [strptime] raises. *)
Definition key_timestamp (key : pystr) : option datetime :=
  match split_on 95 key with
  | p0 :: p1 :: p2 :: _ => strptime (p0 ++ lit "_" ++ p1 ++ lit "_" ++ p2)
  | _ => None
  end.

(** [version_data["timestamp"] = version_ts.isoformat()] *)
Definition stamped (version_ts : datetime) (fields : version_data)
  : version_data :=
  dict_set (lit "timestamp") (Json.JStr (isoformat version_ts)) fields.

Definition stamped_pair (x : datetime * version_data) : version_data :=
  stamped (fst x) (snd x).

(** The body of the loop over the keys of the group: [versions] with the
    version of the member appended, or as it was when the member is out of
    the range or anything in the [try] block raises. *)
Definition scan_member (start_time end_time : datetime)
    (versions : list version_data) (member : pystr * dataset)
  : list version_data :=
  match key_timestamp (fst member) with
  | None => versions
  | Some version_ts =>
      if leb start_time version_ts && leb version_ts end_time then
        match snd member with
        | Some (Json.JObj fields) => versions ++ [stamped version_ts fields]
        | _ => versions
        end
      else versions
  end.

(** The sort key [x["timestamp"]]. Every version of the list holds the key,
    with a string. *)
Definition timestamp_of (x : version_data) : pystr :=
  match dict_get (lit "timestamp") x with
  | Some (Json.JStr s) => s
  | _ => []
  end.

(** [get_versions_by_time_range], on the group "papers" of the file. *)
Definition get_versions_by_time_range (papers : gmap pystr group)
    (paper_id : pystr) (start_time end_time : datetime)
  : list version_data :=
  match papers !! paper_id with
  | None => []
  | Some paper_group =>
      stable_sort timestamp_of str_ltb
        (fold_left (scan_member start_time end_time) paper_group [])
  end.

(** The members of a group that hold a version whose key gives a timestamp
    in the range, each with that timestamp. *)
Definition in_range (start_time end_time : datetime) (g : group)
  : list (datetime * version_data) :=
  omap (fun member =>
          match key_timestamp (fst member), snd member with
          | Some t, Some (Json.JObj fields) =>
              if leb start_time t && leb t end_time
              then Some (t, fields) else None
          | _, _ => None
          end) g.

End Queries.

(** *** Insertion, and the version at a timestamp *)

(** The file: the group "papers" and the group "timestamps", which holds
    for each year the attributes of its group. *)
Record database : Type := {
  papers : gmap pystr group;
  timestamps : gmap pystr (gmap pystr pystr)
}.

(** [version.dict()] after the loop of lines 47 to 49, which turns the
    [datetime] values of the top level into their ISO texts. *)
Definition version_fields (version : PaperModel.PaperVersion)
  : version_data :=
  [(lit "version_id", Json.JStr (PaperModel.version_id version));
   (lit "version_number", Json.JInt (PaperModel.version_number version));
   (lit "create_time",
    Json.JStr (isoformat (PaperModel.create_time version)));
   (lit "update_reason", Json.JStr (PaperModel.update_reason version));
   (lit "four_d_data_references", Json.JArr []);
   (lit "paper_content_hash",
    Json.JStr (PaperModel.paper_content_hash version));
   (lit "author_team",
    Json.JArr (map Json.JStr (PaperModel.author_team version)));
   (lit "space_context",
    match PaperModel.space_context version with
    | Some c => FourDDataHandler.coordinate_dict c
    | None => Json.JNull
    end)].

(** [json.dumps(version_dict)], as the value the text encodes. The
    dictionary of a reference holds the timestamp of the reference, a
    [datetime] that the loop does not reach: with a reference in it the
    dictionary cannot be written. *)
Definition dumps_version (version : PaperModel.PaperVersion)
  : outcome Json.value :=
  match PaperModel.four_d_data_references version with
  | [] => Ok (Json.JObj (version_fields version))
  | _ :: _ =>
      Raise (Exn (lit "TypeError")
               (lit "Object of type datetime is not JSON serializable"))
  end.

(** [insert_paper_version]: what the call gives and the file afterwards.
    The paper id is a plain name. A new member is put last in the order of
    iteration (the library decides the order; what is proved of an insertion
    holds for any). *)
Definition insert_paper_version (db : database) (paper_id : pystr)
    (version : PaperModel.PaperVersion) (timestamp : datetime)
  : outcome unit * database :=
  let key := ts_key timestamp (PaperModel.version_number version) in
  let paper_group := default [] (papers db !! paper_id) in
  let created :=
    {| papers := <[paper_id := paper_group]> (papers db);
       timestamps := timestamps db |} in
  match dumps_version version with
  | Raise e => (Raise e, created)
  | Ok text =>
      if dict_mem key paper_group then
        (Raise (library_error (lit "ValueError")), created)
      else
        let year := dec_fixed 4 (Datetime.year (dt timestamp)) in
        let year_group := default ∅ (timestamps db !! year) in
        (Ok tt,
         {| papers :=
              <[paper_id := paper_group ++ [(key, Some (Json.reload text))]]>
                (papers db);
            timestamps :=
              <[year :=
                  <[key := lit "papers/" ++ paper_id ++ lit "/" ++ key]>
                    year_group]> (timestamps db) |})
  end.

(** [get_version_by_timestamp], on the group "papers" of the file: the
    version of the first member whose key starts with the timestamp, or
    [None]. *)
Definition get_version_by_timestamp (papers : gmap pystr group)
    (paper_id : pystr) (timestamp : datetime) : option Json.value :=
  match papers !! paper_id with
  | None => None
  | Some paper_group =>
      match
        List.find (fun member => startswith (strftime_key timestamp)
                                   (fst member)) paper_group
      with
      | Some member => snd member
      | None => None
      end
  end.

End TimeSeriesDB.

(** ** src/agents/notification/user_notifier.py *)

Module UserNotifier.
Import Py Datetime Storage.

(** A notification: a dictionary. *)
Abbreviation notification := (list (pystr * Json.value)).

(** The notification files: for each path, the list that was written to
    the file. A file is read with [json.load], which gives the values as they
    are read back. *)
Abbreviation files := (gmap pystr (list notification)).

Definition read_back (n : notification) : notification :=
  match Json.reload (Json.JObj n) with
  | Json.JObj n' => n'
  | _ => n
  end.

Definition optional_str (s : option pystr) : Json.value :=
  match s with
  | Some s => Json.JStr s
  | None => Json.JNull
  end.

Definition optional (v : option Json.value) : Json.value :=
  match v with
  | Some v => v
  | None => Json.JNull
  end.

Section Notifier.
  (** [self.notification_path] *)
  Variable notification_path : pystr.

(** [_get_user_notification_path] *)
Definition _get_user_notification_path (user_id : pystr) : pystr :=
  path_join notification_path (user_id ++ lit "_notifications.json").

(** [_save_notification]: the files afterwards. *)
Definition _save_notification (fs : files) (user_id : pystr)
    (n : notification) : files :=
  let path := _get_user_notification_path user_id in
  let notifications :=
    match fs !! path with
    | Some stored => map read_back stored
    | None => []
    end in
  let notifications := n :: notifications in
  let notifications :=
    if (100 <? length notifications)%nat then firstn 100 notifications
    else notifications in
  <[path := notifications]> fs.

(** [send_progress_notification]; [now] is [datetime.utcnow()]. *)
Definition send_progress_notification (fs : files) (user_id message : pystr)
    (task_id : option pystr) (now : datetime) : files :=
  _save_notification fs user_id
    [(lit "type", Json.JStr (lit "progress"));
     (lit "message", Json.JStr message);
     (lit "task_id", optional_str task_id);
     (lit "timestamp", Json.JStr (isoformat now));
     (lit "read", Json.JBool false)].

(** [send_success_notification] *)
Definition send_success_notification (fs : files) (user_id message : pystr)
    (task_id : option pystr) (data : option Json.value) (now : datetime)
  : files :=
  _save_notification fs user_id
    [(lit "type", Json.JStr (lit "success"));
     (lit "message", Json.JStr message);
     (lit "task_id", optional_str task_id);
     (lit "data", optional data);
     (lit "timestamp", Json.JStr (isoformat now));
     (lit "read", Json.JBool false)].

(** [send_error_notification] *)
Definition send_error_notification (fs : files) (user_id message : pystr)
    (task_id error_details : option pystr) (now : datetime) : files :=
  _save_notification fs user_id
    [(lit "type", Json.JStr (lit "error"));
     (lit "message", Json.JStr message);
     (lit "task_id", optional_str task_id);
     (lit "error_details", optional_str error_details);
     (lit "timestamp", Json.JStr (isoformat now));
     (lit "read", Json.JBool false)].

Definition action (id label : string) : Json.value :=
  Json.JObj [(lit "id", Json.JStr (lit id));
             (lit "label", Json.JStr (lit label))].

(** [send_deduplication_alert] *)
Definition send_deduplication_alert (fs : files) (user_id message : pystr)
    (task_id : option pystr) (duplicate_info similar_info : option Json.value)
    (now : datetime) : files :=
  _save_notification fs user_id
    [(lit "type", Json.JStr (lit "deduplication_alert"));
     (lit "message", Json.JStr message);
     (lit "task_id", optional_str task_id);
     (lit "duplicate_info", optional duplicate_info);
     (lit "similar_info", optional similar_info);
     (lit "timestamp", Json.JStr (isoformat now));
     (lit "read", Json.JBool false);
     (lit "actions",
      Json.JArr [action "ignore" "Ignore";
                 action "replace" "Replace with existing";
                 action "merge" "Merge data";
                 action "review" "Review manually"])].

(** [get_user_notifications]: the list it returns and the files
    afterwards. *)
Definition get_user_notifications (fs : files) (user_id : pystr)
    (mark_as_read : bool) : list notification * files :=
  let path := _get_user_notification_path user_id in
  match fs !! path with
  | None => ([], fs)
  | Some stored =>
      let notifications := map read_back stored in
      if mark_as_read then
        let notifications :=
          map (dict_set (lit "read") (Json.JBool true)) notifications in
        (notifications, <[path := notifications]> fs)
      else (notifications, fs)
  end.

(** [get_unread_count] *)
Definition get_unread_count (fs : files) (user_id : pystr) : nat :=
  length
    (List.filter
       (fun n => negb (Json.truthy
                         (default (Json.JBool false)
                            (dict_get (lit "read") n))))
       (fst (get_user_notifications fs user_id false))).

End Notifier.

End UserNotifier.

(** ** src/agents/data_management/data_encryption.py *)

Module DataEncryptionService.
Import Py Storage Encryption.





End DataEncryptionService.

(** ** src/agents/data_management/data_ingestion.py: the file types *)

Module DataIngestion.
Import Py DataDeduplication.

(** [str.rfind] of one character: the last position that holds it. *)
Fixpoint rfind_from (c : N) (s : pystr) (i : nat) : option nat :=
  match s with
  | [] => None
  | x :: s' =>
      match rfind_from c s' (S i) with
      | Some j => Some j
      | None => if x =? c then Some i else None
      end
  end.

Definition rfind (c : N) (s : pystr) : option nat := rfind_from c s 0.

(** [os.path.splitext]: the extension starts at the last dot of the last
    component, unless only dots stand before it there. *)
Definition splitext (p : pystr) : pystr * pystr :=
  let filename_index :=
    match rfind 47 p with Some i => S i | None => O end in
  match rfind 46 p with
  | Some dot_index =>
      if (filename_index <=? dot_index)%nat
           && existsb (fun c => negb (c =? 46))
                (firstn (dot_index - filename_index) (skipn filename_index p))
      then (firstn dot_index p, skipn dot_index p)
      else (p, [])
  | None => (p, [])
  end.

Section Ingestion.
  (** [str.lower] maps a character outside ASCII by the tables of the
      Unicode database, and the capital sigma by where it stands: what stands
      for the character at a place of a text. *)
  Variable lower_other : pystr -> nat -> pystr.
  (** The readers of the libraries: [pd.read_csv], [pd.read_excel],
      [np.load], and [_load_hdf5], which reads with [h5py]. *)
  Variables read_csv read_excel np_load _load_hdf5 : pystr -> outcome pyval.

(** [str.lower] *)
Definition lower (s : pystr) : pystr :=
  concat
    (imap (fun i c =>
             if c <? 128
             then [if (65 <=? c) && (c <=? 90) then c + 32 else c]
             else lower_other s i) s).

Definition ext_of (data_path : pystr) : pystr :=
  lower (snd (splitext data_path)).

(** [_load_data] *)
Definition _load_data (data_path : pystr) : outcome pyval :=
  let ext := ext_of data_path in
  if str_eqb ext (lit ".csv") then read_csv data_path
  else if existsb (str_eqb ext) [lit ".xlsx"; lit ".xls"] then
    read_excel data_path
  else if existsb (str_eqb ext) [lit ".npy"; lit ".npz"] then
    np_load data_path
  else if str_eqb ext (lit ".h5") then _load_hdf5 data_path
  else Raise (Exn (lit "ValueError")
                (lit "Unsupported file format: " ++ ext)).

(** [_get_data_type] *)
Definition ext_map : list (pystr * pystr) :=
  [(lit ".csv", lit "tabular");
   (lit ".xlsx", lit "tabular");
   (lit ".xls", lit "tabular");
   (lit ".npy", lit "numpy_array");
   (lit ".npz", lit "numpy_array");
   (lit ".h5", lit "hdf5");
   (lit ".json", lit "json");
   (lit ".txt", lit "text")].

Definition _get_data_type (data_path : pystr) : pystr :=
  default (lit "unknown") (dict_get (ext_of data_path) ext_map).

End Ingestion.
End DataIngestion.

(** ** Loading a module

    What the interpreter does with the statements of a module when it is
    imported, as far as names go: imports, assignments and definitions bind
    names, and the expressions that are evaluated at that time (defaults,
    decorators, base classes and, when [eager] holds, annotations) must find
    their names bound. Annotations are evaluated when the [def] statement is
    executed in CPython before 3.14, for a module without
    [from __future__ import annotations]. *)

Module Loader.
Import Py.
Local Open Scope string_scope.

Inductive expr : Type :=
| Name (id : string)
| Attr (value : expr) (attr : string)
| Subscript (value : expr) (slice : list expr)
| Call (func : expr) (args : list expr)
| Const.

Inductive stmt : Type :=
| Import (name : string)
| ImportFrom (module : string) (names : list string)
| Expr (value : expr)
| Assign (target : string) (value : expr)
| AnnAssign (target : string) (annotation : expr) (value : option expr)
| FunctionDef (name : string) (defaults : list expr) (annotations : list expr)
| ClassDef (name : string) (bases : list expr) (body : list stmt).

(** The built-in names (the warning classes left out). *)
Definition builtins : list string :=
  ["ArithmeticError"; "AssertionError"; "AttributeError"; "BaseException";
   "EOFError"; "Ellipsis"; "Exception"; "False"; "FileExistsError";
   "FileNotFoundError"; "ImportError"; "IndexError"; "KeyError";
   "KeyboardInterrupt"; "LookupError"; "MemoryError"; "ModuleNotFoundError";
   "NameError"; "None"; "NotImplemented"; "NotImplementedError"; "OSError";
   "OverflowError"; "PermissionError"; "RecursionError"; "RuntimeError";
   "StopIteration"; "SyntaxError"; "SystemExit"; "TimeoutError"; "True";
   "TypeError"; "UnicodeDecodeError"; "UnicodeEncodeError"; "UnicodeError";
   "ValueError"; "ZeroDivisionError"; "abs"; "aiter"; "all"; "anext"; "any";
   "ascii"; "bin"; "bool"; "breakpoint"; "bytearray"; "bytes"; "callable";
   "chr"; "classmethod"; "compile"; "complex"; "delattr"; "dict"; "dir";
   "divmod"; "enumerate"; "eval"; "exec"; "filter"; "float"; "format";
   "frozenset"; "getattr"; "globals"; "hasattr"; "hash"; "help"; "hex"; "id";
   "input"; "int"; "isinstance"; "issubclass"; "iter"; "len"; "list";
   "locals"; "map"; "max"; "memoryview"; "min"; "next"; "object"; "oct";
   "open"; "ord"; "pow"; "print"; "property"; "range"; "repr"; "reversed";
   "round"; "set"; "setattr"; "slice"; "sorted"; "staticmethod"; "str"; "sum";
   "super"; "tuple"; "type"; "vars"; "zip"].

Definition bound (scope : list string) (id : string) : bool :=
  existsb (String.eqb id) scope.

Definition name_error (id : string) : exn :=
  Exn (lit "NameError") (lit ("name '" ++ id ++ "' is not defined")).

(** The evaluation of an expression, for the names it looks up, left to
    right. *)
Fixpoint eval (scope : list string) (e : expr) : outcome unit :=
  let eval_all :=
    fix eval_all (es : list expr) : outcome unit :=
      match es with
      | [] => Ok tt
      | e :: es' => bind (eval scope e) (fun _ => eval_all es')
      end in
  match e with
  | Name id => if bound scope id then Ok tt else Raise (name_error id)
  | Attr value _ => eval scope value
  | Subscript value slice => bind (eval scope value) (fun _ => eval_all slice)
  | Call func args => bind (eval scope func) (fun _ => eval_all args)
  | Const => Ok tt
  end.

Fixpoint eval_all (scope : list string) (es : list expr) : outcome unit :=
  match es with
  | [] => Ok tt
  | e :: es' => bind (eval scope e) (fun _ => eval_all scope es')
  end.

(** The modules loaded so far: the names each one binds, or the exception
    its body raised. A module that is not listed is a library, taken to load
    and to hold every name asked of it. *)
Definition loaded : Type := list (string * outcome (list string)).

Fixpoint find_module (table : loaded) (module : string)
  : option (outcome (list string)) :=
  match table with
  | [] => None
  | (m, r) :: table' =>
      if String.eqb m module then Some r else find_module table' module
  end.

Definition import_error (module id : string) : exn :=
  Exn (lit "ImportError")
    (lit ("cannot import name '" ++ id ++ "' from '" ++ module ++ "'")).

Fixpoint import_names (module : string) (ns names : list string)
  : outcome unit :=
  match names with
  | [] => Ok tt
  | id :: names' =>
      if bound ns id then import_names module ns names'
      else Raise (import_error module id)
  end.

Section Exec.
  Variable eager : bool.
  Variable table : loaded.

(** The statements of a block (a module or the body of a class), run in
    order: [ns] holds the names the block has bound so far, [outer] the names
    of the scopes around it. The result is the names bound at the end. *)
Fixpoint exec (outer ns : list string) (s : stmt) : outcome (list string) :=
  let exec_block :=
    fix exec_block (outer ns : list string) (body : list stmt)
      : outcome (list string) :=
      match body with
      | [] => Ok ns
      | s :: body' =>
          bind (exec outer ns s) (fun ns' => exec_block outer ns' body')
      end in
  let scope := (ns ++ outer)%list in
  match s with
  | Import name => Ok (name :: ns)
  | ImportFrom module names =>
      match find_module table module with
      | Some (Raise e) => Raise e
      | Some (Ok exported) =>
          bind (import_names module exported names)
               (fun _ => Ok (names ++ ns)%list)
      | None => Ok (names ++ ns)%list
      end
  | Expr value => bind (eval scope value) (fun _ => Ok ns)
  | Assign target value =>
      bind (eval scope value) (fun _ => Ok (target :: ns))
  | AnnAssign target annotation value =>
      bind (match value with
            | Some v => eval scope v
            | None => Ok tt
            end)
           (fun _ =>
              bind (if eager then eval scope annotation else Ok tt)
                   (fun _ =>
                      match value with
                      | Some _ => Ok (target :: ns)
                      | None => Ok ns
                      end))
  | FunctionDef name defaults annotations =>
      bind (eval_all scope defaults)
           (fun _ =>
              bind (if eager then eval_all scope annotations else Ok tt)
                   (fun _ => Ok (name :: ns)))
  | ClassDef name bases body =>
      bind (eval_all scope bases)
           (fun _ =>
              bind (exec_block scope [] body) (fun _ => Ok (name :: ns)))
  end.

Fixpoint exec_block (outer ns : list string) (body : list stmt)
  : outcome (list string) :=
  match body with
  | [] => Ok ns
  | s :: body' => bind (exec outer ns s) (fun ns' => exec_block outer ns' body')
  end.

(** The execution of the body of a module. *)
Definition exec_module (body : list stmt) : outcome (list string) :=
  exec_block builtins [] body.

End Exec.

(** The modules of a program, loaded in order, each after those it
    imports. *)
Fixpoint load_program (eager : bool) (table : loaded)
    (modules : list (string * list stmt)) : loaded :=
  match modules with
  | [] => table
  | (name, body) :: modules' =>
      load_program eager
        (table ++ [(name, exec_module eager table body)])%list
        modules'
  end.

(** *** The two modules *)

Definition field_call : option expr := Some (Call (Name "Field") [Const]).

Definition optional (e : expr) : expr := Subscript (Name "Optional") [e].
Definition list_of (e : expr) : expr := Subscript (Name "List") [e].
Definition dict_of (k v : expr) : expr := Subscript (Name "Dict") [k; v].

(** src/core/models/paper_model.py *)
Definition paper_model_py : list stmt :=
  [ImportFrom "datetime" ["datetime"];
   ImportFrom "typing" ["List"; "Dict"; "Optional"; "Any"];
   ImportFrom "pydantic" ["BaseModel"; "Field"];
   Import "hashlib";
   ClassDef "SpaceCoordinate" [Name "BaseModel"]
     [Expr Const;
      AnnAssign "latitude" (Name "float") field_call;
      AnnAssign "longitude" (Name "float") field_call;
      AnnAssign "altitude" (optional (Name "float")) field_call;
      AnnAssign "coordinate_system" (Name "str") field_call];
   ClassDef "FourDDataReference" [Name "BaseModel"]
     [Expr Const;
      AnnAssign "data_id" (Name "str") field_call;
      AnnAssign "timestamp" (Name "datetime") field_call;
      AnnAssign "space_coordinate" (optional (Name "SpaceCoordinate"))
        field_call;
      AnnAssign "data_hash" (Name "str") field_call;
      AnnAssign "data_type" (Name "str") field_call;
      AnnAssign "description" (optional (Name "str")) field_call];
   ClassDef "PaperVersion" [Name "BaseModel"]
     [Expr Const;
      AnnAssign "version_id" (Name "str") field_call;
      AnnAssign "version_number" (Name "int") field_call;
      AnnAssign "create_time" (Name "datetime")
        (Some (Call (Name "Field") [Attr (Name "datetime") "utcnow"; Const]));
      AnnAssign "update_reason" (Name "str") field_call;
      AnnAssign "four_d_data_references"
        (list_of (Name "FourDDataReference")) field_call;
      AnnAssign "paper_content_hash" (Name "str") field_call;
      AnnAssign "author_team" (list_of (Name "str")) field_call;
      AnnAssign "space_context" (optional (Name "SpaceCoordinate"))
        field_call];
   ClassDef "DynamicPaper" [Name "BaseModel"]
     [Expr Const;
      AnnAssign "paper_id" (Name "str") field_call;
      AnnAssign "title" (Name "str") field_call;
      AnnAssign "research_purpose" (Name "str") field_call;
      AnnAssign "creator" (Name "str") field_call;
      AnnAssign "create_time" (Name "datetime")
        (Some (Call (Name "Field") [Attr (Name "datetime") "utcnow"; Const]));
      AnnAssign "latest_version" (Name "int") field_call;
      AnnAssign "versions" (list_of (Name "PaperVersion")) field_call;
      AnnAssign "is_encrypted" (Name "bool") field_call;
      AnnAssign "access_permissions" (dict_of (Name "str") (Name "str"))
        field_call;
      AnnAssign "long_term_tracking" (Name "bool") field_call;
      FunctionDef "generate_paper_hash" [] [Name "str"; Name "str"];
      FunctionDef "add_new_version" [] [Name "PaperVersion"]]].

Definition versions_annotation : expr :=
  list_of (dict_of (Name "str") (Name "Any")).

(** src/storage/timeseries_db.py *)
Definition timeseries_db_py : list stmt :=
  [Import "os";
   Import "json";
   Import "h5py";
   ImportFrom "datetime" ["datetime"];
   ImportFrom "typing" ["Dict"; "Any"; "List"];
   Import "logging";
   ImportFrom "src.core.models.paper_model" ["PaperVersion"];
   Expr (Call (Attr (Name "logging") "basicConfig")
           [Attr (Name "logging") "INFO"]);
   Assign "logger" (Call (Attr (Name "logging") "getLogger") [Const]);
   ClassDef "TimeSeriesDB" []
     [Expr Const;
      FunctionDef "__init__" [Const] [Name "str"];
      FunctionDef "insert_paper_version" []
        [Name "str"; Name "PaperVersion"; Name "datetime"];
      FunctionDef "get_versions_by_time_range" []
        [Name "str"; Name "datetime"; Name "datetime"; versions_annotation];
      FunctionDef "get_all_versions" [] [Name "str"; versions_annotation];
      FunctionDef "get_version_by_timestamp" []
        [Name "str"; Name "datetime";
         optional (dict_of (Name "str") (Name "Any"))]]].

(** The two modules in the order of their import. *)
Definition program : list (string * list stmt) :=
  [("src.core.models.paper_model", paper_model_py);
   ("src.storage.timeseries_db", timeseries_db_py)].

End Loader.

(** ** Sample data *)

Module Samples.
Import Py DataDeduplication.

(** An index that holds one entry, of fingerprint [bb]. *)
Definition one_entry_service : service :=
  {| data_index_path := lit "./storage/deduplication/data_index.json";
     data_index :=
       [(lit "entry_P0_U0_1700000000.5",
         {| e_hash := lit "bb";
            e_data_type := lit "tabular";
            e_paper_id := lit "P0";
            e_user_id := lit "U0";
            e_timestamp := lit "2023-11-14T22:13:20.500000" |})];
     bufsize := N.to_nat 8191 |}.

(** The table of the test scenario as [read_csv] loads it, and the same
    file with its two lines the other way round: both frames get the index
    0, 1. *)
Definition frame_alice_bob : DataFrame :=
  {| columns := [lit "name"; lit "age"; lit "score"];
     rows := [(0%Z, [lit "Alice"; lit "25"; lit "95"]);
              (1%Z, [lit "Bob"; lit "30"; lit "88"])] |}.

Definition frame_bob_alice : DataFrame :=
  {| columns := [lit "name"; lit "age"; lit "score"];
     rows := [(0%Z, [lit "Bob"; lit "30"; lit "88"]);
              (1%Z, [lit "Alice"; lit "25"; lit "95"])] |}.

(** A file system in which the index file holds the empty index. *)
Definition fs_empty_index : gmap pystr pystr :=
  {[ lit "./storage/deduplication/data_index.json" := lit "{}" ]}.

(** A dictionary with one array, as [_load_hdf5] makes of an HDF5 file
    with one dataset, and what goes with it in a call of
    [save_four_d_data]. *)
Definition temperature : FourDDataHandler.payload :=
  FourDDataHandler.Keyed
    [(lit "temperature",
      {| Storage.shape := [3]; Storage.items := [1; 2; 3]%Z |})].

Definition weather : FourDDataHandler.payload :=
  FourDDataHandler.Keyed
    [(lit "temperature",
      {| Storage.shape := [3]; Storage.items := [1; 2; 3]%Z |});
     (lit "pressure",
      {| Storage.shape := [2]; Storage.items := [4; 5]%Z |})].

(** What [str] gives for the payloads above, and for the array [1 2 3]. *)
Definition printed (p : FourDDataHandler.payload) : pystr :=
  match p with
  | FourDDataHandler.Single _ => lit "[1 2 3]"
  | FourDDataHandler.Keyed [_] => lit "{'temperature': array([1, 2, 3])}"
  | FourDDataHandler.Keyed _ =>
      lit "{'temperature': array([1, 2, 3]), 'pressure': array([4, 5])}"
  end.

Definition noon : Datetime.datetime :=
  {| Datetime.dt :=
       {| Datetime.year := 2024; Datetime.month := 3; Datetime.day := 1;
          Datetime.hour := 12; Datetime.minute := 0; Datetime.second := 0;
          Datetime.microsecond := 0 |};
     Datetime.dt_valid := eq_refl |}.

Definition later : Datetime.datetime :=
  {| Datetime.dt :=
       {| Datetime.year := 2024; Datetime.month := 3; Datetime.day := 1;
          Datetime.hour := 12; Datetime.minute := 0; Datetime.second := 7;
          Datetime.microsecond := 250000 |};
     Datetime.dt_valid := eq_refl |}.

Definition fernet_key : list N := lit "c2FtcGxlLWtleS1zYW1wbGUta2V5LXNhbXBsZS1rZXk=".

(** Four timestamps, and the group of a paper with a version at each of
    them, a member whose key is no timestamp, and a member that holds no
    JSON. *)
Definition at_second (sec : N) : Datetime.datetime :=
  match Datetime.make
          {| Datetime.year := 2024; Datetime.month := 3; Datetime.day := 1;
             Datetime.hour := 12; Datetime.minute := 0;
             Datetime.second := sec; Datetime.microsecond := 0 |} with
  | Some t => t
  | None => noon
  end.

Definition version_object (n : Z) : Json.value :=
  Json.JObj [(lit "version_number", Json.JInt n)].

Definition paper_group : list (pystr * option Json.value) :=
  [(TimeSeriesDB.ts_key (at_second 40) 4, Some (version_object 4));
   (lit "notes", Some (version_object 9));
   (TimeSeriesDB.ts_key (at_second 20) 2, Some (version_object 2));
   (TimeSeriesDB.ts_key (at_second 25) 5, None);
   (TimeSeriesDB.ts_key (at_second 10) 1, Some (version_object 1));
   (TimeSeriesDB.ts_key (at_second 30) 3, Some (version_object 3))].

Definition empty_service : service :=
  {| data_index_path := lit "./storage/deduplication/data_index.json";
     data_index := [];
     bufsize := N.to_nat 8191 |}.

(** A service with two entries in its index. *)
Definition two_entries : service :=
  with_index empty_service
    (
       [(lit "entry_P1_U1_1700000001.25",
         {| e_hash := lit "aa"; e_data_type := lit "tabular";
            e_paper_id := lit "P1"; e_user_id := lit "U1";
            e_timestamp := lit "2023-11-14T22:13:21.250000" |});
        (lit "entry_P2_U1_1700000002.5",
         {| e_hash := lit "bb"; e_data_type := lit "numpy_array";
            e_paper_id := lit "P2"; e_user_id := lit "U1";
            e_timestamp := lit "2023-11-14T22:13:22.500000" |})]).

(** A place, and a coordinate whose altitude is not a number. *)
Definition paris : PaperModel.SpaceCoordinate :=
  {| PaperModel.latitude := 48.875%float;
     PaperModel.longitude := 2.25%float;
     PaperModel.altitude := Some 35%float;
     PaperModel.coordinate_system := lit "WGS84" |}.

Definition nowhere : PaperModel.SpaceCoordinate :=
  {| PaperModel.latitude := 48.875%float;
     PaperModel.longitude := 2.25%float;
     PaperModel.altitude := Some PrimFloat.nan;
     PaperModel.coordinate_system := lit "WGS84" |}.

(** Two versions of a paper: one that refers to no data, and one with a
    reference. *)
Definition version_plain : PaperModel.PaperVersion :=
  {| PaperModel.version_id := lit "version_P1_2";
     PaperModel.version_number := 2;
     PaperModel.create_time := noon;
     PaperModel.update_reason := lit "New or updated research data";
     PaperModel.four_d_data_references := [];
     PaperModel.paper_content_hash := lit "0a1b2c3d";
     PaperModel.author_team := [lit "U1"];
     PaperModel.space_context := None |}.

Definition version_with_reference : PaperModel.PaperVersion :=
  {| PaperModel.version_id := lit "version_P1_2";
     PaperModel.version_number := 2;
     PaperModel.create_time := noon;
     PaperModel.update_reason := lit "New or updated research data";
     PaperModel.four_d_data_references :=
       [{| PaperModel.ref_data_id := lit "data_P1_0a1b2c3d";
           PaperModel.ref_timestamp := noon;
           PaperModel.ref_space_coordinate := None;
           PaperModel.ref_data_hash := lit "0a1b2c3d";
           PaperModel.ref_data_type := lit "hdf5";
           PaperModel.ref_description := None |}];
     PaperModel.paper_content_hash := lit "0a1b2c3d";
     PaperModel.author_team := [lit "U1"];
     PaperModel.space_context := None |}.

Definition empty_database : TimeSeriesDB.database :=
  {| TimeSeriesDB.papers := ∅; TimeSeriesDB.timestamps := ∅ |}.

(** The store after the two arrays were saved for the paper P1 and the
    user U1, with the sample key. *)
Definition store_weather : gmap pystr Storage.content :=
  snd (FourDDataHandler.save_four_d_data printed
         (lit "./storage/four_d_data") ∅ weather (lit "data_P1_0a1b2c3d")
         (lit "U1") (lit "P1") noon None fernet_key later).

(** A store with two files: the data [a] of the paper Q and the user V,
    and the data [a.h5.enc] of the paper P1 and the user U1. *)
Definition store_two_names : gmap pystr Storage.content :=
  snd (FourDDataHandler.save_four_d_data printed
         (lit "./storage/four_d_data")
         (snd (FourDDataHandler.save_four_d_data printed
                 (lit "./storage/four_d_data") ∅ weather (lit "a")
                 (lit "V") (lit "Q") noon None fernet_key later))
         weather (lit "a.h5.enc") (lit "U1") (lit "P1") noon None fernet_key
         later).

(** The rows of the table under the labels 7 and 3, in the two orders. *)
Definition rows_alice_bob : list (Z * list pystr) :=
  [(7%Z, [lit "Alice"; lit "25"; lit "95"]);
   (3%Z, [lit "Bob"; lit "30"; lit "88"])].

Definition rows_bob_alice : list (Z * list pystr) :=
  [(3%Z, [lit "Bob"; lit "30"; lit "88"]);
   (7%Z, [lit "Alice"; lit "25"; lit "95"])].

End Samples.

(* ================================================================== *)
(** * Part II. Properties                                               *)
(* ================================================================== *)

Import Py.

(** The test vectors of FIPS 180-4 for the empty message and for "abc", and
    a message of two blocks. *)
Example sha256_empty :
  Sha256.hexdigest [] =
  lit "e3b0c44298fc1c149afbf4c8996fb92427ae41e4649b934ca495991b7852b855".
Proof. vm_compute. reflexivity. Qed.

Example sha256_abc :
  Sha256.hexdigest [97; 98; 99] =
  lit "ba7816bf8f01cfea414140de5dae2223b00361a396177a9cb410ff61f20015ad".
Proof. vm_compute. reflexivity. Qed.

(** ** The order on strings *)

Lemma str_compare_refl (a : pystr) : str_compare a a = Eq.
Proof.
  induction a as [|x a IH]; simpl; [reflexivity|].
  rewrite N.compare_refl. exact IH.
Qed.

Lemma str_compare_eq (a b : pystr) : str_compare a b = Eq -> a = b.
Proof.
  revert b. induction a as [|x a IH]; intros [|y b]; simpl; try discriminate.
  - reflexivity.
  - destruct (N.compare_spec x y) as [->|Hlt|Hgt]; try discriminate.
    intros H. f_equal. apply IH, H.
Qed.

Lemma str_compare_antisym (a b : pystr) :
  str_compare b a = CompOpp (str_compare a b).
Proof.
  revert b. induction a as [|x a IH]; intros [|y b]; simpl; try reflexivity.
  rewrite (N.compare_antisym x y).
  destruct (x ?= y); simpl; auto.
Qed.

Lemma str_compare_lt_trans (a b c : pystr) :
  str_compare a b = Lt -> str_compare b c = Lt -> str_compare a c = Lt.
Proof.
  revert b c. induction a as [|x a IH]; intros [|y b] [|z c]; simpl;
    try discriminate; try reflexivity.
  destruct (N.compare_spec x y) as [->|Hxy|Hxy]; try discriminate.
  - destruct (y ?= z); try discriminate; [apply IH|reflexivity].
  - intros _. destruct (N.compare_spec y z) as [->|Hyz|Hyz]; try discriminate.
    + intros _. apply N.compare_lt_iff in Hxy. rewrite Hxy. reflexivity.
    + intros _. assert (x < z) as Hxz by lia.
      apply N.compare_lt_iff in Hxz. rewrite Hxz. reflexivity.
Qed.

Lemma str_eqb_eq (a b : pystr) : str_eqb a b = true <-> a = b.
Proof.
  unfold str_eqb. split.
  - destruct (str_compare a b) eqn:E; try discriminate.
    intros _. apply str_compare_eq, E.
  - intros ->. rewrite str_compare_refl. reflexivity.
Qed.

Lemma str_eqb_refl (a : pystr) : str_eqb a a = true.
Proof. apply str_eqb_eq. reflexivity. Qed.

Lemma str_eqb_neq (a b : pystr) : str_eqb a b = false <-> a <> b.
Proof.
  rewrite <- str_eqb_eq. destruct (str_eqb a b); split; congruence.
Qed.

Lemma str_ltb_irrefl (a : pystr) : str_ltb a a = false.
Proof. unfold str_ltb. rewrite str_compare_refl. reflexivity. Qed.

Lemma str_ltb_trans (a b c : pystr) :
  str_ltb a b = true -> str_ltb b c = true -> str_ltb a c = true.
Proof.
  unfold str_ltb.
  destruct (str_compare a b) eqn:Eab; try discriminate.
  destruct (str_compare b c) eqn:Ebc; try discriminate.
  rewrite (str_compare_lt_trans _ _ _ Eab Ebc). reflexivity.
Qed.

Lemma str_ltb_total (a b : pystr) :
  str_ltb a b = false -> str_ltb b a = false -> a = b.
Proof.
  unfold str_ltb. rewrite (str_compare_antisym a b).
  destruct (str_compare a b) eqn:E; simpl; try discriminate.
  intros _ _. apply str_compare_eq, E.
Qed.

(** ** The stable sort *)

Section StableSortFacts.
  Context {A K : Type} (key : A -> K) (ltb : K -> K -> bool).

Lemma insert_sorted_perm (x : A) (l : list A) :
  Permutation (insert_sorted key ltb x l) (x :: l).
Proof.
  induction l as [|y l IH]; simpl; [reflexivity|].
  destruct (ltb (key y) (key x)); [|reflexivity].
  rewrite IH. apply perm_swap.
Qed.

Lemma stable_sort_perm (l : list A) : Permutation (stable_sort key ltb l) l.
Proof.
  induction l as [|x l IH]; simpl; [reflexivity|].
  rewrite insert_sorted_perm, IH. reflexivity.
Qed.

Lemma stable_sort_length (l : list A) :
  length (stable_sort key ltb l) = length l.
Proof. apply Permutation_length, stable_sort_perm. Qed.

  Hypothesis ltb_irrefl : forall a, ltb a a = false.
  Hypothesis ltb_trans :
    forall a b c, ltb a b = true -> ltb b c = true -> ltb a c = true.
  Hypothesis ltb_total :
    forall a b, ltb a b = false -> ltb b a = false -> a = b.

Lemma ltb_asym (a b : K) : ltb a b = true -> ltb b a = false.
Proof.
  intros Hab. destruct (ltb b a) eqn:Hba; [|reflexivity].
  rewrite <- (ltb_irrefl a). symmetry. eapply ltb_trans; eassumption.
Qed.

Lemma key_le_trans (a b c : A) :
  key_le key ltb a b -> key_le key ltb b c -> key_le key ltb a c.
Proof.
  unfold key_le. intros Hab Hbc.
  destruct (ltb (key c) (key a)) eqn:Hca; [|reflexivity].
  destruct (ltb (key a) (key b)) eqn:Hlt.
  - rewrite <- Hbc. symmetry. eapply ltb_trans; eassumption.
  - rewrite (ltb_total _ _ Hlt Hab) in Hca. congruence.
Qed.

Lemma insert_sorted_sorted (x : A) (l : list A) :
  StronglySorted (key_le key ltb) l ->
  StronglySorted (key_le key ltb) (insert_sorted key ltb x l).
Proof.
  induction 1 as [|y l Hl IH Hy]; simpl.
  - repeat constructor.
  - destruct (ltb (key y) (key x)) eqn:Hyx.
    + constructor; [exact IH|].
      apply Forall_forall. intros z Hz.
      apply list_elem_of_In in Hz.
      apply (Permutation_in _ (insert_sorted_perm x l)) in Hz.
      destruct Hz as [<-|Hz].
      * apply ltb_asym, Hyx.
      * rewrite Forall_forall in Hy. apply Hy, list_elem_of_In, Hz.
    + constructor; [constructor; assumption|].
      constructor; [exact Hyx|].
      eapply Forall_impl; [exact Hy|].
      intros z Hz. eapply key_le_trans; [exact Hyx|exact Hz].
Qed.

Lemma stable_sort_sorted (l : list A) :
  StronglySorted (key_le key ltb) (stable_sort key ltb l).
Proof.
  induction l as [|x l IH]; simpl; [constructor|].
  apply insert_sorted_sorted, IH.
Qed.

(** A list that is in order already is left as it is. *)
Lemma stable_sort_id (l : list A) :
  StronglySorted (key_le key ltb) l -> stable_sort key ltb l = l.
Proof.
  induction 1 as [|x l Hl IH Hx]; simpl; [reflexivity|].
  rewrite IH. destruct Hx as [|y l Hy _]; simpl; [reflexivity|].
  unfold key_le in Hy. rewrite Hy. reflexivity.
Qed.

(** Where equal keys mean equal elements, the sort forgets the order of
    its input. *)
Lemma stable_sort_unique (l1 l2 : list A) :
  (forall a b, a ∈ l1 -> b ∈ l1 -> key a = key b -> a = b) ->
  Permutation l1 l2 ->
  stable_sort key ltb l1 = stable_sort key ltb l2.
Proof.
  intros Hinj Hperm.
  apply (StronglySorted_unique_strong (key_le key ltb));
    [|apply stable_sort_sorted|apply stable_sort_sorted|].
  - intros a b Ha Hb Hab Hba.
    apply Hinj.
    + rewrite <- (stable_sort_perm l1). exact Ha.
    + rewrite Hperm, <- (stable_sort_perm l2). exact Hb.
    + apply ltb_total; assumption.
  - rewrite !stable_sort_perm. exact Hperm.
Qed.

End StableSortFacts.

Lemma StronglySorted_weaken {A} (R1 R2 : A -> A -> Prop) (l : list A) :
  (forall a b, R1 a b -> R2 a b) -> StronglySorted R1 l -> StronglySorted R2 l.
Proof.
  intros Himpl. induction 1 as [|x l Hl IH Hx]; constructor; [exact IH|].
  eapply Forall_impl; [exact Hx|]. auto.
Qed.

(** Sorting commutes with a map that keeps the keys. *)
Lemma stable_sort_map {A B K} (keyA : A -> K) (keyB : B -> K)
    (ltb : K -> K -> bool) (f : A -> B) (l : list A) :
  (forall a, keyB (f a) = keyA a) ->
  stable_sort keyB ltb (map f l) = map f (stable_sort keyA ltb l).
Proof.
  intros Hkey. induction l as [|x l IH]; simpl; [reflexivity|].
  rewrite IH. generalize (stable_sort keyA ltb l) as s.
  induction s as [|y s IHs]; simpl; [reflexivity|].
  rewrite !Hkey. destruct (ltb (keyA y) (keyA x)); simpl; [|reflexivity].
  rewrite IHs. reflexivity.
Qed.

(** ** The fingerprint index: checks *)

Import DataDeduplication.

Lemma exact_match_iff (idx : index) (h t : pystr) :
  existsb (fun item => Qeq_bool (m_similarity item) 1)
    (find_similar_data idx h t) = true
  <-> exists id e, (id, e) ∈ idx /\ e_hash e = h.
Proof.
  induction idx as [|[id e] idx IH]; simpl.
  - split; [discriminate|]. intros (? & ? & H & _). inversion H.
  - destruct (str_eqb (e_hash e) h) eqn:Eh.
    + simpl. split; [|reflexivity]. intros _.
      exists id, e. split; [left|]. apply str_eqb_eq, Eh.
    + apply str_eqb_neq in Eh.
      assert (existsb (fun item => Qeq_bool (m_similarity item) 1)
                (find_similar_data idx h t) = true
              <-> exists id0 e0, (id0, e0) ∈ (id, e) :: idx /\ e_hash e0 = h)
        as Hrest.
      { rewrite IH. split.
        - intros (id0 & e0 & Hin & Hh). exists id0, e0. split; [right|]; done.
        - intros (id0 & e0 & Hin & Hh). inversion Hin; subst; [done|eauto]. }
      destruct (str_eqb (e_data_type e) t); simpl; exact Hrest.
Qed.

Lemma find_similar_nonempty_iff (idx : index) (h t : pystr) :
  find_similar_data idx h t <> []
  <-> exists id e, (id, e) ∈ idx /\ (e_hash e = h \/ e_data_type e = t).
Proof.
  induction idx as [|[id e] idx IH]; simpl.
  - split; [congruence|]. intros (? & ? & H & _). inversion H.
  - destruct (str_eqb (e_hash e) h) eqn:Eh.
    { split; [|discriminate]. intros _. exists id, e.
      split; [left|left; apply str_eqb_eq, Eh]. }
    destruct (str_eqb (e_data_type e) t) eqn:Et.
    { split; [|discriminate]. intros _. exists id, e.
      split; [left|right; apply str_eqb_eq, Et]. }
    apply str_eqb_neq in Eh, Et. rewrite IH. split.
    + intros (id0 & e0 & Hin & H). exists id0, e0. split; [right|]; done.
    + intros (id0 & e0 & Hin & H).
      inversion Hin; subst; [destruct H; done|eauto].
Qed.

Lemma has_duplicate_iff (idx : index) (h t p u : pystr) :
  has_duplicate (check_duplication_by_hash idx h t p u) = true
  <-> exists id e, (id, e) ∈ idx /\ e_hash e = h.
Proof. apply exact_match_iff. Qed.

Lemma has_similar_nonempty (idx : index) (h t p u : pystr) :
  has_similar (check_duplication_by_hash idx h t p u) = true
  <-> similar_data (check_duplication_by_hash idx h t p u) <> [].
Proof.
  simpl. destruct (find_similar_data idx h t) as [|item l]; simpl; split.
  - discriminate.
  - intros H. contradiction H. reflexivity.
  - discriminate.
  - reflexivity.
Qed.

Lemma has_similar_iff (idx : index) (h t p u : pystr) :
  has_similar (check_duplication_by_hash idx h t p u) = true
  <-> exists id e, (id, e) ∈ idx /\ (e_hash e = h \/ e_data_type e = t).
Proof. rewrite has_similar_nonempty. apply find_similar_nonempty_iff. Qed.

Lemma duplicate_is_similar (idx : index) (h t p u : pystr) :
  has_duplicate (check_duplication_by_hash idx h t p u) = true ->
  has_similar (check_duplication_by_hash idx h t p u) = true.
Proof.
  rewrite has_duplicate_iff, has_similar_iff.
  intros (id & e & Hin & Hh). exists id, e. auto.
Qed.

(** ** The fingerprint index: registration *)

Lemma dict_set_in {V} (k : pystr) (v : V) (d : list (pystr * V)) :
  (k, v) ∈ dict_set k v d.
Proof.
  induction d as [|[k' v'] d IH]; simpl; [left|].
  destruct (str_eqb k' k) eqn:E.
  - apply str_eqb_eq in E. subst. left.
  - right. exact IH.
Qed.

Lemma dict_set_inv {V} (k k0 : pystr) (v v0 : V) (d : list (pystr * V)) :
  (k0, v0) ∈ dict_set k v d -> (k0, v0) = (k, v) \/ (k0, v0) ∈ d.
Proof.
  induction d as [|[k' v'] d IH]; simpl.
  - intros H. inversion H; subst; [auto|]. inversion H2.
  - destruct (str_eqb k' k) eqn:E; intros H; inversion H; subst.
    + apply str_eqb_eq in E. subst. auto.
    + right. right. assumption.
    + right. left.
    + destruct (IH H2); [auto|]. right. right. assumption.
Qed.

Lemma add_data_to_index_entry (s : service)
    (h t paper user stamp iso : pystr) :
  let '(entry_id, s', _) := add_data_to_index s h t paper user stamp iso in
  exists e, (entry_id, e) ∈ data_index s' /\ e_hash e = h /\
            e_data_type e = t /\ e_paper_id e = paper /\ e_user_id e = user.
Proof.
  simpl. eexists. split; [apply dict_set_in|]. simpl. auto.
Qed.

Lemma add_data_to_index_inv (s : service)
    (h t paper user stamp iso id : pystr) (e : entry) :
  (id, e) ∈ data_index (add_data_to_index s h t paper user stamp iso).1.2 ->
  e_hash e = h \/ (id, e) ∈ data_index s.
Proof.
  simpl. intros H. apply dict_set_inv in H as [H|H]; [|auto].
  left. inversion H. reflexivity.
Qed.

Lemma find_similar_items (idx : index) (h t : pystr) (item : match_item) :
  item ∈ find_similar_data idx h t ->
  (m_similarity item = 1%Q /\ m_match_type item = lit "exact") \/
  (m_similarity item = (1 # 2)%Q /\ m_match_type item = lit "type").
Proof.
  induction idx as [|[id e] idx IH]; simpl; [inversion 1|].
  destruct (str_eqb (e_hash e) h).
  - inversion 1; subst; [left; auto|auto].
  - destruct (str_eqb (e_data_type e) t); [|exact IH].
    inversion 1; subst; [right; auto|auto].
Qed.

(** C9. Every verdict of [check_duplication_by_hash] has [has_similar]
    whenever it has [has_duplicate]: [has_similar] is true exactly when the
    list of matches is not empty, and so also when all the matches are exact
    ones ([has_duplicate] is true then as well). *)
Theorem duplicate_implies_similar (idx : index) (h t p u : pystr) :
  let v := check_duplication_by_hash idx h t p u in
  implb (has_duplicate v) (has_similar v) = true /\
  (has_similar v = true <-> similar_data v <> []) /\
  (similar_data v <> [] /\
   Forall (fun item => m_match_type item = lit "exact") (similar_data v) ->
   has_duplicate v = true /\ has_similar v = true).
Proof.
  intros v. split; [|split].
  - destruct (has_duplicate v) eqn:E; [|reflexivity].
    apply duplicate_is_similar in E. exact E.
  - apply has_similar_nonempty.
  - intros [Hne Hall]. split; [|apply has_similar_nonempty, Hne].
    subst v. simpl in *.
    destruct (find_similar_data idx h t) as [|item l] eqn:E; [done|].
    simpl. apply Forall_cons in Hall as [Hitem _].
    assert (item ∈ find_similar_data idx h t) as Hin by (rewrite E; left).
    apply find_similar_items in Hin as [[-> _]|[_ Htype]]; [reflexivity|].
    rewrite Htype in Hitem. discriminate.
Qed.

(** C5, as it is stated, fails where the index already holds the other
    fingerprint: after the registration of [aa] under "tabular" the check of
    [bb] under "tabular" reports a duplicate. *)
Lemma check_after_register_other_fingerprint :
  str_eqb (lit "bb") (lit "aa") = false /\
  has_duplicate
    (check_duplication_by_hash
       (data_index
          (add_data_to_index Samples.one_entry_service (lit "aa")
             (lit "tabular") (lit "P1") (lit "U1") (lit "1700000001.25")
             (lit "2023-11-14T22:13:21.250000")).1.2)
       (lit "bb") (lit "tabular") (lit "P2") (lit "U1")) = true.
Proof. split; vm_compute; reflexivity. Qed.

(** C5, amended. After the registration of an entry of fingerprint [fp] and
    category [cat], a check of [fp] reports a duplicate; a check of another
    fingerprint [fp'] under [cat] reports similar data, and it reports no
    duplicate when no entry that was in the index before has the fingerprint
    [fp']. *)
Theorem check_after_register (s : service)
    (fp cat paper user stamp iso fp' t p u : pystr) :
  fp' <> fp ->
  (forall id e, (id, e) ∈ data_index s -> e_hash e <> fp') ->
  let idx' :=
    data_index (add_data_to_index s fp cat paper user stamp iso).1.2 in
  has_duplicate (check_duplication_by_hash idx' fp t p u) = true /\
  has_similar (check_duplication_by_hash idx' fp' cat p u) = true /\
  has_duplicate (check_duplication_by_hash idx' fp' cat p u) = false.
Proof.
  intros Hne Hfresh idx'.
  pose proof (add_data_to_index_entry s fp cat paper user stamp iso) as Hnew.
  simpl in Hnew. destruct Hnew as (e & Hin & Hh & Ht & _).
  split; [|split].
  - apply has_duplicate_iff. eauto.
  - apply has_similar_iff. eauto.
  - apply not_true_is_false. rewrite has_duplicate_iff.
    intros (id0 & e0 & Hin0 & Hh0).
    apply add_data_to_index_inv in Hin0 as [H|H].
    + congruence.
    + exact (Hfresh _ _ H Hh0).
Qed.

Lemma check_after_register_witness :
  let idx' :=
    data_index
      (add_data_to_index Samples.empty_service (lit "aa") (lit "tabular")
         (lit "P1") (lit "U1") (lit "1700000001.25")
         (lit "2023-11-14T22:13:21.250000")).1.2 in
  has_duplicate
    (check_duplication_by_hash idx' (lit "aa") (lit "tabular")
       (lit "P2") (lit "U1")) = true /\
  has_similar
    (check_duplication_by_hash idx' (lit "bb") (lit "tabular")
       (lit "P2") (lit "U1")) = true /\
  has_duplicate
    (check_duplication_by_hash idx' (lit "bb") (lit "tabular")
       (lit "P2") (lit "U1")) = false.
Proof.
  apply (check_after_register Samples.empty_service).
  - vm_compute. discriminate.
  - intros id e H. inversion H.
Defined.

(** ** The scheduler *)

Import DeduplicationScheduler.

Lemma recheck_duplicate (idx : index) (id : pystr) (e : entry) :
  (id, e) ∈ idx -> has_duplicate (recheck idx e) = true.
Proof. intros Hin. apply has_duplicate_iff. eauto. Qed.

Lemma recheck_similar (idx : index) (id : pystr) (e : entry) :
  (id, e) ∈ idx -> has_similar (recheck idx e) = true.
Proof. intros Hin. eapply duplicate_is_similar, recheck_duplicate, Hin. Qed.

Lemma check_entry_skipped idx ids acc item :
  skipped ids (fst item) = true -> check_entry idx ids acc item = acc.
Proof. unfold check_entry. intros ->. reflexivity. Qed.

Lemma check_entry_checked idx ids acc id e :
  (id, e) ∈ idx -> skipped ids id = false ->
  check_entry idx ids acc (id, e) =
  ({| total_data := total_data (fst acc);
      checked_data := S (checked_data (fst acc));
      duplicate_found := S (duplicate_found (fst acc));
      similar_found := S (similar_found (fst acc));
      details :=
        details (fst acc) ++
          [{| d_entry_id := id;
              d_paper_id := e_paper_id e;
              d_user_id := e_user_id e;
              d_data_type := e_data_type e;
              d_timestamp := e_timestamp e;
              d_has_duplicate := true;
              d_has_similar := true;
              d_recommendation := recommendation (recheck idx e) |}] |},
   (snd acc ++ [duplicate_alert e (recheck idx e)])
     ++ [similar_alert e (recheck idx e)]).
Proof.
  intros Hin Hskip. unfold check_entry. cbn [fst snd]. rewrite Hskip.
  rewrite (recheck_duplicate idx id e Hin), (recheck_similar idx id e Hin).
  reflexivity.
Qed.

(** What the loop adds to the results and to the alerts, over a part [l]
    of the index. *)
Lemma check_entries_fold idx ids (l : index) (acc : results * list alert) :
  (forall id e, (id, e) ∈ l -> (id, e) ∈ idx) ->
  let out := fold_left (check_entry idx ids) l acc in
  let n := length (checked ids l) in
  total_data (fst out) = total_data (fst acc) /\
  checked_data (fst out) = (checked_data (fst acc) + n)%nat /\
  duplicate_found (fst out) = (duplicate_found (fst acc) + n)%nat /\
  similar_found (fst out) = (similar_found (fst acc) + n)%nat /\
  (Forall (fun d => d_has_duplicate d = true) (details (fst acc)) ->
   Forall (fun d => d_has_duplicate d = true) (details (fst out))) /\
  (forall a, a ∈ snd acc -> a ∈ snd out) /\
  (forall id e, (id, e) ∈ l -> skipped ids id = false ->
     duplicate_alert e (recheck idx e) ∈ snd out).
Proof.
  revert acc. induction l as [|[id e] l IH]; intros acc Hsub; simpl.
  - rewrite !Nat.add_0_r. repeat split; auto.
    intros id e H. inversion H.
  - assert (forall id0 e0, (id0, e0) ∈ l -> (id0, e0) ∈ idx) as Hsub'
      by (intros; apply Hsub; right; assumption).
    assert ((id, e) ∈ idx) as Hin by (apply Hsub; left).
    unfold checked. simpl.
    destruct (skipped ids id) eqn:Hskip; simpl.
    + rewrite check_entry_skipped by exact Hskip.
      destruct (IH acc Hsub') as (H1 & H2 & H3 & H4 & H5 & H6 & H7).
      repeat split; auto.
      intros id0 e0 H0 Hs0.
      inversion H0; subst; [congruence|eapply H7; eassumption].
    + rewrite (check_entry_checked idx ids acc id e Hin Hskip).
      match goal with |- context [fold_left _ l ?a] =>
        destruct (IH a Hsub') as (H1 & H2 & H3 & H4 & H5 & H6 & H7) end.
      cbn [fst snd total_data checked_data duplicate_found similar_found
           details] in *.
      fold (checked ids l). repeat split; try lia; auto.
      * intros Hacc. apply H5. apply Forall_app. split; [exact Hacc|].
        repeat constructor.
      * intros a Ha. apply H6. rewrite !elem_of_app. auto.
      * intros id0 e0 H0 Hs0.
        inversion H0; subst; [|eapply H7; eassumption].
        apply H6. rewrite !elem_of_app, !list_elem_of_singleton. auto.
Qed.

(** C8. Each entry of the index matches its own hash, so the scheduler's
    check of it reports a duplicate; a run counts every entry it checks as a
    duplicate (and as similar) and sends the duplicate alert to the user
    of every such entry. *)
Theorem scheduler_flags_every_entry (idx : index)
    (data_ids : option (list pystr)) :
  (forall id e, (id, e) ∈ idx -> has_duplicate (recheck idx e) = true) /\
  let out := run_deduplication idx data_ids in
  checked_data (fst out) = length (checked data_ids idx) /\
  duplicate_found (fst out) = checked_data (fst out) /\
  similar_found (fst out) = checked_data (fst out) /\
  Forall (fun d => d_has_duplicate d = true) (details (fst out)) /\
  (forall id e, (id, e) ∈ idx -> skipped data_ids id = false ->
     duplicate_alert e (recheck idx e) ∈ snd out /\
     a_user_id (duplicate_alert e (recheck idx e)) = e_user_id e).
Proof.
  split; [intros id e; apply recheck_duplicate|].
  unfold run_deduplication.
  match goal with |- context [fold_left _ idx ?a] =>
    destruct (check_entries_fold idx data_ids idx a (fun _ _ H => H))
      as (H1 & H2 & H3 & H4 & H5 & H6 & H7) end.
  cbn [fst snd total_data checked_data duplicate_found similar_found
       details] in *.
  cbv zeta. split; [lia|]. split; [lia|]. split; [lia|].
  split; [apply H5; constructor|].
  intros id e Hin Hs. split; [eapply H7; eassumption|reflexivity].
Qed.

(** A run over an index of one entry: one entry checked, one duplicate
    found, two alerts. *)
Example scheduler_one_entry :
  let out :=
    run_deduplication (data_index Samples.one_entry_service) None in
  (checked_data (fst out), duplicate_found (fst out),
   similar_found (fst out), length (snd out)) = (1, 1, 1, 2)%nat.
Proof. vm_compute. reflexivity. Qed.

(** ** The fingerprint *)

(** The [try] block on a dictionary, in the order of the source: the items
    are sorted by key, then the values hashed in that order. *)
Lemma try_block_dict (items : list (pystr * pyval)) :
  try_block (VDict items) =
  bind (comprehension
          (map (fun kv => (fst kv, calculate_data_hash (snd kv)))
             (stable_sort fst str_ltb items)))
       (fun sorted_dict => Ok (Json.dumps_str_dict sorted_dict)).
Proof.
  simpl. f_equal.
  rewrite <- (stable_sort_map fst fst str_ltb
                (fun kv => (fst kv, calculate_data_hash (snd kv)))) by done.
  f_equal. f_equal. apply List.map_ext. intros [k v]. reflexivity.
Qed.

Lemma calculate_data_hash_dict (items : list (pystr * pyval)) :
  calculate_data_hash (VDict items) =
  hash_text
    (bind (comprehension
             (map (fun kv => (fst kv, calculate_data_hash (snd kv)))
                (stable_sort fst str_ltb items)))
          (fun sorted_dict => Ok (Json.dumps_str_dict sorted_dict))).
Proof. unfold calculate_data_hash at 1. rewrite try_block_dict. done. Qed.

Lemma Z_ltb_trans (a b c : Z) :
  Z.ltb a b = true -> Z.ltb b c = true -> Z.ltb a c = true.
Proof. rewrite !Z.ltb_lt. lia. Qed.

Lemma Z_ltb_total (a b : Z) :
  Z.ltb a b = false -> Z.ltb b a = false -> a = b.
Proof. rewrite !Z.ltb_ge. lia. Qed.

(** In a list of pairs with distinct first components, the first component
    names the pair. *)
Lemma NoDup_fst_inj {A B} (l : list (A * B)) :
  NoDup (map fst l) -> forall a b, a ∈ l -> b ∈ l -> fst a = fst b -> a = b.
Proof.
  induction l as [|[k v] l IH]; intros Hnodup a b Ha Hb Hk; [inversion Ha|].
  simpl in Hnodup. apply NoDup_cons in Hnodup as [Hfresh Hnodup].
  assert (forall x, x ∈ l -> fst x = k -> False) as Hnot.
  { intros x Hx <-. apply Hfresh. apply list_elem_of_fmap. exists x. done. }
  inversion Ha; inversion Hb; subst; simpl in *.
  - reflexivity.
  - exfalso. eapply Hnot; [eassumption|]. congruence.
  - exfalso. eapply Hnot; [eassumption|]. congruence.
  - apply IH; assumption.
Qed.

(** The order of the elements of a numeric array does not reach the hash. *)
Lemma hash_array_order (a b : list Z) :
  Permutation a b ->
  calculate_data_hash (VArray (Int64Array a)) =
  calculate_data_hash (VArray (Int64Array b)).
Proof.
  intros Hperm. unfold calculate_data_hash. simpl.
  rewrite (Permutation_length Hperm).
  rewrite (stable_sort_unique id Z.ltb Z.ltb_irrefl Z_ltb_trans Z_ltb_total
             a b); auto.
Qed.

(** Nor does the order of the keys of a dictionary. *)
Lemma hash_dict_order (i1 i2 : list (pystr * pyval)) :
  NoDup (map fst i1) -> Permutation i1 i2 ->
  calculate_data_hash (VDict i1) = calculate_data_hash (VDict i2).
Proof.
  intros Hnodup Hperm. rewrite !calculate_data_hash_dict.
  rewrite (stable_sort_unique fst str_ltb str_ltb_irrefl str_ltb_trans
             str_ltb_total i1 i2); auto.
  intros a b. apply NoDup_fst_inj, Hnodup.
Qed.

(** Rows that carry distinct index labels may come in any order. *)
Lemma hash_labelled_rows_order (cols : list pystr)
    (r1 r2 : list (Z * list pystr)) :
  NoDup (map fst r1) -> Permutation r1 r2 ->
  calculate_data_hash (VDataFrame {| columns := cols; rows := r1 |}) =
  calculate_data_hash (VDataFrame {| columns := cols; rows := r2 |}).
Proof.
  intros Hnodup Hperm. unfold calculate_data_hash, try_block, sort_index_0.
  cbn [rows columns].
  rewrite (stable_sort_unique fst Z.ltb Z.ltb_irrefl Z_ltb_trans Z_ltb_total
             r1 r2); auto.
  intros a b. apply NoDup_fst_inj, Hnodup.
Qed.

(** Induction on [reordered] that reaches the values of a dictionary. *)
Lemma reordered_induction (P : pyval -> pyval -> Prop) :
  (forall v, P v v) ->
  (forall a b, Permutation a b ->
     P (VArray (Int64Array a)) (VArray (Int64Array b))) ->
  (forall i1 i1' i2,
     Forall2 (fun x y => fst x = fst y /\ P (snd x) (snd y)) i1 i1' ->
     Permutation i1' i2 -> P (VDict i1) (VDict i2)) ->
  forall a b, reordered a b -> P a b.
Proof.
  intros Hrefl Harray Hdict.
  fix IH 3. intros a b [v|x y Hperm|i1 i1' i2 Hvalues Hperm].
  - apply Hrefl.
  - apply Harray, Hperm.
  - apply (Hdict i1 i1' i2); [|exact Hperm].
    clear Hperm. revert i1 i1' Hvalues.
    fix IHl 3. intros i1 i1' [|x y l l' [Hk Hv] Hrest]; constructor.
    + split; [exact Hk|]. apply IH, Hv.
    + apply IHl, Hrest.
Qed.

(** The fingerprint does not depend on the order of array elements and of
    dictionary keys, at any depth. *)
Lemma hash_reordered (a b : pyval) :
  reordered a b -> distinct_keys a ->
  calculate_data_hash a = calculate_data_hash b.
Proof.
  intros H. induction H as [v|x y Hperm|i1 i1' i2 Hvalues Hperm]
    using reordered_induction; intros Hkeys.
  - reflexivity.
  - apply hash_array_order, Hperm.
  - inversion Hkeys as [items Hnodup Hall| | | | |]; subst.
    assert (map fst i1' = map fst i1) as Hfst.
    { clear -Hvalues. induction Hvalues as [|x y l l' [Hk _] _ IHl];
        simpl; congruence. }
    rewrite <- (hash_dict_order i1' i2) by (rewrite ?Hfst; assumption).
    rewrite !calculate_data_hash_dict.
    assert (map (fun kv => (fst kv, calculate_data_hash (snd kv))) i1 =
            map (fun kv => (fst kv, calculate_data_hash (snd kv))) i1')
      as Hmap.
    { clear -Hvalues Hall.
      induction Hvalues as [|x y l l' [Hk Hv] _ IHl]; [reflexivity|].
      apply Forall_cons in Hall as [Hx Hall]. simpl.
      rewrite IHl, Hk, (Hv Hx) by assumption. reflexivity. }
    rewrite <- !(stable_sort_map fst fst str_ltb
                   (fun kv => (fst kv, calculate_data_hash (snd kv)))) by done.
    rewrite Hmap. reflexivity.
Qed.

(** C1: the code against the claim. The two frames hold the same columns
    and the same two rows, in the two orders, under the index 0, 1 that
    [read_csv] gives them. Sorting by index label moves no row, and the two
    fingerprints differ. *)
Theorem row_order_changes_hash :
  columns Samples.frame_alice_bob = columns Samples.frame_bob_alice /\
  Permutation (map snd (rows Samples.frame_alice_bob))
              (map snd (rows Samples.frame_bob_alice)) /\
  calculate_data_hash (VDataFrame Samples.frame_alice_bob) =
    Ok (lit "3f33da28ce5876e1805e9aefd064a97dbdcb0889fd8cc6fe85fc57017e1804db")
  /\
  calculate_data_hash (VDataFrame Samples.frame_bob_alice) =
    Ok (lit "c71d7f6925fc7fe2c2fc282cf6558c4af805016b15cddd641005f21111d3c3a6").
Proof.
  split; [reflexivity|]. split; [apply perm_swap|].
  split; vm_compute; reflexivity.
Qed.

(** ** Totality of the fingerprint *)

Lemma utf8_encode_from_encodable (s : pystr) (pos : N) :
  encodable s -> exists bs, utf8_encode_from pos s = Ok bs.
Proof.
  intros H. revert pos. induction H as [|c s Hc _ IH]; intros pos; simpl.
  - eauto.
  - rewrite Hc. destruct (IH (pos + 1)) as [bs ->]. simpl. eauto.
Qed.

Lemma utf8_encode_from_raises (s : pystr) (pos : N) (e : exn) :
  utf8_encode_from pos s = Raise e ->
  ~ encodable s /\
  exists c start len, e = unicode_encode_error c start len.
Proof.
  revert pos. induction s as [|c s IH]; intros pos; simpl; [discriminate|].
  destruct (is_surrogate c) eqn:Hc.
  - intros [= <-]. split; [|eauto].
    intros H. apply Forall_cons in H as [H _]. congruence.
  - destruct (utf8_encode_from (pos + 1) s) eqn:E; simpl; [discriminate|].
    intros [= <-]. destruct (IH _ E) as [Hs He]. split; [|exact He].
    intros H. apply Forall_cons in H as [_ H]. auto.
Qed.

Lemma hash_text_returns (block : outcome pystr) :
  encodable (data_str block) ->
  exists bs, utf8_encode (data_str block) = Ok bs /\
             hash_text block = Ok (Sha256.hexdigest bs).
Proof.
  intros H. destruct (utf8_encode_from_encodable _ 0 H) as [bs Hbs].
  exists bs. split; [exact Hbs|].
  unfold hash_text.
  unfold utf8_encode. rewrite Hbs. reflexivity.
Qed.

(** A failure inside the [try] block gives the hash of the error text. *)
Lemma hash_of_failed_block (data : pyval) (e : exn) (bs : list N) :
  try_block data = Raise e ->
  utf8_encode (lit "error_" ++ exn_msg e) = Ok bs ->
  calculate_data_hash data = Ok (Sha256.hexdigest bs).
Proof.
  intros Hblock Henc. unfold calculate_data_hash. rewrite Hblock.
  unfold hash_text, data_str. rewrite Henc. reflexivity.
Qed.

(** The function returns a hash whenever the text of the [try] block, or
    the text of its error, holds no surrogate. *)
Lemma hash_returns_on_encodable (data : pyval) :
  encodable (data_str (try_block data)) ->
  returns (calculate_data_hash data) = true.
Proof.
  intros H. unfold calculate_data_hash.
  destruct (hash_text_returns _ H) as (bs & _ & ->). reflexivity.
Qed.

(** And it raises otherwise: what it raises is the encoder's error. *)
Lemma hash_raises_iff (data : pyval) :
  returns (calculate_data_hash data) = false <->
  ~ encodable (data_str (try_block data)).
Proof.
  unfold calculate_data_hash. split.
  - intros Hraise Henc.
    destruct (hash_text_returns _ Henc) as (bs & _ & Hok).
    rewrite Hok in Hraise. discriminate.
  - intros Hnot. unfold hash_text.
    unfold utf8_encode.
    destruct (utf8_encode_from 0 (data_str (try_block data))) eqn:E;
      [|reflexivity].
    exfalso. apply Hnot. clear Hnot. revert E.
    generalize (data_str (try_block data)) as s. generalize 0 as pos.
    intros pos s. revert pos a.
    induction s as [|c s IH]; intros pos bs; simpl; [constructor|].
    destruct (is_surrogate c) eqn:Hc; [discriminate|].
    destruct (utf8_encode_from (pos + 1) s) eqn:E; simpl; [|discriminate].
    intros _. constructor; [exact Hc|]. eapply IH, E.
Qed.

Lemma hash_raises_encode_error (data : pyval) (e : exn) :
  calculate_data_hash data = Raise e ->
  exists c start len, e = unicode_encode_error c start len.
Proof.
  unfold calculate_data_hash, hash_text, utf8_encode.
  destruct (utf8_encode_from 0 _) eqn:E; simpl; [discriminate|].
  intros [= <-]. eapply utf8_encode_from_raises, E.
Qed.

(** C7: the code against the claim. The string that holds the one
    character U+D800 is its own text; the [try] block does not fail, the
    encoding after it does, and the call raises [UnicodeEncodeError]. *)
Theorem hash_of_lone_surrogate_raises :
  try_block (VStr [0xD800]) = Ok [0xD800] /\
  calculate_data_hash (VStr [0xD800]) =
    Raise (unicode_encode_error 0xD800 0 1) /\
  returns (calculate_data_hash (VStr [0xD800])) = false.
Proof. repeat split. Qed.

(** The same for a dictionary with such a key, while a value that cannot be
    hashed is caught by the [try] block of the dictionary around it. *)
Example hash_of_surrogate_key_raises :
  returns (calculate_data_hash (VDict [([0xD800], VInt 1)])) = false /\
  returns (calculate_data_hash (VDict [(lit "k", VStr [0xD800])])) = true.
Proof. split; vm_compute; reflexivity. Qed.

(** ** The persisted index *)

Lemma chunks_concat (n fuel : nat) (s : pystr) :
  (length s <= fuel)%nat -> concat (chunks fuel n s) = s.
Proof.
  revert s. induction fuel as [|fuel IH]; intros [|c s] Hlen; simpl in *;
    try reflexivity; try lia.
  f_equal. rewrite IH.
  - apply firstn_skipn.
  - rewrite length_skipn. lia.
Qed.

(** The file systems that a run of appends to [p] goes through. *)
Lemma append_trace (p : pystr) (cs : list pystr) (st : gmap pystr pystr)
    (pre : pystr) :
  st !! p = Some pre ->
  Forall (fun st' =>
            (exists k, st' !! p = Some (pre ++ concat (firstn k cs))) /\
            forall q, q <> p -> st' !! q = st !! q)
    (fs_trace st (map (EvAppend p) cs)) /\
  fs_run st (map (EvAppend p) cs) !! p = Some (pre ++ concat cs) /\
  forall q, q <> p -> fs_run st (map (EvAppend p) cs) !! q = st !! q.
Proof.
  revert st pre. induction cs as [|c cs IH]; intros st pre Hp;
    cbn [map fs_trace fs_apply].
  - unfold fs_run. simpl. rewrite app_nil_r. auto.
  - set (st1 := <[p := default [] (st !! p) ++ c]> st).
    assert (st1 !! p = Some (pre ++ c)) as Hp1.
    { unfold st1. rewrite lookup_insert_eq, Hp. reflexivity. }
    assert (forall q, q <> p -> st1 !! q = st !! q) as Hq1.
    { intros q Hq. unfold st1. rewrite lookup_insert_ne by done. done. }
    destruct (IH st1 (pre ++ c) Hp1) as (Htrace & Hlast & Hother).
    split; [|split].
    + constructor.
      * split; [|exact Hq1]. exists 1%nat. cbn [firstn concat].
        rewrite app_nil_r. exact Hp1.
      * eapply Forall_impl; [exact Htrace|].
        intros st' [[k Hk] Hq]. split.
        -- exists (S k). cbn [firstn concat].
           rewrite Hk, <- app_assoc. reflexivity.
        -- intros q Hne. rewrite Hq, Hq1 by done. reflexivity.
    + unfold fs_run in *. cbn [fold_left fs_apply concat]. fold st1.
      rewrite Hlast, <- app_assoc. reflexivity.
    + intros q Hne. unfold fs_run in *. cbn [fold_left fs_apply]. fold st1.
      rewrite Hother, Hq1 by done. reflexivity.
Qed.

(** What [_save_data_index] does to the file system. *)
Lemma save_data_index_trace (s : service) (fs : gmap pystr pystr) :
  rewrites_in_place fs (data_index_path s) (dump_index (data_index s))
    (_save_data_index s).
Proof.
  unfold rewrites_in_place, _save_data_index.
  set (p := data_index_path s). set (text := dump_index (data_index s)).
  set (cs := chunks (length text) (bufsize s) text).
  assert (concat cs = text) as Hcs by (apply chunks_concat; lia).
  assert (<[p := []]> fs !! p = Some []) as Hp by apply lookup_insert_eq.
  destruct (append_trace p cs _ [] Hp) as (Htrace & Hlast & Hother).
  split; [|split; [|split]].
  - constructor; [auto|]. apply Forall_map, Forall_forall. eauto.
  - simpl. eauto.
  - simpl. constructor.
    + split.
      * exists []. split; [exact Hp|]. apply prefix_nil.
      * intros q Hne. apply lookup_insert_ne. done.
    + eapply Forall_impl; [exact Htrace|].
      intros st [[k Hk] Hq]. split.
      * eexists. split; [exact Hk|]. simpl.
        exists (concat (skipn k cs)).
        rewrite <- concat_app, firstn_skipn. symmetry. exact Hcs.
      * intros q Hne. rewrite Hq by done. apply lookup_insert_ne. done.
  - unfold fs_run in *. simpl. rewrite Hlast, Hcs. reflexivity.
Qed.

Lemma dump_index_nonempty (idx : index) : dump_index idx <> [].
Proof. destruct idx; discriminate. Qed.

(** A save over a file that is not empty shows the reader an empty file in
    between. *)
Lemma save_over_file_not_atomic (s : service) (fs : gmap pystr pystr)
    (old : pystr) :
  fs !! data_index_path s = Some old -> old <> [] ->
  ~ atomic_replace fs (data_index_path s) (_save_data_index s).
Proof.
  intros Hold Hne.
  pose proof (save_data_index_trace s fs) as (_ & [rest Hrest] & _ & Hlast).
  unfold atomic_replace. rewrite Hrest, Hlast, Hold.
  intros H. apply Forall_cons in H as [H _].
  rewrite lookup_insert_eq in H. destruct H as [[= H]|[= H]].
  - auto.
  - symmetry in H. exact (dump_index_nonempty _ H).
Qed.

(** C6, as it is stated, fails: while an entry is registered in an index
    whose file holds the empty index, a reader can find the file empty,
    which is neither what it held nor what it will hold. *)
Lemma persist_not_atomic :
  let p := lit "./storage/deduplication/data_index.json" in
  let out :=
    add_data_to_index Samples.empty_service (lit "aa") (lit "tabular")
      (lit "P1") (lit "U1") (lit "1700000001.25")
      (lit "2023-11-14T22:13:21.250000") in
  Samples.fs_empty_index !! p = Some (lit "{}") /\
  ~ atomic_replace Samples.fs_empty_index p (snd out).
Proof.
  cbv zeta. split; [apply lookup_singleton_eq|].
  apply (save_over_file_not_atomic
           (add_data_to_index Samples.empty_service (lit "aa") (lit "tabular")
              (lit "P1") (lit "U1") (lit "1700000001.25")
              (lit "2023-11-14T22:13:21.250000")).1.2
           Samples.fs_empty_index (lit "{}")).
  - apply lookup_singleton_eq.
  - discriminate.
Qed.

(** C6, amended. Every persist of the index file by a registration and by a
    removal rewrites the file in place: the file is cut to length zero and
    the whole index is then written to the same path, with no temporary file
    and no renaming; a reader sees the empty file first, the beginning of
    the new index at any time, and the whole of it once the call is over. A
    removal that finds no entry writes nothing. *)
Theorem persist_rewrites_in_place (s : service) (fs : gmap pystr pystr)
    (h t paper user stamp iso id : pystr) :
  let reg := add_data_to_index s h t paper user stamp iso in
  let rem := remove_data_from_index s id in
  data_index_path reg.1.2 = data_index_path s /\
  rewrites_in_place fs (data_index_path s)
    (dump_index (data_index reg.1.2)) reg.2 /\
  (rem.1.1 = true ->
   rewrites_in_place fs (data_index_path s)
     (dump_index (data_index rem.1.2)) rem.2) /\
  (rem.1.1 = false -> rem.1.2 = s /\ rem.2 = []).
Proof.
  cbv zeta. split; [reflexivity|]. split; [|split].
  - apply (save_data_index_trace
             (add_data_to_index s h t paper user stamp iso).1.2 fs).
  - unfold remove_data_from_index.
    destruct (dict_mem id (data_index s)); [|discriminate].
    intros _.
    apply (save_data_index_trace
             (with_index s (dict_del id (data_index s))) fs).
  - unfold remove_data_from_index.
    destruct (dict_mem id (data_index s)); [discriminate|]. auto.
Qed.

(** ** Version numbers of a paper *)

Import PaperModel.

(** C3. A version whose number is the latest plus one is appended and its
    number becomes the latest; a version with any other number raises
    [ValueError] and leaves the paper, with its version list and its latest
    version number, as it was. *)
Theorem add_new_version_sequential (p : DynamicPaper) (v : PaperVersion) :
  (version_number v = (latest_version p + 1)%Z ->
   fst (add_new_version p v) = Ok tt /\
   latest_version (snd (add_new_version p v)) = (latest_version p + 1)%Z /\
   versions (snd (add_new_version p v)) = versions p ++ [v]) /\
  (version_number v <> (latest_version p + 1)%Z ->
   (exists e, fst (add_new_version p v) = Raise e /\
              exn_class e = lit "ValueError") /\
   snd (add_new_version p v) = p).
Proof.
  unfold add_new_version. split; intros H.
  - rewrite H, Z.eqb_refl. simpl. auto.
  - apply Z.eqb_neq in H. rewrite H. simpl. eauto.
Qed.

(** ** Timestamps and their texts *)

Import Datetime.

Lemma str_compare_app (x1 x2 r1 r2 : pystr) :
  length x1 = length x2 ->
  str_compare (x1 ++ r1) (x2 ++ r2) =
  match str_compare x1 x2 with
  | Eq => str_compare r1 r2
  | c => c
  end.
Proof.
  revert x2. induction x1 as [|a x1 IH]; intros [|b x2] Hlen;
    simpl in *; try discriminate; [reflexivity|].
  destruct (a ?= b); try reflexivity. apply IH. lia.
Qed.

Lemma dec_fixed_length (k : nat) (n : N) : length (dec_fixed k n) = k.
Proof.
  revert n. induction k as [|k IH]; intros n; simpl; [reflexivity|].
  rewrite length_app, IH. simpl. lia.
Qed.

Lemma dec_fixed_compare (k : nat) (a b : N) :
  a < 10 ^ N.of_nat k -> b < 10 ^ N.of_nat k ->
  str_compare (dec_fixed k a) (dec_fixed k b) = (a ?= b).
Proof.
  revert a b. induction k as [|k IH]; intros a b Ha Hb.
  - simpl in *. symmetry. apply N.compare_eq_iff. lia.
  - rewrite Nat2N.inj_succ, N.pow_succ_r' in Ha, Hb.
    simpl. rewrite str_compare_app by (rewrite !dec_fixed_length; done).
    rewrite IH by (apply N.Div0.div_lt_upper_bound; lia).
    simpl.
    pose proof (N.Div0.div_mod a 10) as Hda.
    pose proof (N.Div0.div_mod b 10) as Hdb.
    pose proof (N.mod_upper_bound a 10 ltac:(lia)) as Hma.
    pose proof (N.mod_upper_bound b 10 ltac:(lia)) as Hmb.
    revert Hda Hdb Hma Hmb.
    generalize (a / 10) (b / 10) (a mod 10) (b mod 10).
    intros qa qb ra rb Hda Hdb Hma Hmb.
    destruct (N.compare_spec qa qb) as [Hq|Hq|Hq].
    + destruct (N.compare_spec (48 + ra) (48 + rb));
        symmetry; [apply N.compare_eq_iff|apply N.compare_lt_iff
                  |apply N.compare_gt_iff]; lia.
    + symmetry. apply N.compare_lt_iff. lia.
    + symmetry. apply N.compare_gt_iff. lia.
Qed.

(** One field and the separator after it. *)
Lemma field_compare (k : nat) (a b : N) (sep r1 r2 : pystr) :
  a < 10 ^ N.of_nat k -> b < 10 ^ N.of_nat k ->
  str_compare (dec_fixed k a ++ sep ++ r1) (dec_fixed k b ++ sep ++ r2) =
  match a ?= b with
  | Eq => str_compare r1 r2
  | c => c
  end.
Proof.
  intros Ha Hb.
  rewrite str_compare_app by (rewrite !dec_fixed_length; done).
  rewrite dec_fixed_compare by assumption.
  rewrite str_compare_app, str_compare_refl by done. reflexivity.
Qed.

Lemma fraction_compare (a b : N) :
  a < 1000000 -> b < 1000000 ->
  str_compare
    (if a =? 0 then [] else lit "." ++ dec_fixed 6 a)
    (if b =? 0 then [] else lit "." ++ dec_fixed 6 b) = (a ?= b).
Proof.
  intros Ha Hb.
  destruct (N.eqb_spec a 0) as [->|Hane], (N.eqb_spec b 0) as [->|Hbne].
  - reflexivity.
  - symmetry. apply N.compare_lt_iff. lia.
  - symmetry. apply N.compare_gt_iff. lia.
  - change (lit ".") with [46].
    rewrite (str_compare_app [46] [46]), str_compare_refl by done.
    apply dec_fixed_compare; assumption.
Qed.

Lemma valid_bounds (f : fields) :
  valid f = true ->
  1 <= year f <= 9999 /\ 1 <= month f <= 12 /\ 1 <= day f <= 31 /\
  hour f < 24 /\ minute f < 60 /\ second f < 60 /\ microsecond f < 1000000.
Proof.
  unfold valid. rewrite !andb_true_iff, !N.leb_le, !N.ltb_lt.
  assert (days_in_month (year f) (month f) <= 31).
  { unfold days_in_month.
    repeat match goal with |- context [if ?c then _ else _] =>
      destruct c end; lia. }
  lia.
Qed.

(** The texts of two timestamps are in the order of the timestamps. *)
Lemma isoformat_compare (a b : datetime) :
  str_compare (isoformat a) (isoformat b) = compare a b.
Proof.
  destruct a as [[y m d h mi s us] Ha], b as [[y' m' d' h' mi' s' us'] Hb].
  pose proof (valid_bounds _ Ha) as Ba. pose proof (valid_bounds _ Hb) as Bb.
  unfold isoformat, compare, tuple.
  cbn [dt year month day hour minute second microsecond] in *.
  rewrite !field_compare by (simpl; lia).
  rewrite str_compare_app by (rewrite !dec_fixed_length; done).
  rewrite dec_fixed_compare by (simpl; lia).
  rewrite fraction_compare by lia.
  cbn [str_compare].
  destruct (y ?= y'), (m ?= m'), (d ?= d'), (h ?= h'), (mi ?= mi'),
    (s ?= s'), (us ?= us'); reflexivity.
Qed.

Lemma isoformat_ltb (a b : datetime) :
  str_ltb (isoformat b) (isoformat a) = false <-> leb a b = true.
Proof.
  unfold str_ltb, leb. rewrite isoformat_compare.
  unfold compare. rewrite (str_compare_antisym (tuple (dt a))).
  destruct (str_compare (tuple (dt a)) (tuple (dt b))); simpl;
    split; congruence.
Qed.

(** ** The range query of the temporal index *)

Import TimeSeriesDB.

Lemma dict_get_set {V} (k : pystr) (v : V) (d : list (pystr * V)) :
  dict_get k (dict_set k v d) = Some v.
Proof.
  induction d as [|[k' v'] d IH]; simpl.
  - rewrite str_eqb_refl. reflexivity.
  - destruct (str_eqb k' k) eqn:E; simpl; rewrite E; auto.
Qed.

Lemma timestamp_of_stamped (t : datetime) (fields : version_data) :
  timestamp_of (stamped t fields) = isoformat t.
Proof. unfold timestamp_of, stamped. rewrite dict_get_set. reflexivity. Qed.

Section QueryFacts.
  Variable strptime : pystr -> option datetime.

Lemma scan_member_in_range (start_time end_time : datetime) (g : group)
    (versions : list version_data) :
  fold_left (scan_member strptime start_time end_time) g versions =
  versions ++ map stamped_pair (in_range strptime start_time end_time g).
Proof.
  revert versions. induction g as [|[key d] g IH]; intros versions; simpl.
  - rewrite app_nil_r. reflexivity.
  - rewrite IH. unfold scan_member, in_range. simpl.
    destruct (key_timestamp strptime key) as [t|]; [|reflexivity].
    destruct d as [[| | | | | |fields]|];
      destruct (leb start_time t && leb t end_time); try reflexivity.
    simpl. rewrite <- app_assoc. reflexivity.
Qed.

Lemma in_range_elem (start_time end_time : datetime) (g : group)
    (t : datetime) (fields : version_data) :
  (t, fields) ∈ in_range strptime start_time end_time g <->
  exists key, (key, Some (Json.JObj fields)) ∈ g /\
              key_timestamp strptime key = Some t /\
              leb start_time t = true /\ leb t end_time = true.
Proof.
  unfold in_range. rewrite list_elem_of_omap. split.
  - intros ([key d] & Hin & Hsome). simpl in Hsome.
    destruct (key_timestamp strptime key) as [t'|] eqn:Hkey; [|discriminate].
    destruct d as [[| | | | | |fields']|]; try discriminate.
    destruct (leb start_time t' && leb t' end_time) eqn:Hrange;
      [|discriminate].
    injection Hsome as -> ->. apply andb_true_iff in Hrange as [? ?].
    exists key. auto.
  - intros (key & Hin & Hkey & Hs & He).
    exists (key, Some (Json.JObj fields)). split; [exact Hin|].
    simpl. rewrite Hkey, Hs, He. reflexivity.
Qed.

(** A member whose key gives no timestamp does not change the answer. *)
Lemma scan_member_skips (start_time end_time : datetime)
    (versions : list version_data) (member : pystr * dataset) :
  key_timestamp strptime (fst member) = None ->
  scan_member strptime start_time end_time versions member = versions.
Proof. unfold scan_member. intros ->. reflexivity. Qed.

(** C4. For a paper without a group the range query returns the empty
    list. For a paper with a group it returns the versions of the members
    whose key gives a timestamp [t] with [start_time <= t <= end_time], each
    once and with its timestamp, in ascending order of the timestamps; a
    member whose key gives no timestamp is passed over, and the answer is the
    same as without it. *)
Theorem range_query_exact (papers : gmap pystr group) (paper_id : pystr)
    (start_time end_time : datetime) :
  (papers !! paper_id = None ->
   get_versions_by_time_range strptime papers paper_id start_time end_time
     = []) /\
  (forall g, papers !! paper_id = Some g ->
   exists tagged : list (datetime * version_data),
     get_versions_by_time_range strptime papers paper_id start_time end_time
       = map stamped_pair tagged /\
     Permutation tagged (in_range strptime start_time end_time g) /\
     StronglySorted (fun a b => leb (fst a) (fst b) = true) tagged /\
     (forall t fields,
        (t, fields) ∈ tagged <->
        exists key, (key, Some (Json.JObj fields)) ∈ g /\
                    key_timestamp strptime key = Some t /\
                    leb start_time t = true /\ leb t end_time = true)) /\
  (forall g1 g2 member,
     key_timestamp strptime (fst member) = None ->
     get_versions_by_time_range strptime
       (<[paper_id := g1 ++ member :: g2]> papers) paper_id
       start_time end_time =
     get_versions_by_time_range strptime
       (<[paper_id := g1 ++ g2]> papers) paper_id start_time end_time).
Proof.
  unfold get_versions_by_time_range. split; [|split].
  - intros ->. reflexivity.
  - intros g ->. rewrite scan_member_in_range. simpl.
    set (sel := in_range strptime start_time end_time g).
    exists (stable_sort (fun x => isoformat (fst x)) str_ltb sel).
    split; [|split; [|split]].
    + apply stable_sort_map. intros [t fields].
      apply timestamp_of_stamped.
    + apply stable_sort_perm.
    + eapply StronglySorted_weaken;
        [|apply (stable_sort_sorted _ _ str_ltb_irrefl str_ltb_trans
                   str_ltb_total)].
      intros a b. unfold key_le. apply isoformat_ltb.
    + intros t fields. rewrite <- in_range_elem. fold sel.
      rewrite (stable_sort_perm _ _ sel). reflexivity.
  - intros g1 g2 member Hkey. rewrite !lookup_insert_eq.
    rewrite !fold_left_app. simpl.
    rewrite scan_member_skips by exact Hkey. reflexivity.
Qed.

End QueryFacts.

(** ** The keys that an insertion writes *)

Lemma read_digits_S (k : nat) (acc : N) (s : pystr) :
  read_digits (S k) acc s =
  match read_digits k acc s with
  | Some (v, c :: s') =>
      match digit_val c with
      | Some d => Some (10 * v + d, s')
      | None => None
      end
  | _ => None
  end.
Proof.
  revert acc s. induction k as [|k IH]; intros acc [|c s].
  - reflexivity.
  - simpl. destruct (digit_val c); reflexivity.
  - reflexivity.
  - change (read_digits (S (S k)) acc (c :: s))
      with (d ← digit_val c; read_digits (S k) (10 * acc + d) s).
    change (read_digits (S k) acc (c :: s))
      with (d ← digit_val c; read_digits k (10 * acc + d) s).
    destruct (digit_val c) as [d|]; simpl; [apply IH|reflexivity].
Qed.

Lemma read_digits_dec_fixed (k : nat) (n acc : N) (rest : pystr) :
  n < 10 ^ N.of_nat k ->
  read_digits k acc (dec_fixed k n ++ rest) =
  Some (acc * 10 ^ N.of_nat k + n, rest).
Proof.
  revert n rest. induction k as [|k IH]; intros n rest Hn.
  - simpl in *. do 2 f_equal. lia.
  - rewrite Nat2N.inj_succ, N.pow_succ_r' in *.
    rewrite read_digits_S. simpl dec_fixed. rewrite <- app_assoc.
    rewrite IH by (apply N.Div0.div_lt_upper_bound; lia).
    simpl. unfold digit_val.
    pose proof (N.mod_upper_bound n 10 ltac:(lia)) as Hmod.
    pose proof (N.Div0.div_mod n 10) as Hdiv.
    revert Hmod Hdiv. generalize (n mod 10) (n / 10). intros r q Hmod Hdiv.
    assert ((48 <=? 48 + r) && (48 + r <=? 57) = true) as ->.
    { apply andb_true_iff. rewrite !N.leb_le. lia. }
    do 2 f_equal. lia.
Qed.

Lemma dec_fixed_no_underscore (k : nat) (n : N) :
  Forall (fun c => (c =? 95) = false) (dec_fixed k n).
Proof.
  revert n. induction k as [|k IH]; intros n; simpl; [constructor|].
  apply Forall_app. split; [apply IH|]. constructor; [|constructor].
  pose proof (N.mod_upper_bound n 10 ltac:(lia)). apply N.eqb_neq. lia.
Qed.

Lemma split_on_app (sep : N) (a rest : pystr) :
  Forall (fun c => (c =? sep) = false) a ->
  split_on sep (a ++ sep :: rest) = a :: split_on sep rest.
Proof.
  induction 1 as [|c a Hc _ IH]; simpl.
  - rewrite N.eqb_refl. reflexivity.
  - rewrite Hc, IH. reflexivity.
Qed.

Lemma make_dt (t : datetime) : make (dt t) = Some t.
Proof.
  destruct t as [f Hf]. unfold make. simpl.
  generalize (eq_refl (valid f)).
  generalize (valid f) at 2 3. intros b. destruct b; intros e.
  - do 2 f_equal. apply Eqdep_dec.UIP_dec, Bool.bool_dec.
  - congruence.
Qed.

(** The format of the keys is read back by [strptime]. *)
Lemma strptime_padded_strftime (t : datetime) :
  strptime_padded (strftime_key t) = Some t.
Proof.
  pose proof (make_dt t) as Hmake.
  destruct t as [[y m d h mi s us] Ht].
  pose proof (valid_bounds _ Ht) as B.
  unfold strptime_padded, strftime_key.
  cbn [dt year month day hour minute second microsecond] in *.
  change (lit "_") with [95]. cbn [app].
  repeat (rewrite read_digits_dec_fixed by (simpl; lia);
          cbn [mbind option_bind read_char N.eqb Pos.eqb]).
  rewrite <- (app_nil_r (dec_fixed 6 us)).
  rewrite read_digits_dec_fixed by (simpl; lia).
  cbn [mbind option_bind at_end]. exact Hmake.
Qed.

(** The timestamp of an insertion is the timestamp in the key it writes,
    whatever the version number. *)
Lemma key_timestamp_ts_key (t : datetime) (version_number : Z) :
  key_timestamp strptime_padded (ts_key t version_number) = Some t.
Proof.
  unfold key_timestamp, ts_key.
  pose proof (strptime_padded_strftime t) as Hparse.
  unfold strftime_key in *. change (lit "_") with [95] in *.
  pose (p0 := dec_fixed 4 (year (dt t)) ++ dec_fixed 2 (month (dt t))
                ++ dec_fixed 2 (day (dt t))).
  pose (p1 := dec_fixed 2 (hour (dt t)) ++ dec_fixed 2 (minute (dt t))
                ++ dec_fixed 2 (second (dt t))).
  pose (p2 := dec_fixed 6 (microsecond (dt t))).
  assert (Forall (fun c => (c =? 95) = false) p0) as H0
    by (unfold p0; rewrite !Forall_app; auto using dec_fixed_no_underscore).
  assert (Forall (fun c => (c =? 95) = false) p1) as H1
    by (unfold p1; rewrite !Forall_app; auto using dec_fixed_no_underscore).
  assert (Forall (fun c => (c =? 95) = false) p2) as H2
    by apply dec_fixed_no_underscore.
  match goal with |- context [split_on 95 ?s] =>
    replace s
      with (p0 ++ 95 :: p1 ++ 95 :: p2 ++ 95 :: str_of_Z version_number)
      by (unfold p0, p1, p2; rewrite <- !app_assoc; reflexivity)
  end.
  rewrite !split_on_app by assumption.
  rewrite <- Hparse. unfold p0, p1, p2.
  rewrite <- !app_assoc. reflexivity.
Qed.

(** ** The encrypted object store *)

Import Storage Encryption FourDDataHandler.

(** C2: the code against the claim. A dictionary with the one key
    "temperature" is stored, and loaded at once with the same key and no
    filter: the file opens, and the load raises [KeyError], because a
    dictionary of one dataset is read as if its dataset were "data". *)
Theorem single_key_payload_does_not_load :
  let saved :=
    save_four_d_data Samples.printed (lit "./storage/four_d_data") ∅
      Samples.temperature (lit "data_P1_0a1b2c3d") (lit "U1") (lit "P1")
      Samples.noon None Samples.fernet_key Samples.later in
  fst saved = Ok (lit "./storage/four_d_data/data_P1_0a1b2c3d.h5.enc") /\
  fst (load_four_d_data (lit "./storage/four_d_data") (snd saved)
         (lit "data_P1_0a1b2c3d") Samples.fernet_key None None)
    = Raise (Exn (lit "KeyError") (lit "'data'")).
Proof. cbv zeta. split; vm_compute; reflexivity. Qed.

Section HandlerFacts.
  Variable payload_str : payload -> pystr.
  Variable storage_path : pystr.

Lemma path_join_ext_ne (data_id : pystr) :
  path_join storage_path (data_id ++ lit ".h5") <>
  path_join storage_path (data_id ++ hdf5_ext).
Proof.
  unfold path_join, hdf5_ext.
  assert (is_absolute (data_id ++ lit ".h5") =
          is_absolute (data_id ++ lit ".h5.enc")) as ->
    by (destruct data_id; reflexivity).
  destruct (is_absolute _); [|destruct (ends_with_slash _)];
    intros H; repeat apply app_inv_head in H; discriminate H.
Qed.

(** The files after a save: the token under the encrypted path, and no
    plain file under the path of the intermediate HDF5 file. *)
Lemma save_four_d_data_files fs data_content data_id user_id paper_id
    timestamp space_coordinate key now data_hash :
  HashUtils.calculate_data_hash (payload_str data_content) = Ok data_hash ->
  let saved :=
    save_four_d_data payload_str storage_path fs data_content data_id
      user_id paper_id timestamp space_coordinate key now in
  let file :=
    {| attrs :=
         {[ lit "metadata" :=
              metadata_of data_id user_id paper_id timestamp
                space_coordinate data_hash now ]};
       datasets := datasets_of data_content |} in
  fst saved = Ok (path_join storage_path (data_id ++ hdf5_ext)) /\
  snd saved !! path_join storage_path (data_id ++ hdf5_ext)
    = Some (Token key (Hdf5 file)) /\
  snd saved !! path_join storage_path (data_id ++ lit ".h5") = None.
Proof.
  intros Hhash. unfold save_four_d_data. rewrite Hhash. cbn [fst snd].
  split; [reflexivity|]. split.
  - rewrite lookup_delete_ne by apply path_join_ext_ne.
    apply lookup_insert_eq.
  - apply lookup_delete_eq.
Qed.

(** Loading at once what was stored, with the same key and no filter,
    gives the metadata of the save, and the payload when it is an array or a
    dictionary of two arrays or more. *)
Lemma load_after_save fs data_content data_id user_id paper_id timestamp
    space_coordinate key now data_hash :
  HashUtils.calculate_data_hash (payload_str data_content) = Ok data_hash ->
  match data_content with
  | Single _ => True
  | Keyed d => NoDup (map fst d) /\ (2 <= length d)%nat
  end ->
  let saved :=
    save_four_d_data payload_str storage_path fs data_content data_id
      user_id paper_id timestamp space_coordinate key now in
  fst (load_four_d_data storage_path (snd saved) data_id key None None) =
  Ok {| r_metadata :=
          metadata_of data_id user_id paper_id timestamp space_coordinate
            data_hash now;
        r_data :=
          match data_content with
          | Single a => LArray a
          | Keyed d => LDict (list_to_map d)
          end |}.
Proof.
  intros Hhash Hshape saved.
  destruct (save_four_d_data_files fs data_content data_id user_id paper_id
              timestamp space_coordinate key now data_hash Hhash)
    as (_ & Htoken & _).
  fold saved in Htoken. unfold load_four_d_data. rewrite Htoken.
  unfold decrypt_content. rewrite bool_decide_eq_true_2 by reflexivity.
  unfold read_temp. cbn [attrs datasets].
  rewrite lookup_singleton_eq. cbn [metadata_of mbind outcome_bind bind].
  destruct data_content as [a|d]; cbn [datasets_of].
  - rewrite map_size_singleton, lookup_singleton_eq. reflexivity.
  - destruct Hshape as [Hnodup Hlen].
    rewrite map_size_list_to_map by exact Hnodup.
    destruct (Nat.ltb_spec 1 (length d)); [reflexivity|lia].
Qed.

End HandlerFacts.

(** ** Loading the temporal index module *)

Import Loader.

(** C10. With annotations evaluated when a [def] statement is executed,
    the module src/storage/timeseries_db.py does not load: the module
    paper_model that it imports loads and gives it [PaperVersion], the first
    four methods of the class are defined, and the return annotation of
    [get_version_by_timestamp] looks up [Optional], which nothing has bound,
    so the body of the module raises [NameError]. The class [TimeSeriesDB] is
    never bound, and whoever imports anything from the module gets the same
    [NameError]. *)
Theorem timeseries_db_does_not_load :
  let table := load_program true [] program in
  (exists ns,
     find_module table "src.core.models.paper_model" = Some (Ok ns) /\
     bound ns "PaperVersion" = true) /\
  find_module table "src.storage.timeseries_db"
    = Some (Raise (Exn (lit "NameError")
                     (lit "name 'Optional' is not defined"))) /\
  (forall names body,
     exec_module true table
       (ImportFrom "src.storage.timeseries_db" names :: body)
     = Raise (Exn (lit "NameError") (lit "name 'Optional' is not defined"))).
Proof.
  cbv zeta. split; [|split].
  - eexists. split; vm_compute; reflexivity.
  - vm_compute. reflexivity.
  - intros names body. reflexivity.
Qed.

(** The failure is that of the last method alone: the imports, the logger
    and the first four methods go through, and the module would load if
    annotations were not evaluated. *)
Example timeseries_db_loads_without_annotations :
  let table := load_program false [] program in
  exists ns,
    find_module table "src.storage.timeseries_db" = Some (Ok ns) /\
    bound ns "TimeSeriesDB" = true.
Proof. eexists. split; vm_compute; reflexivity. Qed.

(** ** The properties at work *)

(** The order of keys and of array elements, at two depths. *)
Lemma hash_reordered_witness :
  calculate_data_hash
    (VDict [(lit "b", VInt 1);
            (lit "a", VDict [(lit "y", VArray (Int64Array [2; 1]%Z));
                             (lit "x", VStr (lit "s"))])]) =
  calculate_data_hash
    (VDict [(lit "a", VDict [(lit "x", VStr (lit "s"));
                             (lit "y", VArray (Int64Array [1; 2]%Z))]);
            (lit "b", VInt 1)]).
Proof.
  apply hash_reordered.
  - apply (reordered_dict _
             [(lit "b", VInt 1);
              (lit "a", VDict [(lit "x", VStr (lit "s"));
                               (lit "y", VArray (Int64Array [1; 2]%Z))])]).
    + constructor; [split; [reflexivity|apply reordered_refl]|].
      constructor; [|constructor]. split; [reflexivity|].
      apply (reordered_dict _
               [(lit "y", VArray (Int64Array [1; 2]%Z));
                (lit "x", VStr (lit "s"))]).
      * constructor; [split; [reflexivity|]|].
        -- apply reordered_array, perm_swap.
        -- constructor; [|constructor].
           split; [reflexivity|apply reordered_refl].
      * apply perm_swap.
    + apply perm_swap.
  - constructor.
    + apply (bool_decide_unpack _). vm_compute. exact I.
    + constructor; [constructor|].
      constructor; [|constructor]. constructor.
      * apply (bool_decide_unpack _). vm_compute. exact I.
      * repeat (constructor; [constructor|]). constructor.
Defined.

(** A dictionary of two arrays stored and loaded at once. *)
Lemma load_after_save_witness :
  fst (load_four_d_data (lit "./storage/four_d_data")
         (snd (save_four_d_data Samples.printed (lit "./storage/four_d_data")
                 ∅ Samples.weather (lit "data_P1_0a1b2c3d") (lit "U1")
                 (lit "P1") Samples.noon None Samples.fernet_key
                 Samples.later))
         (lit "data_P1_0a1b2c3d") Samples.fernet_key None None) =
  Ok {| r_metadata :=
          metadata_of (lit "data_P1_0a1b2c3d") (lit "U1") (lit "P1")
            Samples.noon None
            (lit "fd0df2ed568c876bee7af4ab55bba0b3e431c702d09293ba5779aababdafced1")
            Samples.later;
        r_data :=
          LDict
            (<[lit "temperature" := {| shape := [3]; items := [1; 2; 3]%Z |}]>
               {[ lit "pressure" := {| shape := [2]; items := [4; 5]%Z |} ]})
     |}.
Proof.
  apply (load_after_save Samples.printed (lit "./storage/four_d_data") ∅
           Samples.weather).
  - vm_compute. reflexivity.
  - split; [|simpl; lia].
    apply (bool_decide_unpack _). vm_compute. exact I.
Defined.

(** The scenario of the range query: versions at 12:00:10, :20, :30 and :40,
    asked for 12:00:20 to 12:00:30. The two versions in the range come back
    in the order of their timestamps; the member whose key is no timestamp
    and the member without JSON are passed over. *)
Example range_query_scenario :
  map (dict_get (lit "version_number"))
    (get_versions_by_time_range strptime_padded
       {[ lit "P1" := Samples.paper_group ]} (lit "P1")
       (Samples.at_second 20) (Samples.at_second 30))
  = [Some (Json.JInt 2); Some (Json.JInt 3)] /\
  map timestamp_of
    (get_versions_by_time_range strptime_padded
       {[ lit "P1" := Samples.paper_group ]} (lit "P1")
       (Samples.at_second 20) (Samples.at_second 30))
  = [lit "2024-03-01T12:00:20"; lit "2024-03-01T12:00:30"] /\
  get_versions_by_time_range strptime_padded
    {[ lit "P1" := Samples.paper_group ]} (lit "P2")
    (Samples.at_second 20) (Samples.at_second 30) = [].
Proof. repeat split; vm_compute; reflexivity. Qed.

(* ================================================================== *)
(** * Part III. Further properties of the modules                       *)
(* ================================================================== *)

(** ** The fingerprint: what it returns *)

Lemma low_not_surrogate (c : N) : c < 0xD800 -> is_surrogate c = false.
Proof.
  intros H. unfold is_surrogate. apply andb_false_iff. left.
  apply N.leb_gt. exact H.
Qed.

Lemma encodable_app (a b : pystr) :
  encodable a -> encodable b -> encodable (a ++ b).
Proof. intros Ha Hb. apply Forall_app. auto. Qed.

Lemma encodable_lit (s : string) : encodable (lit s).
Proof.
  unfold lit, encodable. apply Forall_map, Forall_forall. intros a _.
  apply low_not_surrogate. pose proof (N_ascii_bounded a). simpl. lia.
Qed.

Lemma land_15 (n : N) : N.land n 15 < 16.
Proof.
  change 15 with (N.ones 4). rewrite N.land_ones.
  apply N.mod_upper_bound. discriminate.
Qed.

Lemma hex_fixed_hex (k : nat) (n : N) :
  Forall (fun c => is_hex_digit c = true) (hex_fixed k n).
Proof.
  revert n. induction k as [|k IH]; intros n; simpl; [constructor|].
  apply Forall_app. split; [apply IH|]. constructor; [|constructor].
  pose proof (land_15 n) as H. revert H. generalize (N.land n 15). intros d H.
  unfold hex_digit, is_hex_digit. destruct (N.ltb_spec d 10).
  - apply orb_true_iff. left. apply andb_true_iff. rewrite !N.leb_le. lia.
  - apply orb_true_iff. right. apply andb_true_iff. rewrite !N.leb_le. lia.
Qed.

Lemma hex_fixed_length (k : nat) (n : N) : length (hex_fixed k n) = k.
Proof.
  revert n. induction k as [|k IH]; intros n; simpl; [reflexivity|].
  rewrite length_app, IH. simpl. lia.
Qed.

Lemma hex_encodable (s : pystr) :
  Forall (fun c => is_hex_digit c = true) s -> encodable s.
Proof.
  intros Hs. eapply Forall_impl; [exact Hs|].
  intros c H. apply low_not_surrogate.
  unfold is_hex_digit in H. apply orb_true_iff in H.
  rewrite !andb_true_iff, !N.leb_le in H. lia.
Qed.

(** A digest is written on 64 lowercase hexadecimal digits. *)
Lemma hexdigest_hex (bs : list N) :
  length (Sha256.hexdigest bs) = 64%nat /\
  Forall (fun c => is_hex_digit c = true) (Sha256.hexdigest bs).
Proof.
  unfold Sha256.hexdigest, Sha256.digest_words.
  destruct (fold_left _ _ _) as [[[[[[[a b] c] d] e] f] g] h].
  split.
  - cbn [map concat]. rewrite !length_app, !hex_fixed_length. reflexivity.
  - apply Forall_concat, Forall_map, Forall_forall. intros w _.
    apply hex_fixed_hex.
Qed.

Lemma dec_digits_encodable (fuel : nat) (n : N) (acc : pystr) :
  encodable acc -> encodable (dec_digits fuel n acc).
Proof.
  revert n acc. induction fuel as [|fuel IH]; intros n acc Hacc; simpl;
    [exact Hacc|].
  assert (encodable ((48 + n mod 10) :: acc)) as H.
  { constructor; [|exact Hacc]. apply low_not_surrogate.
    pose proof (N.mod_upper_bound n 10 ltac:(lia)). lia. }
  destruct (n / 10 =? 0); [exact H|]. apply IH, H.
Qed.

Lemma str_of_N_encodable (n : N) : encodable (str_of_N n).
Proof. apply dec_digits_encodable. constructor. Qed.

(** The parts of a text, one after the other. *)
Ltac encodable_parts :=
  repeat first
    [ apply encodable_lit | apply str_of_N_encodable
    | apply hex_encodable, hex_fixed_hex | apply encodable_app
    | (constructor; [first [reflexivity|assumption]|]) | constructor ].

Lemma unicode_encode_error_encodable (c start len : N) :
  encodable (exn_msg (unicode_encode_error c start len)).
Proof.
  unfold unicode_encode_error. cbn [exn_msg].
  destruct (len =? 1); encodable_parts.
Qed.

Lemma escape_char_encodable (c : N) :
  is_surrogate c = false -> encodable (Json.escape_char c).
Proof.
  intros Hc. unfold Json.escape_char, Json.short_escape, Json.u_escape.
  repeat match goal with |- context [if ?b then _ else _] => destruct b end;
    encodable_parts.
Qed.

Lemma quoted_encodable (s : pystr) :
  encodable s -> encodable (Json.quoted Json.escape_char s).
Proof.
  intros Hs. unfold Json.quoted.
  apply encodable_app; [repeat constructor|].
  apply encodable_app; [|repeat constructor].
  apply Forall_concat, Forall_map. eapply Forall_impl; [exact Hs|].
  apply escape_char_encodable.
Qed.

Lemma join_encodable (sep : pystr) (parts : list pystr) :
  encodable sep -> Forall encodable parts -> encodable (join sep parts).
Proof.
  intros Hsep. induction 1 as [|p parts Hp Hparts IH]; [constructor|].
  destruct parts as [|q parts]; [exact Hp|].
  change (encodable (p ++ sep ++ join sep (q :: parts))).
  auto using encodable_app.
Qed.

Lemma dumps_str_dict_encodable (d : list (pystr * pystr)) :
  Forall (fun kv => encodable kv.1 /\ encodable kv.2) d ->
  encodable (Json.dumps_str_dict d).
Proof.
  intros Hd. unfold Json.dumps_str_dict.
  apply encodable_app; [apply encodable_lit|].
  apply encodable_app; [|apply encodable_lit].
  apply join_encodable; [apply encodable_lit|].
  apply Forall_map. eapply Forall_impl; [exact Hd|].
  intros [k v] [Hk Hv].
  auto using encodable_app, quoted_encodable, encodable_lit.
Qed.

(** What [hash_text] gives: a digest, or the error of the encoder. *)
Lemma hash_text_cases (block : outcome pystr) :
  (exists bs, hash_text block = Ok (Sha256.hexdigest bs)) \/
  (exists c start len,
     hash_text block = Raise (unicode_encode_error c start len)).
Proof.
  unfold hash_text, utf8_encode.
  destruct (utf8_encode_from 0 (data_str block)) as [bs|e] eqn:E; simpl.
  - eauto.
  - apply utf8_encode_from_raises in E as (_ & c & start & len & ->). eauto 6.
Qed.

(** What the comprehension gives: the hashes under their keys, or the
    error of one of the values. *)
Lemma comprehension_cases (l : list (pystr * outcome pystr)) :
  match comprehension l with
  | Ok d => Forall2 (fun x y => x.1 = y.1 /\ x.2 = Ok y.2) l d
  | Raise e => exists k, (k, Raise e) ∈ l
  end.
Proof.
  induction l as [|[k [h|e]] l IH]; simpl.
  - constructor.
  - destruct (comprehension l) as [d|e]; simpl.
    + constructor; auto.
    + destruct IH as [k' Hk']. exists k'. right. exact Hk'.
  - exists k. left.
Qed.


(** A dictionary whose keys hold no surrogate always gets a
    fingerprint, whatever its values are: a value whose own fingerprint
    raises is caught by the [try] block of the dictionary, and the
    fingerprint is then that of the error text. *)
Theorem hash_of_dict_returns (items : list (pystr * pyval)) :
  Forall (fun kv => encodable kv.1) items ->
  exists h, calculate_data_hash (VDict items) = Ok h /\
            length h = 64%nat /\
            Forall (fun c => is_hex_digit c = true) h.
Proof.
  intros Hkeys.
  assert (encodable (data_str (try_block (VDict items)))) as Henc.
  { cbn [try_block].
    set (hashed := map _ items).
    pose proof (stable_sort_perm fst str_ltb hashed) as Hperm.
    pose proof (comprehension_cases (stable_sort fst str_ltb hashed)) as Hc.
    destruct (comprehension (stable_sort fst str_ltb hashed)) as [d|e];
      cbn [bind data_str].
    - apply dumps_str_dict_encodable.
      assert (Forall (fun x : pystr * outcome pystr =>
                        encodable x.1 /\
                        forall h, x.2 = Ok h -> encodable h)
                (stable_sort fst str_ltb hashed)) as Hall.
      { rewrite Hperm. unfold hashed. apply Forall_map.
        eapply Forall_impl; [exact Hkeys|]. intros [k v] Hk. simpl in *.
        split; [exact Hk|]. intros h Hh.
        destruct (hash_text_cases (try_block v))
          as [[bs Hbs]|(c & s & n & Hr)];
          rewrite Hh in *; [|discriminate].
        injection Hbs as ->. apply hex_encodable, hexdigest_hex. }
      clear -Hc Hall. induction Hc as [|x y l d [Hk Hv] _ IH]; [constructor|].
      apply Forall_cons in Hall as [[Hx Hx'] Hall]. constructor; [|auto].
      split; [rewrite <- Hk; exact Hx|apply Hx', Hv].
    - destruct Hc as [k Hin]. rewrite Hperm in Hin. unfold hashed in Hin.
      apply list_elem_of_fmap in Hin as ([k' v] & Heq & _).
      injection Heq as _ Heq.
      destruct (hash_text_cases (try_block v))
        as [[bs Hbs]|(c & s & n & Hr)];
        rewrite <- Heq in *; [discriminate|].
      injection Hr as ->.
      apply encodable_app;
        [apply encodable_lit|apply unicode_encode_error_encodable]. }
  unfold calculate_data_hash.
  destruct (hash_text_returns _ Henc) as (bs & _ & ->).
  eexists. split; [reflexivity|]. apply hexdigest_hex.
Qed.

(** A dictionary whose one value is a lone surrogate. *)
Lemma hash_of_dict_returns_witness :
  exists h,
    calculate_data_hash (VDict [(lit "k", VStr [0xD800])]) = Ok h /\
    length h = 64%nat /\ Forall (fun c => is_hex_digit c = true) h.
Proof.
  apply (hash_of_dict_returns [(lit "k", VStr [0xD800])]).
  repeat constructor.
Defined.

(** ** The fingerprint of a table *)

Lemma combine_seq {A B} (da : A) (db : B) (a : list A) (b : list B) :
  length b = length a ->
  map (fun i => (nth i a da, nth i b db)) (seq 0 (length a)) = combine a b.
Proof.
  revert b. induction a as [|x a IH]; intros [|y b] Hlen;
    simpl in *; try discriminate; [reflexivity|].
  f_equal. rewrite <- seq_shift, map_map. apply IH. lia.
Qed.

Lemma take_seq {A} (d : A) (l : list A) : take d (seq 0 (length l)) l = l.
Proof.
  unfold take. induction l as [|x l IH]; simpl; [reflexivity|].
  f_equal. rewrite <- seq_shift, map_map. exact IH.
Qed.

Lemma take_length {A} (d : A) (order : list nat) (l : list A) :
  length (take d order l) = length order.
Proof. unfold take. apply length_map. Qed.

Lemma take_combine (order : list nat) (cols r : list pystr) :
  combine (take [] order cols) (take [] order r) =
  map (fun i => (nth i cols [], nth i r [])) order.
Proof.
  unfold take. induction order as [|i order IH]; simpl; [reflexivity|].
  rewrite IH. reflexivity.
Qed.

(** Sorting the columns by label sorts the cells of a row with them: the
    cells come in the order of the labels of their columns. *)
Lemma take_column_order (cols r : list pystr) :
  length r = length cols ->
  take [] (column_order cols) r =
  map snd (stable_sort fst str_ltb (combine cols r)).
Proof.
  intros Hlen. unfold take, column_order.
  rewrite <- (combine_seq [] [] cols r Hlen).
  rewrite (stable_sort_map (fun i => nth i cols []) fst str_ltb
             (fun i => (nth i cols [], nth i r []))) by done.
  rewrite map_map. reflexivity.
Qed.

Lemma take_sorted_columns (order : list nat) (cols r : list pystr) :
  NoDup cols -> length r = length cols ->
  Permutation order (seq 0 (length cols)) ->
  take [] (column_order (take [] order cols)) (take [] order r) =
  take [] (column_order cols) r.
Proof.
  intros Hnodup Hlen Hperm.
  rewrite !take_column_order by (rewrite ?take_length; done).
  f_equal. rewrite take_combine.
  apply (stable_sort_unique fst str_ltb str_ltb_irrefl str_ltb_trans
           str_ltb_total).
  - intros a b. apply NoDup_fst_inj.
    rewrite map_map. simpl. rewrite Hperm.
    fold (take [] (seq 0 (length cols)) cols). rewrite take_seq.
    exact Hnodup.
  - rewrite Hperm. rewrite combine_seq by exact Hlen. reflexivity.
Qed.

(** The fingerprint of a table does not depend on the order of its columns:
    a table whose column labels are distinct and whose rows have one cell
    per column keeps its fingerprint when the columns, and the cells of every
    row with them, are put in another order. *)
Theorem hash_column_order (df : DataFrame) (order : list nat) :
  NoDup (columns df) ->
  Forall (fun r => length r.2 = length (columns df)) (rows df) ->
  Permutation order (seq 0 (length (columns df))) ->
  calculate_data_hash
    (VDataFrame
       {| columns := take [] order (columns df);
          rows := map (fun r => (r.1, take [] order r.2)) (rows df) |}) =
  calculate_data_hash (VDataFrame df).
Proof.
  intros Hnodup Hrows Hperm.
  unfold calculate_data_hash, try_block. do 3 f_equal.
  unfold sort_index_1, sort_index_0. cbn [columns rows].
  f_equal.
  - apply take_sorted_columns; auto.
  - rewrite (stable_sort_map fst fst Z.ltb
               (fun r : Z * list pystr => (r.1, take [] order r.2))) by done.
    rewrite map_map.
    assert (Forall (fun r : Z * list pystr =>
                      length r.2 = length (columns df))
              (stable_sort fst Z.ltb (rows df))) as Hsorted
      by (rewrite stable_sort_perm; exact Hrows).
    apply map_ext_Forall. eapply Forall_impl; [exact Hsorted|].
    intros [label r] Hr. cbn [fst snd] in *. f_equal.
    apply take_sorted_columns; auto.
Qed.

(** The table of the test scenario with its columns in the order score,
    name, age. *)
Lemma hash_column_order_witness :
  calculate_data_hash
    (VDataFrame
       {| columns := [lit "score"; lit "name"; lit "age"];
          rows := [(0%Z, [lit "95"; lit "Alice"; lit "25"]);
                   (1%Z, [lit "88"; lit "Bob"; lit "30"])] |}) =
  calculate_data_hash (VDataFrame Samples.frame_alice_bob).
Proof.
  apply (hash_column_order Samples.frame_alice_bob [2; 0; 1]%nat).
  - apply (bool_decide_unpack _). vm_compute. exact I.
  - repeat constructor.
  - simpl. eapply perm_trans; [apply perm_swap|]. apply perm_skip, perm_swap.
Defined.

(** The rows of a table under the labels 7 and 3, in the two orders. *)
Lemma hash_labelled_rows_order_witness :
  calculate_data_hash
    (VDataFrame {| columns := columns Samples.frame_alice_bob;
                   rows := Samples.rows_alice_bob |}) =
  calculate_data_hash
    (VDataFrame {| columns := columns Samples.frame_alice_bob;
                   rows := Samples.rows_bob_alice |}).
Proof.
  apply hash_labelled_rows_order.
  - apply (bool_decide_unpack _). vm_compute. exact I.
  - apply perm_swap.
Defined.

(** ** The index: registration, check and removal together *)



Lemma dict_set_length {V} (k : pystr) (v : V) (d : list (pystr * V)) :
  length (dict_set k v d) = if dict_mem k d then length d else S (length d).
Proof.
  unfold dict_mem. induction d as [|[k' v'] d IH]; simpl; [reflexivity|].
  destruct (str_eqb k' k); simpl; [reflexivity|].
  rewrite IH. destruct (existsb _ d); reflexivity.
Qed.

Lemma dict_mem_set {V} (k : pystr) (v : V) (d : list (pystr * V)) :
  dict_mem k (dict_set k v d) = true.
Proof.
  unfold dict_mem. induction d as [|[k' v'] d IH]; simpl.
  - rewrite str_eqb_refl. reflexivity.
  - destruct (str_eqb k' k) eqn:E; simpl; rewrite E; auto.
Qed.

Lemma dict_del_set {V} (k : pystr) (v : V) (d : list (pystr * V)) :
  dict_mem k d = false -> dict_del k (dict_set k v d) = d.
Proof.
  unfold dict_mem, dict_del. induction d as [|[k' v'] d IH]; simpl.
  - rewrite str_eqb_refl. reflexivity.
  - destruct (str_eqb k' k) eqn:E; [discriminate|]. simpl. rewrite E. simpl.
    intros H. rewrite IH by exact H. reflexivity.
Qed.

(** The removal of the entry that a registration has just made, under an
    id that the index did not hold before, succeeds and gives back the index
    as it was before the registration; the file is written once more, with
    that index. *)
Theorem remove_after_add (s : service) (h t paper user stamp iso : pystr) :
  let reg := add_data_to_index s h t paper user stamp iso in
  dict_mem reg.1.1 (data_index s) = false ->
  remove_data_from_index reg.1.2 reg.1.1 = (true, s, _save_data_index s).
Proof.
  cbv zeta. unfold add_data_to_index. cbn [fst snd].
  intros Hfresh. unfold remove_data_from_index. cbn [data_index with_index].
  rewrite dict_mem_set. unfold with_index.
  cbn [data_index data_index_path bufsize].
  rewrite dict_del_set by exact Hfresh. destruct s. reflexivity.
Qed.

(** A service with one entry, a second entry registered and removed
    again. *)
Lemma remove_after_add_witness :
  remove_data_from_index
    (add_data_to_index Samples.one_entry_service (lit "aa") (lit "tabular")
       (lit "P1") (lit "U1") (lit "1700000001.25")
       (lit "2023-11-14T22:13:21.250000")).1.2
    (lit "entry_P1_U1_1700000001.25") =
  (true, Samples.one_entry_service,
   _save_data_index Samples.one_entry_service).
Proof.
  apply (remove_after_add Samples.one_entry_service (lit "aa") (lit "tabular")
           (lit "P1") (lit "U1") (lit "1700000001.25")
           (lit "2023-11-14T22:13:21.250000")).
  vm_compute. reflexivity.
Defined.

(** The id of an entry does not tell the paper from the user: the paper
    [a_b] of the user [c] and the paper [a] of the user [b_c] get the same
    entry id at the same time stamp, and the second registration takes the
    place of the first: the index is no longer than after the first, and the
    id names the entry of the second. *)
Theorem entry_id_collision (s : service)
    (a b c h1 h2 t1 t2 stamp iso1 iso2 : pystr) :
  let r1 := add_data_to_index s h1 t1 (a ++ lit "_" ++ b) c stamp iso1 in
  let r2 :=
    add_data_to_index r1.1.2 h2 t2 a (b ++ lit "_" ++ c) stamp iso2 in
  r2.1.1 = r1.1.1 /\
  length (data_index r2.1.2) = length (data_index r1.1.2) /\
  dict_get r1.1.1 (data_index r2.1.2) =
    Some {| e_hash := h2; e_data_type := t2; e_paper_id := a;
            e_user_id := b ++ lit "_" ++ c; e_timestamp := iso2 |}.
Proof.
  cbv zeta. unfold add_data_to_index. cbn [fst snd data_index with_index].
  assert (lit "entry_" ++ a ++ lit "_" ++ (b ++ lit "_" ++ c) ++ lit "_"
            ++ stamp
          = lit "entry_" ++ (a ++ lit "_" ++ b) ++ lit "_" ++ c ++ lit "_"
              ++ stamp)
    as -> by (rewrite <- !app_assoc; reflexivity).
  split; [reflexivity|]. split.
  - rewrite dict_set_length, dict_mem_set. reflexivity.
  - apply dict_get_set.
Qed.

(** ** The report of a run of the scheduler *)

(** What the loop adds to the details and to the alerts, over a part [l]
    of the index. *)
Lemma run_fold idx ids (l : index) (acc : results * list alert) :
  (forall id e, (id, e) ∈ l -> (id, e) ∈ idx) ->
  let out := fold_left (check_entry idx ids) l acc in
  total_data out.1 = total_data acc.1 /\
  map d_entry_id (details out.1) =
    map d_entry_id (details acc.1) ++ map fst (checked ids l) /\
  map a_user_id out.2 =
    map a_user_id acc.2 ++
    flat_map (fun item => [e_user_id item.2; e_user_id item.2])
      (checked ids l) /\
  map a_message out.2 =
    map a_message acc.2 ++
    flat_map (fun _ =>
                [lit "Exact duplicate found during scheduled deduplication";
                 lit "Similar data found during scheduled deduplication"])
      (checked ids l).
Proof.
  revert acc. induction l as [|[id e] l IH]; intros acc Hsub; simpl.
  - rewrite !app_nil_r. auto.
  - assert (forall id0 e0, (id0, e0) ∈ l -> (id0, e0) ∈ idx) as Hsub'
      by (intros; apply Hsub; right; assumption).
    assert ((id, e) ∈ idx) as Hin by (apply Hsub; left).
    unfold checked. simpl. fold (checked ids l).
    destruct (skipped ids id) eqn:Hskip; simpl.
    + rewrite check_entry_skipped by exact Hskip. apply IH, Hsub'.
    + rewrite (check_entry_checked idx ids acc id e Hin Hskip).
      match goal with |- context [fold_left _ l ?a] =>
        destruct (IH a Hsub') as (H1 & H2 & H3 & H4) end.
      cbn [fst snd total_data details] in *.
      rewrite H1, H2, H3, H4. rewrite !map_app, <- !app_assoc.
      simpl. auto.
Qed.

(** The report of a run: [total_data] counts the whole index, also when
    the run is restricted; the details name the entries that were checked,
    each once and in the order of the index; each of them brings its user two
    alerts, the one for the duplicate and then the one for similar data; and
    an empty list of ids restricts nothing: the run is that of all
    entries. *)
Theorem run_deduplication_report (idx : index)
    (data_ids : option (list pystr)) :
  let out := run_deduplication idx data_ids in
  total_data out.1 = length idx /\
  map d_entry_id (details out.1) = map fst (checked data_ids idx) /\
  map a_user_id out.2 =
    flat_map (fun item => [e_user_id item.2; e_user_id item.2])
      (checked data_ids idx) /\
  map a_message out.2 =
    flat_map (fun _ =>
                [lit "Exact duplicate found during scheduled deduplication";
                 lit "Similar data found during scheduled deduplication"])
      (checked data_ids idx) /\
  run_deduplication idx (Some []) = run_deduplication idx None.
Proof.
  unfold run_deduplication.
  match goal with |- context [fold_left _ idx ?a] =>
    destruct (run_fold idx data_ids idx a (fun _ _ H => H))
      as (H1 & H2 & H3 & H4) end.
  cbn [fst snd total_data details map app] in *.
  cbv zeta. auto.
Qed.

(** ** The encrypted object store: keys, filters and what stays on disk *)

Lemma fromisoformat_isoformat (t : datetime) :
  fromisoformat (isoformat t) = Some t.
Proof.
  pose proof (make_dt t) as Hmake.
  destruct t as [[y m d h mi s us] Ht].
  pose proof (valid_bounds _ Ht) as B.
  unfold fromisoformat, isoformat.
  cbn [dt year month day hour minute second microsecond] in *.
  change (lit "-") with [45]. change (lit "T") with [84].
  change (lit ":") with [58]. change (lit ".") with [46]. cbn [app].
  repeat (rewrite read_digits_dec_fixed by (simpl; lia);
          cbn [mbind option_bind read_char N.eqb Pos.eqb]).
  destruct (N.eqb_spec us 0) as [->|Hus].
  - cbn [mbind option_bind at_end]. exact Hmake.
  - cbn [mbind option_bind read_char N.eqb Pos.eqb].
    rewrite <- (app_nil_r (dec_fixed 6 us)).
    rewrite read_digits_dec_fixed by (simpl; lia).
    cbn [mbind option_bind at_end]. exact Hmake.
Qed.

Lemma neqb_false (a b : datetime) : neqb a b = false <-> dt b = dt a.
Proof.
  unfold neqb, compare. split.
  - destruct (str_compare _ _) eqn:E; try discriminate. intros _.
    apply str_compare_eq in E.
    destruct (dt a), (dt b). unfold tuple in E. simpl in E. congruence.
  - intros ->. rewrite str_compare_refl. reflexivity.
Qed.

(** A coordinate differs from its own dictionary when one of its numbers
    is not a number, and only then. *)
Lemma coordinate_differs_same (c : SpaceCoordinate) :
  coordinate_differs (coordinate_dict c) c = has_nan c.
Proof.
  unfold coordinate_differs, coordinate_dict, has_nan.
  change (dict_get (lit "latitude") _) with (Some (Json.JFloat (latitude c))).
  change (dict_get (lit "longitude") _)
    with (Some (Json.JFloat (longitude c))).
  change (dict_get (lit "altitude") _)
    with (Some match altitude c with
               | Some a => Json.JFloat a
               | None => Json.JNull
               end).
  change (dict_get (lit "coordinate_system") _)
    with (Some (Json.JStr (coordinate_system c))).
  cbv iota beta. rewrite str_eqb_refl.
  cbn [length Nat.eqb float_field_eqb andb].
  unfold PrimFloat.is_nan.
  destruct (altitude c) as [a|]; cbn [float_field_eqb];
    destruct (PrimFloat.eqb (latitude c) (latitude c)),
             (PrimFloat.eqb (longitude c) (longitude c));
    try destruct (PrimFloat.eqb a a); reflexivity.
Qed.

Section StoreFacts.
  Variable payload_str : payload -> pystr.
  Variable storage_path : pystr.



(** A load with a timestamp filter, of what was just saved: with the
    timestamp of the save it is the load without a filter; with any other it
    raises [ValueError], and the decrypted container stays in the store as
    the temporary file. *)
Theorem load_timestamp_filter fs data_content data_id user_id paper_id
    timestamp space_coordinate key now data_hash t :
  HashUtils.calculate_data_hash (payload_str data_content) = Ok data_hash ->
  let saved :=
    save_four_d_data payload_str storage_path fs data_content data_id
      user_id paper_id timestamp space_coordinate key now in
  let file :=
    {| attrs :=
         {[ lit "metadata" :=
              metadata_of data_id user_id paper_id timestamp
                space_coordinate data_hash now ]};
       datasets := datasets_of data_content |} in
  let out :=
    load_four_d_data storage_path (snd saved) data_id key (Some t) None in
  (dt t = dt timestamp ->
   out = load_four_d_data storage_path (snd saved) data_id key None None) /\
  (dt t <> dt timestamp ->
   fst out =
     Raise (Exn (lit "ValueError")
              (lit "Timestamp mismatch: expected " ++ str_of_datetime t
                 ++ lit ", got " ++ str_of_datetime timestamp)) /\
   snd out !! path_join storage_path (data_id ++ lit "_temp.h5")
     = Some (Hdf5 file)).
Proof.
  intros Hhash saved file out.
  destruct (save_four_d_data_files payload_str storage_path fs data_content
              data_id user_id paper_id timestamp space_coordinate key now
              data_hash Hhash) as (_ & Htoken & _).
  fold saved file in Htoken. subst out. unfold load_four_d_data.
  rewrite Htoken. unfold decrypt_content.
  rewrite bool_decide_eq_true_2 by reflexivity.
  unfold read_temp. cbn [file attrs datasets].
  rewrite lookup_singleton_eq. cbn [metadata_of].
  change (dict_get (lit "timestamp") _)
    with (Some (Json.JStr (isoformat timestamp))).
  cbv iota beta. rewrite fromisoformat_isoformat.
  split.
  - intros Heq. apply neqb_false in Heq. rewrite Heq. reflexivity.
  - intros Hne. destruct (neqb timestamp t) eqn:E.
    + cbn [mbind outcome_bind bind fst snd]. split; [reflexivity|].
      apply lookup_insert_eq.
    + exfalso. apply Hne, neqb_false, E.
Qed.

(** A load filtered by the very coordinate that was given to the save: it
    is the load without a filter, unless one of the numbers of the coordinate
    is not a number; then it raises [ValueError], and the decrypted container
    stays in the store. *)
Theorem load_space_filter fs data_content data_id user_id paper_id
    timestamp (c : SpaceCoordinate) key now data_hash :
  HashUtils.calculate_data_hash (payload_str data_content) = Ok data_hash ->
  let saved :=
    save_four_d_data payload_str storage_path fs data_content data_id
      user_id paper_id timestamp (Some c) key now in
  let out :=
    load_four_d_data storage_path (snd saved) data_id key None (Some c) in
  if has_nan c then
    (exists e, fst out = Raise e /\ exn_class e = lit "ValueError") /\
    exists f, snd out !! path_join storage_path (data_id ++ lit "_temp.h5")
                = Some (Hdf5 f)
  else
    out = load_four_d_data storage_path (snd saved) data_id key None None.
Proof.
  intros Hhash saved out.
  destruct (save_four_d_data_files payload_str storage_path fs data_content
              data_id user_id paper_id timestamp (Some c) key now
              data_hash Hhash) as (_ & Htoken & _).
  fold saved in Htoken. subst out. unfold load_four_d_data.
  rewrite Htoken. unfold decrypt_content.
  rewrite bool_decide_eq_true_2 by reflexivity.
  unfold read_temp. cbn [attrs datasets].
  rewrite lookup_singleton_eq. cbn [metadata_of].
  change (dict_get (lit "space_coordinate") _)
    with (Some (coordinate_dict c)).
  cbn [mbind outcome_bind bind]. rewrite coordinate_differs_same.
  destruct (has_nan c); [|reflexivity].
  cbn [mbind outcome_bind bind fst snd]. split; [eauto|].
  eexists. apply lookup_insert_eq.
Qed.

End StoreFacts.


(** The same save, and loads filtered by the time of the save and by a
    later time. *)
Lemma load_timestamp_filter_witness :
  let saved :=
    save_four_d_data Samples.printed (lit "./storage/four_d_data") ∅
      Samples.weather (lit "data_P1_0a1b2c3d") (lit "U1") (lit "P1")
      Samples.noon None Samples.fernet_key Samples.later in
  let out :=
    load_four_d_data (lit "./storage/four_d_data") (snd saved)
      (lit "data_P1_0a1b2c3d") Samples.fernet_key (Some Samples.later)
      None in
  fst out =
    Raise (Exn (lit "ValueError")
             (lit "Timestamp mismatch: expected 2024-03-01 12:00:07.250000, got 2024-03-01 12:00:00")) /\
  is_Some (snd out !! lit "./storage/four_d_data/data_P1_0a1b2c3d_temp.h5").
Proof.
  cbv zeta.
  destruct (load_timestamp_filter Samples.printed
              (lit "./storage/four_d_data") ∅ Samples.weather
              (lit "data_P1_0a1b2c3d") (lit "U1") (lit "P1") Samples.noon
              None Samples.fernet_key Samples.later
              (lit "fd0df2ed568c876bee7af4ab55bba0b3e431c702d09293ba5779aababdafced1")
              Samples.later) as [_ Hne].
  - vm_compute. reflexivity.
  - destruct Hne as [Hraise Htemp]; [vm_compute; discriminate|].
    split; [exact Hraise|]. eexists. exact Htemp.
Defined.

(** The same data saved with a place, and with a coordinate whose altitude
    is not a number. *)
Lemma load_space_filter_witness :
  (let saved :=
     save_four_d_data Samples.printed (lit "./storage/four_d_data") ∅
       Samples.weather (lit "data_P1_0a1b2c3d") (lit "U1") (lit "P1")
       Samples.noon (Some Samples.paris) Samples.fernet_key Samples.later in
   load_four_d_data (lit "./storage/four_d_data") (snd saved)
     (lit "data_P1_0a1b2c3d") Samples.fernet_key None (Some Samples.paris) =
   load_four_d_data (lit "./storage/four_d_data") (snd saved)
     (lit "data_P1_0a1b2c3d") Samples.fernet_key None None) /\
  (let saved :=
     save_four_d_data Samples.printed (lit "./storage/four_d_data") ∅
       Samples.weather (lit "data_P1_0a1b2c3d") (lit "U1") (lit "P1")
       Samples.noon (Some Samples.nowhere) Samples.fernet_key
       Samples.later in
   exists e,
     fst (load_four_d_data (lit "./storage/four_d_data") (snd saved)
            (lit "data_P1_0a1b2c3d") Samples.fernet_key None
            (Some Samples.nowhere)) = Raise e /\
     exn_class e = lit "ValueError").
Proof.
  split.
  - apply (load_space_filter Samples.printed (lit "./storage/four_d_data") ∅
             Samples.weather (lit "data_P1_0a1b2c3d") (lit "U1") (lit "P1")
             Samples.noon Samples.paris Samples.fernet_key Samples.later
             (lit "fd0df2ed568c876bee7af4ab55bba0b3e431c702d09293ba5779aababdafced1")).
    vm_compute. reflexivity.
  - apply (load_space_filter Samples.printed (lit "./storage/four_d_data") ∅
             Samples.weather (lit "data_P1_0a1b2c3d") (lit "U1") (lit "P1")
             Samples.noon Samples.nowhere Samples.fernet_key Samples.later
             (lit "fd0df2ed568c876bee7af4ab55bba0b3e431c702d09293ba5779aababdafced1")).
    vm_compute. reflexivity.
Defined.

(** ** The versions of a paper, over any run of calls *)

(** Whatever versions are handed to [add_new_version], and in whatever
    order, the versions that the paper takes are numbered from its latest
    version number on without a gap, in the order in which they were handed
    in, and the latest version number has grown by their count. *)
Theorem version_numbers_consecutive (p : DynamicPaper)
    (vs : list PaperVersion) :
  let p' := after_calls p vs in
  exists accepted,
    versions p' = versions p ++ accepted /\
    sublist accepted vs /\
    map version_number accepted =
      map (fun i => latest_version p + 1 + Z.of_nat i)%Z
        (seq 0 (length accepted)) /\
    latest_version p' = (latest_version p + Z.of_nat (length accepted))%Z.
Proof.
  cbv zeta. unfold after_calls. revert p.
  induction vs as [|v vs IH]; intros p; simpl.
  - exists []. simpl. rewrite app_nil_r. repeat split; [constructor|lia].
  - destruct (IH (add_new_version p v).2)
      as (acc & Hv & Hsub & Hnum & Hlast).
    revert Hv Hnum Hlast. unfold add_new_version.
    destruct (Z.eqb_spec (version_number v) (latest_version p + 1)) as [E|E];
      cbn [negb snd with_versions versions latest_version];
      intros Hv Hnum Hlast.
    + exists (v :: acc). rewrite Hv, <- app_assoc. split; [reflexivity|].
      split; [constructor; exact Hsub|]. split.
      * simpl. rewrite Hnum, <- seq_shift, map_map. f_equal; [lia|].
        apply map_ext. intros i. lia.
      * rewrite Hlast. simpl length. lia.
    + exists acc. split; [exact Hv|]. split; [constructor; exact Hsub|].
      split; [exact Hnum|exact Hlast].
Qed.

(** ** The temporal index: insertion and lookup *)

Lemma startswith_app (p r : pystr) : startswith p (p ++ r) = true.
Proof.
  induction p as [|c p IH]; simpl; [reflexivity|].
  rewrite N.eqb_refl. exact IH.
Qed.

Lemma startswith_same_length (p q r : pystr) :
  length p = length q -> startswith p (q ++ r) = true -> p = q.
Proof.
  revert q. induction p as [|c p IH]; intros [|d q] Hlen; simpl in *;
    try discriminate; [reflexivity|].
  intros H. apply andb_true_iff in H as [Hc H].
  apply N.eqb_eq in Hc. f_equal; [exact Hc|]. apply IH; [lia|exact H].
Qed.

Lemma strftime_key_length (t : datetime) : length (strftime_key t) = 22%nat.
Proof.
  unfold strftime_key. rewrite !length_app, !dec_fixed_length. reflexivity.
Qed.

Lemma strftime_key_inj (t t' : datetime) :
  strftime_key t = strftime_key t' -> t = t'.
Proof.
  intros H. pose proof (strptime_padded_strftime t) as Ht.
  rewrite H, strptime_padded_strftime in Ht. congruence.
Qed.

(** What an insertion that returns has done to the group of the paper. *)
Lemma insert_ok (db : database) (paper_id : pystr) (v : PaperVersion)
    (t : datetime) :
  fst (insert_paper_version db paper_id v t) = Ok tt ->
  papers (snd (insert_paper_version db paper_id v t)) =
    <[paper_id :=
        default [] (papers db !! paper_id)
          ++ [(ts_key t (version_number v),
               Some (Json.reload (Json.JObj (version_fields v))))]]>
      (papers db) /\
  dict_mem (ts_key t (version_number v))
    (default [] (papers db !! paper_id)) = false.
Proof.
  unfold insert_paper_version, dumps_version.
  destruct (four_d_data_references v); [|discriminate].
  destruct (dict_mem _ _); [discriminate|]. auto.
Qed.

(** The insertion of a version that refers to data raises [TypeError]: the
    dictionary of a reference holds a [datetime], which [json.dumps] does not
    write. The group of the paper exists afterwards, with the members it had
    (none, when the insertion made the group); nothing else has changed. *)
Theorem insert_with_reference_raises (db : database) (paper_id : pystr)
    (v : PaperVersion) (t : datetime) :
  four_d_data_references v <> [] ->
  let out := insert_paper_version db paper_id v t in
  fst out =
    Raise (Exn (lit "TypeError")
             (lit "Object of type datetime is not JSON serializable")) /\
  papers (snd out) !! paper_id = Some (default [] (papers db !! paper_id)) /\
  (forall q, q <> paper_id -> papers (snd out) !! q = papers db !! q) /\
  timestamps (snd out) = timestamps db.
Proof.
  intros Href. cbv zeta. unfold insert_paper_version, dumps_version.
  destruct (four_d_data_references v); [done|].
  cbn [fst snd papers timestamps].
  split; [reflexivity|]. split; [apply lookup_insert_eq|].
  split; [|reflexivity]. intros q Hq. apply lookup_insert_ne. done.
Qed.

(** A version with one reference, and a database without any paper. *)
Lemma insert_with_reference_raises_witness :
  let out :=
    insert_paper_version Samples.empty_database (lit "P1")
      Samples.version_with_reference Samples.noon in
  fst out =
    Raise (Exn (lit "TypeError")
             (lit "Object of type datetime is not JSON serializable")) /\
  papers (snd out) !! lit "P1"
    = Some (default [] (papers Samples.empty_database !! lit "P1")) /\
  (forall q, q <> lit "P1" ->
     papers (snd out) !! q = papers Samples.empty_database !! q) /\
  timestamps (snd out) = timestamps Samples.empty_database.
Proof.
  apply (insert_with_reference_raises Samples.empty_database (lit "P1")
           Samples.version_with_reference Samples.noon).
  discriminate.
Defined.

(** A version that was inserted at a time within the range is returned by
    the range query, as it is read back and with that time as its
    "timestamp"; and what the query returned before the insertion it returns
    after it. *)
Theorem insert_then_range_query (db : database) (paper_id : pystr)
    (v : PaperVersion) (t start_time end_time : datetime) :
  fst (insert_paper_version db paper_id v t) = Ok tt ->
  leb start_time t = true -> leb t end_time = true ->
  let papers' := papers (snd (insert_paper_version db paper_id v t)) in
  exists fields,
    Json.reload (Json.JObj (version_fields v)) = Json.JObj fields /\
    stamped t fields
      ∈ get_versions_by_time_range strptime_padded papers' paper_id
          start_time end_time /\
    forall x,
      x ∈ get_versions_by_time_range strptime_padded (papers db) paper_id
            start_time end_time ->
      x ∈ get_versions_by_time_range strptime_padded papers' paper_id
            start_time end_time.
Proof.
  intros Hok Hs He papers'.
  destruct (insert_ok db paper_id v t Hok) as [Hpapers _].
  subst papers'. rewrite Hpapers. clear Hpapers Hok.
  eexists. split; [reflexivity|].
  unfold get_versions_by_time_range. rewrite lookup_insert_eq.
  set (g := default [] (papers db !! paper_id)).
  set (key := ts_key t (version_number v)).
  rewrite scan_member_in_range. cbn [app].
  split.
  - rewrite stable_sort_perm.
    apply (list_elem_of_fmap_2 (stamped_pair) _ (t, _)).
    apply in_range_elem. exists key. split; [|split; [|split]]; auto.
    + apply elem_of_app. right. left.
    + apply key_timestamp_ts_key.
  - intros x. destruct (papers db !! paper_id) as [g0|] eqn:Hg;
      [|intros H; inversion H].
    rewrite scan_member_in_range. cbn [app]. rewrite !stable_sort_perm.
    intros Hx. apply list_elem_of_fmap in Hx as ([t0 f0] & -> & Hin).
    apply list_elem_of_fmap_2.
    apply in_range_elem in Hin as (k0 & Hk0 & Hkey & Hs0 & He0).
    apply in_range_elem. exists k0. split; [|auto].
    apply elem_of_app. left. exact Hk0.
Qed.

(** A version without references, inserted at 12:00:20 and asked for from
    12:00:10 to 12:00:30. *)
Lemma insert_then_range_query_witness :
  let papers' :=
    papers (snd (insert_paper_version Samples.empty_database (lit "P1")
                   Samples.version_plain (Samples.at_second 20))) in
  exists fields,
    Json.reload (Json.JObj (version_fields Samples.version_plain))
      = Json.JObj fields /\
    stamped (Samples.at_second 20) fields
      ∈ get_versions_by_time_range strptime_padded papers' (lit "P1")
          (Samples.at_second 10) (Samples.at_second 30) /\
    forall x,
      x ∈ get_versions_by_time_range strptime_padded
            (papers Samples.empty_database) (lit "P1")
            (Samples.at_second 10) (Samples.at_second 30) ->
      x ∈ get_versions_by_time_range strptime_padded papers' (lit "P1")
            (Samples.at_second 10) (Samples.at_second 30).
Proof.
  apply (insert_then_range_query Samples.empty_database (lit "P1")
           Samples.version_plain (Samples.at_second 20)
           (Samples.at_second 10) (Samples.at_second 30));
    vm_compute; reflexivity.
Defined.

(** A version that was inserted at a time at which the paper had no
    version is the version found at that time. *)
Theorem insert_then_lookup (db : database) (paper_id : pystr)
    (v : PaperVersion) (t : datetime) :
  fst (insert_paper_version db paper_id v t) = Ok tt ->
  (forall member, member ∈ default [] (papers db !! paper_id) ->
     startswith (strftime_key t) (fst member) = false) ->
  get_version_by_timestamp
    (papers (snd (insert_paper_version db paper_id v t))) paper_id t =
  Some (Json.reload (Json.JObj (version_fields v))).
Proof.
  intros Hok Hnone. destruct (insert_ok db paper_id v t Hok) as [-> _].
  unfold get_version_by_timestamp. rewrite lookup_insert_eq.
  induction (default [] (papers db !! paper_id)) as [|m g IH];
    cbn [app List.find fst snd].
  - unfold ts_key. rewrite startswith_app. reflexivity.
  - rewrite (Hnone m) by left. apply IH. intros m' Hm'. apply Hnone. right.
    exact Hm'.
Qed.

(** The same version, inserted at noon and looked up at noon. *)
Lemma insert_then_lookup_witness :
  get_version_by_timestamp
    (papers (snd (insert_paper_version Samples.empty_database (lit "P1")
                    Samples.version_plain Samples.noon)))
    (lit "P1") Samples.noon =
  Some (Json.reload (Json.JObj (version_fields Samples.version_plain))).
Proof.
  apply (insert_then_lookup Samples.empty_database (lit "P1")
           Samples.version_plain Samples.noon).
  - vm_compute. reflexivity.
  - intros member H. vm_compute in H. inversion H.
Defined.

(** The version found at a timestamp is a member of the group of the
    paper whose key starts with the timestamp; where its key was written by
    an insertion, it was inserted at that very timestamp. *)
Theorem lookup_by_timestamp_exact (papers : gmap pystr group)
    (paper_id : pystr) (t : datetime) (x : Json.value) :
  get_version_by_timestamp papers paper_id t = Some x ->
  exists g key,
    papers !! paper_id = Some g /\ (key, Some x) ∈ g /\
    startswith (strftime_key t) key = true /\
    forall t' n, key = ts_key t' n -> t' = t.
Proof.
  unfold get_version_by_timestamp.
  destruct (papers !! paper_id) as [g|]; [|discriminate].
  destruct (List.find _ g) as [[key d]|] eqn:Hfind; [|discriminate].
  simpl. intros ->. apply find_some in Hfind as [Hin Hstart].
  exists g, key. split; [reflexivity|]. split; [apply list_elem_of_In, Hin|].
  simpl in Hstart. split; [exact Hstart|].
  intros t' n ->. unfold ts_key in Hstart. symmetry.
  apply strftime_key_inj.
  apply (startswith_same_length _ _ (lit "_" ++ str_of_Z n)); [|exact Hstart].
  rewrite !strftime_key_length. reflexivity.
Qed.

(** The version at 12:00:20 in the group of the sample. *)
Lemma lookup_by_timestamp_exact_witness :
  exists g key,
    ({[ lit "P1" := Samples.paper_group ]} : gmap pystr group) !! lit "P1"
      = Some g /\
    (key, Some (Samples.version_object 2)) ∈ g /\
    startswith (strftime_key (Samples.at_second 20)) key = true /\
    forall t' n, key = ts_key t' n -> t' = Samples.at_second 20.
Proof.
  apply (lookup_by_timestamp_exact {[ lit "P1" := Samples.paper_group ]}
           (lit "P1") (Samples.at_second 20) (Samples.version_object 2)).
  vm_compute. reflexivity.
Defined.

(** ** The notifications of a user *)

Import UserNotifier.

(** A text without surrogates is read back as itself, and nothing else is
    read back as it. *)
Lemma combine_surrogates_low (s k : pystr) :
  Forall (fun c => c < 0xD800) k -> Json.combine_surrogates s = k -> s = k.
Proof.
  intros Hk. revert s.
  induction Hk as [|c k Hc Hk IH]; intros s.
  - destruct s as [|a [|b s]]; simpl; try discriminate; [reflexivity|].
    destruct (_ && _); discriminate.
  - destruct s as [|a [|b s]]; simpl; try discriminate.
    + intros [= -> <-]. reflexivity.
    + destruct (Json.is_high_surrogate a && Json.is_low_surrogate b) eqn:E.
      * intros [= <- _]. exfalso.
        apply andb_true_iff in E as [E _]. unfold Json.is_high_surrogate in E.
        apply andb_true_iff in E as [E _]. apply N.leb_le in E. lia.
      * intros [= -> H]. f_equal. apply IH. exact H.
Qed.

Lemma combine_surrogates_id (k : pystr) :
  Forall (fun c => c < 0xD800) k -> Json.combine_surrogates k = k.
Proof.
  induction 1 as [|c k Hc Hk IH]; [reflexivity|].
  destruct k as [|d k]; [reflexivity|].
  change (Json.combine_surrogates (c :: d :: k))
    with (if Json.is_high_surrogate c && Json.is_low_surrogate d
          then (0x10000 + N.shiftl (c - 0xD800) 10 + (d - 0xDC00))
                 :: Json.combine_surrogates k
          else c :: Json.combine_surrogates (d :: k)).
  assert (Json.is_high_surrogate c = false) as ->.
  { unfold Json.is_high_surrogate. apply andb_false_iff. left.
    apply N.leb_gt. exact Hc. }
  simpl andb. cbv iota. rewrite IH. reflexivity.
Qed.

Lemma dict_get_set_ne {V} (k k' : pystr) (v : V) (d : list (pystr * V)) :
  k <> k' -> dict_get k (dict_set k' v d) = dict_get k d.
Proof.
  intros Hne. induction d as [|[k0 v0] d IH]; simpl.
  - destruct (str_eqb k' k) eqn:E; [|reflexivity].
    apply str_eqb_eq in E. congruence.
  - destruct (str_eqb k0 k') eqn:E; simpl.
    + apply str_eqb_eq in E. subst k0.
      destruct (str_eqb k' k) eqn:E'; [|reflexivity].
      apply str_eqb_eq in E'. congruence.
    + rewrite IH. reflexivity.
Qed.

Lemma dict_set_keys {V} (k : pystr) (v : V) (d : list (pystr * V)) :
  map fst (dict_set k v d) =
  if dict_mem k d then map fst d else map fst d ++ [k].
Proof.
  unfold dict_mem. induction d as [|[k0 v0] d IH]; simpl; [reflexivity|].
  destruct (str_eqb k0 k); simpl; [reflexivity|].
  rewrite IH. destruct (existsb _ d); reflexivity.
Qed.

Lemma dict_mem_false {V} (k : pystr) (d : list (pystr * V)) :
  dict_mem k d = false -> k ∉ map fst d.
Proof.
  unfold dict_mem. induction d as [|[k0 v0] d IH]; simpl.
  - intros _ H. inversion H.
  - destruct (str_eqb k0 k) eqn:E; [discriminate|]. simpl. intros Hd H.
    apply str_eqb_neq in E. inversion H; subst; [congruence|].
    apply (IH Hd). assumption.
Qed.

(** Setting a key keeps the keys of a dictionary distinct. *)
Lemma dict_set_nodup {V} (k : pystr) (v : V) (d : list (pystr * V)) :
  NoDup (map fst d) -> NoDup (map fst (dict_set k v d)).
Proof.
  intros Hd. rewrite dict_set_keys.
  destruct (dict_mem k d) eqn:E; [exact Hd|].
  apply NoDup_app. split; [exact Hd|]. split; [|apply NoDup_singleton].
  intros x Hx Hk. apply list_elem_of_singleton in Hk. subst x.
  exact (dict_mem_false _ _ E Hx).
Qed.

Lemma dict_set_unique {V} (k : pystr) (v x : V) (d : list (pystr * V)) :
  NoDup (map fst d) -> (k, x) ∈ dict_set k v d -> x = v.
Proof.
  intros Hd Hx.
  pose proof (NoDup_fst_inj (dict_set k v d) (dict_set_nodup k v d Hd)
                (k, x) (k, v) Hx (dict_set_in k v d) eq_refl) as H.
  congruence.
Qed.

(** What is read back of an object: its keys are distinct, and a key
    without surrogates that the object holds with one value only is read
    back with that value. *)
Lemma reload_object (n : notification) :
  exists n',
    Json.reload (Json.JObj n) = Json.JObj n' /\
    NoDup (map fst n') /\
    forall k v,
      Forall (fun c => c < 0xD800) k ->
      (exists x, (k, x) ∈ n) ->
      (forall x, (k, x) ∈ n -> x = v) ->
      dict_get k n' = Some (Json.reload v).
Proof.
  cbn [Json.reload]. eexists. split; [reflexivity|].
  induction n as [|[k0 x0] n IH] using rev_ind.
  - split; [constructor|]. intros k v _ [x Hx]. inversion Hx.
  - rewrite fold_left_app. cbn [fold_left].
    destruct IH as [Hnodup Hget]. split; [apply dict_set_nodup, Hnodup|].
    intros k v Hk [x Hx] Hv.
    destruct (decide (Json.combine_surrogates k0 = k)) as [Heq|Hne].
    + rewrite Heq, dict_get_set. f_equal. f_equal. apply Hv.
      apply (combine_surrogates_low _ _ Hk) in Heq. subst k0.
      apply elem_of_app. right. left.
    + rewrite dict_get_set_ne by congruence.
      apply Hget; [exact Hk| |].
      * apply elem_of_app in Hx as [Hx|Hx]; [eauto|].
        apply list_elem_of_singleton in Hx. injection Hx as -> ->.
        exfalso. apply Hne, combine_surrogates_id, Hk.
      * intros x' Hx'. apply Hv. apply elem_of_app. left. exact Hx'.
Qed.

Lemma read_back_nodup (n : notification) : NoDup (map fst (read_back n)).
Proof.
  unfold read_back. destruct (reload_object n) as (n' & -> & Hn' & _).
  exact Hn'.
Qed.

(** A notification that was marked as read is read back as read. *)
Lemma marked_is_read (n : notification) :
  dict_get (lit "read")
    (read_back (dict_set (lit "read") (Json.JBool true) (read_back n)))
  = Some (Json.JBool true).
Proof.
  set (marked := dict_set (lit "read") (Json.JBool true) (read_back n)).
  unfold read_back at 1.
  destruct (reload_object marked) as (m' & -> & _ & Hget).
  apply (Hget (lit "read") (Json.JBool true)).
  - repeat constructor.
  - exists (Json.JBool true). apply dict_set_in.
  - intros x Hx. apply (dict_set_unique _ _ _ _ (read_back_nodup n) Hx).
Qed.

Section NotifierFacts.
  Variable notification_path : pystr.

Lemma notification_path_inj (a b : pystr) :
  is_absolute a = false -> is_absolute b = false ->
  _get_user_notification_path notification_path a =
  _get_user_notification_path notification_path b -> a = b.
Proof.
  unfold _get_user_notification_path, path_join. intros Ha Hb.
  assert (forall x, is_absolute x = false ->
            is_absolute (x ++ lit "_notifications.json") = false) as Habs
    by (intros [|c x]; auto).
  rewrite !Habs by assumption.
  destruct (ends_with_slash notification_path); intros H;
    repeat apply app_inv_head in H; apply app_inv_tail in H; exact H.
Qed.

(** After a notification was saved for a user, the notifications of the
    user are the new one and then those there were, as they are read back,
    cut to the first hundred: there are never more than a hundred, and it is
    the oldest that are dropped. The notifications of another user are as
    they were (for users whose ids do not start with a slash). *)
Theorem notifications_newest_first (fs : files) (user_id : pystr)
    (n : notification) :
  let before :=
    fst (get_user_notifications notification_path fs user_id false) in
  let fs' := _save_notification notification_path fs user_id n in
  let after :=
    fst (get_user_notifications notification_path fs' user_id false) in
  after = firstn 100 (read_back n :: map read_back before) /\
  (length after <= 100)%nat /\
  forall other,
    is_absolute user_id = false -> is_absolute other = false ->
    other <> user_id ->
    get_user_notifications notification_path fs' other false =
    (fst (get_user_notifications notification_path fs other false), fs').
Proof.
  cbv zeta. unfold get_user_notifications, _save_notification.
  set (path := _get_user_notification_path notification_path user_id).
  rewrite lookup_insert_eq. cbn [fst].
  assert (forall l : list notification,
            (if (100 <? length l)%nat then firstn 100 l else l)
            = firstn 100 l) as Hcap.
  { intros l. destruct (Nat.ltb_spec 100 (length l)); [reflexivity|].
    symmetry. apply firstn_all2. assumption. }
  rewrite Hcap. split; [|split].
  - rewrite <- firstn_map. cbn [map].
    destruct (fs !! path); reflexivity.
  - rewrite length_map, length_firstn. lia.
  - intros other Hu Ho Hne.
    rewrite lookup_insert_ne.
    + destruct (fs !! _get_user_notification_path notification_path other);
        reflexivity.
    + intros H. apply Hne. symmetry.
      apply (notification_path_inj _ _ Hu Ho H).
Qed.

(** After the notifications of a user were read with [mark_as_read], the
    user has no unread notification; as many notifications were returned as
    without the mark. *)
Theorem mark_as_read_clears (fs : files) (user_id : pystr) :
  let out := get_user_notifications notification_path fs user_id true in
  get_unread_count notification_path (snd out) user_id = 0%nat /\
  length (fst out) =
    length (fst (get_user_notifications notification_path fs user_id false)).
Proof.
  cbv zeta. unfold get_unread_count, get_user_notifications.
  set (path := _get_user_notification_path notification_path user_id).
  destruct (fs !! path) as [stored|] eqn:Hstored; cbn [fst snd].
  - rewrite lookup_insert_eq. cbn [fst]. split; [|rewrite !length_map; done].
    apply length_zero_iff_nil. clear Hstored.
    induction stored as [|n stored IH]; [reflexivity|].
    cbn [map List.filter]. rewrite marked_is_read. exact IH.
  - rewrite Hstored. split; reflexivity.
Qed.

End NotifierFacts.

(** ** Tracing the data of a paper *)

Lemma endswith_app (a s : pystr) : endswith s (a ++ s) = true.
Proof. unfold endswith. rewrite rev_app_distr. apply startswith_app. Qed.

Section TraceFacts.
  Variable payload_str : payload -> pystr.
  Variable storage_path : pystr.
  Variable fromisoformat : pystr -> option datetime.

Lemma path_join_last (x : pystr) :
  x <> [] -> last (path_join storage_path x) = last x.
Proof.
  intros Hx. unfold path_join.
  destruct (is_absolute x); [reflexivity|].
  destruct (ends_with_slash storage_path); rewrite !last_app;
    destruct x as [|c x]; try done;
    destruct (last (c :: x)) eqn:E; try reflexivity;
    apply last_None in E; discriminate.
Qed.

(** The paths of the encrypted files end in "c", those of the temporary
    files in "5". *)
Lemma encrypted_path_last (data_id : pystr) :
  last (path_join storage_path (data_id ++ hdf5_ext)) = Some 99.
Proof.
  rewrite path_join_last by (destruct data_id; discriminate).
  rewrite last_app. reflexivity.
Qed.

Lemma temp_metadata_last :
  last (path_join storage_path (lit "temp_metadata.h5")) = Some 53.
Proof. rewrite path_join_last by discriminate. reflexivity. Qed.

Lemma temp_path_last (data_id : pystr) :
  last (path_join storage_path (data_id ++ lit "_temp.h5")) = Some 53.
Proof.
  rewrite path_join_last by (destruct data_id; discriminate).
  rewrite last_app. reflexivity.
Qed.

Lemma extract_frame (fs : gmap pystr content) (c : content) (key : list N) :
  same_encrypted
    (snd (_extract_metadata_without_decrypt storage_path fs c key)) fs.
Proof.
  unfold _extract_metadata_without_decrypt.
  destruct (decrypt_content c key) as [[f|k plain]|e]; cbn [snd];
    try (intros q _; reflexivity).
  - destruct (attrs f !! lit "metadata"); cbn [snd]; intros q Hq.
    + rewrite lookup_delete_ne, lookup_insert_ne;
        [reflexivity| |]; intros <-; rewrite temp_metadata_last in Hq;
        discriminate.
    + rewrite lookup_insert_ne; [reflexivity|].
      intros <-. rewrite temp_metadata_last in Hq. discriminate.
  - intros q Hq. rewrite lookup_insert_ne; [reflexivity|].
    intros <-. rewrite temp_metadata_last in Hq. discriminate.
Qed.

Lemma extract_ok (fs : gmap pystr content) (c : content) (key : list N)
    (md : Json.value) :
  fst (_extract_metadata_without_decrypt storage_path fs c key) = Ok md ->
  exists f, c = Token key (Hdf5 f) /\ attrs f !! lit "metadata" = Some md.
Proof.
  unfold _extract_metadata_without_decrypt, decrypt_content.
  destruct c as [f|k plain]; [discriminate|].
  destruct (bool_decide (k = key)) eqn:E; [|discriminate].
  apply bool_decide_eq_true_1 in E. subst k.
  destruct plain as [f|]; [|discriminate].
  destruct (attrs f !! lit "metadata") as [md'|] eqn:Hmd; [|discriminate].
  cbn [fst]. intros [= ->]. eauto.
Qed.

Lemma extract_token (fs : gmap pystr content) (f : h5file) (key : list N)
    (md : Json.value) :
  attrs f !! lit "metadata" = Some md ->
  _extract_metadata_without_decrypt storage_path fs (Token key (Hdf5 f)) key
  = (Ok md,
     delete (path_join storage_path (lit "temp_metadata.h5"))
       (<[path_join storage_path (lit "temp_metadata.h5") := Hdf5 f]> fs)).
Proof.
  intros Hmd. unfold _extract_metadata_without_decrypt, decrypt_content.
  rewrite bool_decide_eq_true_2 by reflexivity. rewrite Hmd. reflexivity.
Qed.

Lemma load_frame (fs : gmap pystr content) (data_id : pystr) (key : list N) :
  same_encrypted
    (snd (load_four_d_data storage_path fs data_id key None None)) fs.
Proof.
  unfold load_four_d_data.
  destruct (fs !! _) as [c|]; [|intros q _; reflexivity].
  destruct (decrypt_content c key) as [d|e]; [|intros q _; reflexivity].
  destruct (read_temp d None None) as [r|e]; cbn [snd]; intros q Hq.
  - rewrite lookup_delete_ne, lookup_insert_ne;
      [reflexivity| |]; intros <-; rewrite temp_path_last in Hq;
      discriminate.
  - rewrite lookup_insert_ne; [reflexivity|].
    intros <-. rewrite temp_path_last in Hq. discriminate.
Qed.

(** What a load without filters returns is read off the encrypted file. *)
Lemma load_ok (fs : gmap pystr content) (data_id : pystr) (key : list N)
    (r : result) :
  fst (load_four_d_data storage_path fs data_id key None None) = Ok r ->
  exists f,
    fs !! path_join storage_path (data_id ++ hdf5_ext)
      = Some (Token key (Hdf5 f)) /\
    attrs f !! lit "metadata" = Some (r_metadata r).
Proof.
  unfold load_four_d_data.
  destruct (fs !! _) as [c|]; [|discriminate].
  unfold decrypt_content.
  destruct c as [f|k plain]; [discriminate|].
  destruct (bool_decide (k = key)) eqn:E; [|discriminate].
  apply bool_decide_eq_true_1 in E. subst k.
  destruct (read_temp plain None None) as [r'|e] eqn:Hread; [|discriminate].
  cbn [fst]. intros [= ->].
  unfold read_temp in Hread. destruct plain as [f|]; [|discriminate].
  exists f. split; [reflexivity|].
  destruct (attrs f !! lit "metadata") as [[| | | | | |md]|];
    try discriminate.
  cbn [mbind outcome_bind bind] in Hread.
  destruct (1 <? size (datasets f))%nat.
  - injection Hread as <-. reflexivity.
  - destruct (datasets f !! lit "data"); [|discriminate].
    injection Hread as <-. reflexivity.
Qed.

Lemma load_same (fs1 fs2 : gmap pystr content) (data_id : pystr)
    (key : list N) :
  same_encrypted fs1 fs2 ->
  fst (load_four_d_data storage_path fs1 data_id key None None) =
  fst (load_four_d_data storage_path fs2 data_id key None None).
Proof.
  intros Hsame. unfold load_four_d_data.
  rewrite (Hsame _ (encrypted_path_last data_id)).
  destruct (fs2 !! _) as [c|]; [|reflexivity].
  destruct (decrypt_content c key) as [d|e]; [|reflexivity].
  destruct (read_temp d None None); reflexivity.
Qed.

(** A trace with a key under which no file of the store was encrypted
    returns the empty dictionary and raises nothing: every file is passed
    over, and the store is left as it is. *)
Theorem trace_without_the_key (fs : gmap pystr content)
    (listing : list pystr) (paper_id : pystr)
    (start_time end_time : datetime) (user_id : pystr) (key : list N) :
  (forall q c, fs !! q = Some c ->
     exists k plain, c = Token k plain /\ k <> key) ->
  trace_four_d_data_by_time storage_path fromisoformat fs listing paper_id
    start_time end_time user_id key = ([], fs).
Proof.
  intros Hkeys. unfold trace_four_d_data_by_time.
  induction listing as [|f listing IH]; [reflexivity|].
  cbn [fold_left].
  assert (trace_file storage_path fromisoformat paper_id user_id start_time
            end_time key ([], fs) f = ([], fs)) as ->; [|exact IH].
  unfold trace_file. destruct (negb (endswith hdf5_ext f)); [reflexivity|].
  cbn [fst snd]. destruct (fs !! path_join storage_path f) as [c|] eqn:Hc;
    [|reflexivity].
  destruct (Hkeys _ _ Hc) as (k & plain & -> & Hk).
  unfold _extract_metadata_without_decrypt, decrypt_content.
  rewrite bool_decide_eq_false_2 by exact Hk. reflexivity.
Qed.

(** One turn of the loop: the files change in temporary files only, and
    what is traced, under the name without the extension, is what a load of
    that name returns, and has passed the filters. *)
Lemma trace_file_cases (fs : gmap pystr content) (paper_id user_id : pystr)
    (start_time end_time : datetime) (key : list N)
    (acc : list (pystr * result) * gmap pystr content) (f : pystr) :
  (endswith hdf5_ext f = true -> replace hdf5_ext [] f ++ hdf5_ext = f) ->
  same_encrypted (snd acc) fs ->
  let acc' :=
    trace_file storage_path fromisoformat paper_id user_id start_time
      end_time key acc f in
  same_encrypted (snd acc') fs /\
  (fst acc' = fst acc \/
   exists r,
     fst acc' = dict_set (replace hdf5_ext [] f) r (fst acc) /\
     replace hdf5_ext [] f ++ hdf5_ext = f /\
     selected fromisoformat (r_metadata r) paper_id user_id start_time
       end_time = Ok true /\
     fst (load_four_d_data storage_path fs (replace hdf5_ext [] f) key
            None None) = Ok r).
Proof.
  intros Hname Hsame. cbv zeta. unfold trace_file.
  destruct (endswith hdf5_ext f) eqn:Hend; cbn [negb]; [|auto].
  specialize (Hname eq_refl).
  set (data_id := replace hdf5_ext [] f) in *.
  destruct (snd acc !! path_join storage_path f) as [c|] eqn:Hc; [|auto].
  pose proof (extract_frame (snd acc) c key) as Hframe.
  pose proof (extract_ok (snd acc) c key) as Hok.
  destruct (_extract_metadata_without_decrypt storage_path (snd acc) c key)
    as [[md|e] fs1]; cbn [fst snd] in *.
  2: { split; [|auto]. intros q Hq. rewrite Hframe, Hsame by done. done. }
  assert (same_encrypted fs1 fs) as Hsame1.
  { intros q Hq. rewrite Hframe, Hsame by done. done. }
  destruct (selected fromisoformat md paper_id user_id start_time end_time)
    as [[|]|e] eqn:Hsel; [|auto..].
  pose proof (load_frame fs1 data_id key) as Hframe2.
  pose proof (load_ok fs1 data_id key) as Hload.
  pose proof (load_same fs1 fs data_id key Hsame1) as Hsame_load.
  destruct (load_four_d_data storage_path fs1 data_id key None None)
    as [[r|e] fs2]; cbn [fst snd] in *.
  2: { split; [|auto]. intros q Hq. rewrite Hframe2, Hsame1 by done. done. }
  split.
  { intros q Hq. rewrite Hframe2, Hsame1 by done. done. }
  right. exists r. split; [reflexivity|]. split; [exact Hname|].
  split; [|symmetry; exact Hsame_load].
  destruct (Hok md eq_refl) as (file & -> & Hmd).
  destruct (Hload r eq_refl) as (file' & Hfile' & Hmd').
  assert (last (path_join storage_path f) = Some 99) as Hlast
    by (rewrite <- Hname; apply encrypted_path_last).
  rewrite Hname in Hfile'. rewrite (Hframe _ Hlast) in Hfile'.
  rewrite Hc in Hfile'. injection Hfile' as <-.
  rewrite Hmd in Hmd'. injection Hmd' as <-. exact Hsel.
Qed.

(** Where the names of the directory that end with the extension hold it
    once only (taking the extension away and putting it back gives the name),
    every entry of a trace is the data of a file of the directory, as a load
    without filters returns it, and its metadata has the paper and the user
    that were asked for and a timestamp within the range. *)
Theorem trace_sound (fs : gmap pystr content) (listing : list pystr)
    (paper_id : pystr) (start_time end_time : datetime) (user_id : pystr)
    (key : list N) :
  Forall (fun f => endswith hdf5_ext f = true ->
                   replace hdf5_ext [] f ++ hdf5_ext = f) listing ->
  Forall (fun item =>
            (item.1 ++ hdf5_ext) ∈ listing /\
            selected fromisoformat (r_metadata item.2) paper_id user_id
              start_time end_time = Ok true /\
            fst (load_four_d_data storage_path fs item.1 key None None)
              = Ok item.2)
    (fst (trace_four_d_data_by_time storage_path fromisoformat fs listing
            paper_id start_time end_time user_id key)).
Proof.
  intros Hnames. unfold trace_four_d_data_by_time.
  assert (forall l acc,
            Forall (fun f => endswith hdf5_ext f = true ->
                             replace hdf5_ext [] f ++ hdf5_ext = f) l ->
            same_encrypted (snd acc) fs ->
            forall id r,
              (id, r) ∈ fst (fold_left
                               (trace_file storage_path fromisoformat
                                  paper_id user_id start_time end_time key)
                               l acc) ->
              (id, r) ∈ fst acc \/
              ((id ++ hdf5_ext) ∈ l /\
               selected fromisoformat (r_metadata r) paper_id user_id
                 start_time end_time = Ok true /\
               fst (load_four_d_data storage_path fs id key None None)
                 = Ok r)) as Hfold.
  { induction l as [|f l IH]; intros acc Hl Hsame id r; cbn [fold_left];
      [auto|].
    apply Forall_cons in Hl as [Hf Hl].
    destruct (trace_file_cases fs paper_id user_id start_time end_time key
                acc f Hf Hsame) as [Hsame' Hstep].
    intros Hin. apply (IH _ Hl Hsame') in Hin as [Hin|(Hin & H)].
    - destruct Hstep as [E|(r' & E & Hname & Hsel & Hload)];
        rewrite E in Hin; [auto|].
      apply dict_set_inv in Hin as [[= -> ->]|Hin]; [|auto].
      right. rewrite Hname. split; [left|]. auto.
    - right. split; [right; exact Hin|exact H]. }
  apply Forall_forall. intros [id r] Hin.
  apply (Hfold listing ([], fs) Hnames) in Hin as [Hin|H];
    [inversion Hin|exact H|].
  intros q _. reflexivity.
Qed.

(** The metadata of a save passes the filters of its paper, its user and
    a range of time that holds its timestamp. *)
Lemma selected_metadata (data_id user_id paper_id : pystr)
    (timestamp : datetime) (space_coordinate : option SpaceCoordinate)
    (data_hash : pystr) (now start_time end_time : datetime) :
  fromisoformat (isoformat timestamp) = Some timestamp ->
  leb start_time timestamp = true -> leb timestamp end_time = true ->
  selected fromisoformat
    (metadata_of data_id user_id paper_id timestamp space_coordinate
       data_hash now) paper_id user_id start_time end_time = Ok true.
Proof.
  intros Hparse Hs He. unfold selected, metadata_of, subscript.
  change (dict_get (lit "paper_id") _) with (Some (Json.JStr paper_id)).
  change (dict_get (lit "user_id") _) with (Some (Json.JStr user_id)).
  change (dict_get (lit "timestamp") _)
    with (Some (Json.JStr (isoformat timestamp))).
  cbn [mbind outcome_bind bind equals_str]. rewrite !str_eqb_refl.
  cbn [negb]. rewrite Hparse, Hs, He. reflexivity.
Qed.

(** Data that was saved for a paper and a user, an array or a dictionary
    of two arrays or more, is found by a trace for that paper and that user
    over a range of time that holds the timestamp of the data, under its data
    id and as it was saved, whatever else the directory holds. *)
Theorem trace_finds_saved fs data_content data_id user_id paper_id
    timestamp space_coordinate key now data_hash listing
    start_time end_time :
  fromisoformat (isoformat timestamp) = Some timestamp ->
  HashUtils.calculate_data_hash (payload_str data_content) = Ok data_hash ->
  match data_content with
  | Single _ => True
  | Keyed d => NoDup (map fst d) /\ (2 <= length d)%nat
  end ->
  Forall (fun f => endswith hdf5_ext f = true ->
                   replace hdf5_ext [] f ++ hdf5_ext = f) listing ->
  (data_id ++ hdf5_ext) ∈ listing ->
  leb start_time timestamp = true -> leb timestamp end_time = true ->
  let saved :=
    save_four_d_data payload_str storage_path fs data_content data_id
      user_id paper_id timestamp space_coordinate key now in
  dict_get data_id
    (fst (trace_four_d_data_by_time storage_path fromisoformat (snd saved)
            listing paper_id start_time end_time user_id key)) =
  Some {| r_metadata :=
            metadata_of data_id user_id paper_id timestamp space_coordinate
              data_hash now;
          r_data :=
            match data_content with
            | Single a => LArray a
            | Keyed d => LDict (list_to_map d)
            end |}.
Proof.
  intros Hparse Hhash Hshape Hnames Hin Hs He saved.
  set (r := {| r_metadata := _ |}).
  pose proof (load_after_save payload_str storage_path fs data_content
                data_id user_id paper_id timestamp space_coordinate key now
                data_hash Hhash Hshape) as Hload.
  destruct (save_four_d_data_files payload_str storage_path fs data_content
              data_id user_id paper_id timestamp space_coordinate key now
              data_hash Hhash) as (_ & Htoken & _).
  cbv zeta in Hload, Htoken. fold saved r in Hload, Htoken.
  set (fs' := snd saved) in *.
  match type of Htoken with _ = Some (Token _ (Hdf5 ?f)) =>
    set (file := f) in * end.
  assert (replace hdf5_ext [] (data_id ++ hdf5_ext) = data_id) as Hid.
  { rewrite Forall_forall in Hnames.
    specialize (Hnames _ Hin (endswith_app _ _)).
    apply app_inv_tail in Hnames. exact Hnames. }
  unfold trace_four_d_data_by_time.
  set (step := trace_file storage_path fromisoformat paper_id user_id
                 start_time end_time key).
  assert (forall l acc,
            Forall (fun f => endswith hdf5_ext f = true ->
                             replace hdf5_ext [] f ++ hdf5_ext = f) l ->
            same_encrypted (snd acc) fs' ->
            dict_get data_id (fst acc) = Some r \/
            (data_id ++ hdf5_ext) ∈ l ->
            dict_get data_id (fst (fold_left step l acc)) = Some r) as Hfold.
  { induction l as [|f l IH]; intros acc Hl Hsame Hcase; cbn [fold_left].
    { destruct Hcase as [H|H]; [exact H|inversion H]. }
    apply Forall_cons in Hl as [Hf Hl].
    destruct (trace_file_cases fs' paper_id user_id start_time end_time key
                acc f Hf Hsame) as [Hsame' Hstep].
    fold step in Hsame', Hstep.
    apply (IH _ Hl Hsame').
    destruct (decide (f = data_id ++ hdf5_ext)) as [->|Hne].
    - left. clear Hstep. unfold step, trace_file.
      rewrite endswith_app, Hid. cbn [negb].
      rewrite (Hsame _ (encrypted_path_last data_id)), Htoken.
      pose proof (extract_frame (snd acc) (Token key (Hdf5 file)) key)
        as Hframe.
      rewrite (extract_token _ file key _ (lookup_singleton_eq _ _)) in *.
      cbn [fst snd] in *.
      rewrite selected_metadata by assumption.
      match goal with |- context [load_four_d_data _ ?fs1 _ _ _ _] =>
        pose proof (load_same fs1 fs' data_id key) as Hsame_load;
        destruct (load_four_d_data storage_path fs1 data_id key None None)
          as [[r'|e] fs2] end;
        cbn [fst] in *; rewrite Hload in Hsame_load;
        specialize (Hsame_load
                      ltac:(intros q Hq; rewrite Hframe, Hsame by done; done)).
      + injection Hsame_load as ->. apply dict_get_set.
      + discriminate.
    - destruct Hcase as [Hget|Hmem].
      + left. destruct Hstep as [->|(r' & -> & Hname & _ & Hr')];
          [exact Hget|].
        destruct (decide (replace hdf5_ext [] f = data_id)) as [E|E].
        * exfalso. apply Hne. rewrite <- Hname, E. reflexivity.
        * rewrite dict_get_set_ne by congruence. exact Hget.
      + right. inversion Hmem; subst; [done|assumption]. }
  apply Hfold; [exact Hnames| |right; exact Hin].
  intros q _. reflexivity.
Qed.

(** A name that holds the extension twice gives the data of another file:
    the filters are put to the file of that name, and what is returned is the
    load of the name without any extension, which the filters never saw. *)
Theorem trace_returns_other_file (fs : gmap pystr content) (a : pystr)
    (file : h5file) (md : Json.value) (r : result) (paper_id : pystr)
    (start_time end_time : datetime) (user_id : pystr) (key : list N) :
  replace hdf5_ext [] (a ++ hdf5_ext ++ hdf5_ext) = a ->
  fs !! path_join storage_path (a ++ hdf5_ext ++ hdf5_ext)
    = Some (Token key (Hdf5 file)) ->
  attrs file !! lit "metadata" = Some md ->
  selected fromisoformat md paper_id user_id start_time end_time = Ok true ->
  fst (load_four_d_data storage_path fs a key None None) = Ok r ->
  fst (trace_four_d_data_by_time storage_path fromisoformat fs
         [a ++ hdf5_ext ++ hdf5_ext] paper_id start_time end_time user_id
         key) = [(a, r)].
Proof.
  intros Hid Hfile Hmd Hsel Hload.
  unfold trace_four_d_data_by_time. cbn [fold_left]. unfold trace_file.
  rewrite app_assoc, endswith_app, <- app_assoc, Hid. cbn [negb fst snd].
  rewrite Hfile.
  pose proof (extract_frame fs (Token key (Hdf5 file)) key) as Hframe.
  rewrite (extract_token _ file key md Hmd) in *. cbn [fst snd] in *.
  rewrite Hsel.
  match goal with |- context [load_four_d_data _ ?fs1 _ _ _ _] =>
    pose proof (load_same fs1 fs a key Hframe) as Hsame;
    destruct (load_four_d_data storage_path fs1 a key None None)
      as [[r'|e] fs2] end;
    cbn [fst] in *; rewrite Hload in Hsame.
  - injection Hsame as ->. reflexivity.
  - discriminate.
Qed.

End TraceFacts.

(** A save under a key leaves a store of tokens of other keys such a
    store, for any further key. *)
Lemma save_keeps_tokens (payload_str : payload -> pystr)
    (storage_path : pystr) (fs : gmap pystr content) data_content data_id
    user_id paper_id timestamp space_coordinate key now (key' : list N) :
  (forall q c, fs !! q = Some c ->
     exists k plain, c = Token k plain /\ k <> key') ->
  key <> key' ->
  forall q c,
    snd (save_four_d_data payload_str storage_path fs data_content data_id
           user_id paper_id timestamp space_coordinate key now) !! q
      = Some c ->
    exists k plain, c = Token k plain /\ k <> key'.
Proof.
  intros Hfs Hkey q c. unfold save_four_d_data.
  destruct (HashUtils.calculate_data_hash _); cbn [snd]; [|apply Hfs].
  destruct (decide (q = path_join storage_path (data_id ++ lit ".h5")))
    as [->|Hq1]; [rewrite lookup_delete_eq; discriminate|].
  rewrite lookup_delete_ne by done.
  destruct (decide (q = path_join storage_path (data_id ++ hdf5_ext)))
    as [->|Hq2].
  - rewrite lookup_insert_eq. intros [= <-]. unfold encrypt_content. eauto.
  - rewrite !lookup_insert_ne by done. apply Hfs.
Qed.

(** The sample store, traced with another key. *)
Lemma trace_without_the_key_witness :
  trace_four_d_data_by_time (lit "./storage/four_d_data") fromisoformat
    Samples.store_weather [lit "data_P1_0a1b2c3d.h5.enc"] (lit "P1")
    Samples.noon Samples.later (lit "U1") (lit "b3RoZXIta2V5")
  = ([], Samples.store_weather).
Proof.
  apply (trace_without_the_key (lit "./storage/four_d_data") fromisoformat
           Samples.store_weather).
  apply save_keeps_tokens.
  - intros q c H. rewrite lookup_empty in H. discriminate.
  - vm_compute. discriminate.
Defined.

(** The sample store, in a directory that also holds a file of notes. *)
Lemma trace_sound_witness :
  Forall (fun item =>
            (item.1 ++ hdf5_ext)
              ∈ [lit "data_P1_0a1b2c3d.h5.enc"; lit "notes.txt"] /\
            selected fromisoformat (r_metadata item.2) (lit "P1") (lit "U1")
              Samples.noon Samples.later = Ok true /\
            fst (load_four_d_data (lit "./storage/four_d_data")
                   Samples.store_weather item.1 Samples.fernet_key None None)
              = Ok item.2)
    (fst (trace_four_d_data_by_time (lit "./storage/four_d_data")
            fromisoformat Samples.store_weather
            [lit "data_P1_0a1b2c3d.h5.enc"; lit "notes.txt"] (lit "P1")
            Samples.noon Samples.later (lit "U1") Samples.fernet_key)).
Proof.
  apply (trace_sound (lit "./storage/four_d_data") fromisoformat
           Samples.store_weather).
  constructor; [intros _; vm_compute; reflexivity|].
  constructor; [intros H; vm_compute in H; discriminate|constructor].
Defined.

(** The stored arrays of the sample, in a directory that holds a text
    file besides. *)
Lemma trace_finds_saved_witness :
  dict_get (lit "data_P1_0a1b2c3d")
    (fst (trace_four_d_data_by_time (lit "./storage/four_d_data")
            fromisoformat Samples.store_weather
            [lit "notes.txt"; lit "data_P1_0a1b2c3d.h5.enc"] (lit "P1")
            Samples.noon Samples.later (lit "U1") Samples.fernet_key)) =
  Some {| r_metadata :=
            metadata_of (lit "data_P1_0a1b2c3d") (lit "U1") (lit "P1")
              Samples.noon None
              (lit "fd0df2ed568c876bee7af4ab55bba0b3e431c702d09293ba5779aababdafced1")
              Samples.later;
          r_data :=
            LDict
              (<[lit "temperature" :=
                   {| shape := [3]; items := [1; 2; 3]%Z |}]>
                 {[ lit "pressure" :=
                      {| shape := [2]; items := [4; 5]%Z |} ]}) |}.
Proof.
  apply (trace_finds_saved Samples.printed (lit "./storage/four_d_data")
           fromisoformat ∅ Samples.weather (lit "data_P1_0a1b2c3d")
           (lit "U1") (lit "P1") Samples.noon None Samples.fernet_key
           Samples.later).
  - vm_compute. reflexivity.
  - vm_compute. reflexivity.
  - split; [|simpl; lia]. apply (bool_decide_unpack _). vm_compute. exact I.
  - constructor; [intros H; vm_compute in H; discriminate|].
    constructor; [intros _; vm_compute; reflexivity|constructor].
  - right. left.
  - vm_compute. reflexivity.
  - vm_compute. reflexivity.
Defined.

(** The trace of the paper P1 and the user U1 over the one name
    [a.h5.enc.h5.enc] gives the data [a] of the paper Q and the user V. *)
Lemma trace_returns_other_file_witness :
  fst (trace_four_d_data_by_time (lit "./storage/four_d_data")
         fromisoformat Samples.store_two_names [lit "a.h5.enc.h5.enc"]
         (lit "P1") Samples.noon Samples.later (lit "U1")
         Samples.fernet_key) =
  [(lit "a",
    {| r_metadata :=
         metadata_of (lit "a") (lit "V") (lit "Q") Samples.noon None
           (lit "fd0df2ed568c876bee7af4ab55bba0b3e431c702d09293ba5779aababdafced1")
           Samples.later;
       r_data :=
         LDict
           (<[lit "temperature" :=
                {| shape := [3]; items := [1; 2; 3]%Z |}]>
              {[ lit "pressure" :=
                   {| shape := [2]; items := [4; 5]%Z |} ]}) |})].
Proof.
  apply (trace_returns_other_file (lit "./storage/four_d_data")
           fromisoformat Samples.store_two_names (lit "a")
           {| attrs :=
                {[ lit "metadata" :=
                     metadata_of (lit "a.h5.enc") (lit "U1") (lit "P1")
                       Samples.noon None
                       (lit "fd0df2ed568c876bee7af4ab55bba0b3e431c702d09293ba5779aababdafced1")
                       Samples.later ]};
              datasets := datasets_of Samples.weather |}
           (metadata_of (lit "a.h5.enc") (lit "U1") (lit "P1")
              Samples.noon None
              (lit "fd0df2ed568c876bee7af4ab55bba0b3e431c702d09293ba5779aababdafced1")
              Samples.later)).
  - vm_compute. reflexivity.
  - vm_compute. reflexivity.
  - vm_compute. reflexivity.
  - vm_compute. reflexivity.
  - vm_compute. reflexivity.
Defined.

(** ** The verdict of a check, read off the index *)

(** Which of its three recommendations a check gives is decided by the
    index alone: the first when an entry holds the fingerprint, the second
    when none does and an entry holds the data type, the third when no entry
    holds either. The paper and the user play no part. *)
Theorem recommendation_by_index (idx : index) (h t p u : pystr) :
  let v := check_duplication_by_hash idx h t p u in
  let has_hash := exists id e, (id, e) ∈ idx /\ e_hash e = h in
  let has_type := exists id e, (id, e) ∈ idx /\ e_data_type e = t in
  (recommendation v =
     lit "Exact duplicate found. Consider using existing data instead of uploading again."
   <-> has_hash) /\
  (recommendation v =
     lit "Similar data found. Review existing data to avoid redundancy."
   <-> ~ has_hash /\ has_type) /\
  (recommendation v =
     lit "No duplicate or similar data found. Safe to upload."
   <-> ~ has_hash /\ ~ has_type).
Proof.
  cbv zeta.
  pose proof (has_duplicate_iff idx h t p u) as Hd.
  pose proof (has_similar_iff idx h t p u) as Hs.
  pose proof (duplicate_is_similar idx h t p u) as Hds.
  unfold check_duplication_by_hash in *.
  cbn [recommendation has_duplicate has_similar] in *.
  set (d := existsb _ _) in *. set (s := (0 <? _)%nat) in *.
  unfold _generate_recommendation.
  assert (d = false -> ~ (exists id e, (id, e) ∈ idx /\ e_hash e = h))
    as Hnd.
  { intros E H. apply Hd in H. congruence. }
  assert (s = false -> ~ (exists id e, (id, e) ∈ idx /\ e_data_type e = t))
    as Hns.
  { intros E (id & e & Hin & Ht).
    assert (s = true) by (apply Hs; eauto). congruence. }
  assert (d = false -> s = true ->
          exists id e, (id, e) ∈ idx /\ e_data_type e = t) as Hst.
  { intros E1 E2. destruct (proj1 Hs E2) as (id & e & Hin & [Hh|Ht]);
      [|eauto].
    exfalso. apply (Hnd E1). eauto. }
  destruct d, s; (split; [|split]); split; intros H;
    try (vm_compute in H; discriminate); try reflexivity.
  all: try (apply Hd; reflexivity).
  all: try (exfalso; apply (proj1 H), Hd; reflexivity).
  all: try (specialize (Hds eq_refl); discriminate).
  all: try (split; [apply Hnd; reflexivity|]).
  all: try (apply Hst; reflexivity).
  all: try (apply Hns; reflexivity).
  all: try (exfalso; apply (Hnd eq_refl); exact H).
  all: try (exfalso;
            first [ apply (Hns eq_refl); exact (proj2 H)
                  | apply (proj2 H); apply Hst; reflexivity ]).
Qed.

(** ** A save and a load, and the store between them *)

(** What was stored comes back from a load with the same key and no
    filter: the metadata of the save, and the payload when it is an array or
    a dictionary of two arrays or more. After the load no temporary file is
    in the store, also when one of that name was there before, and every
    other path holds what it held after the save. *)
Theorem save_then_load (payload_str : payload -> pystr)
    (storage_path : pystr) fs data_content data_id user_id paper_id
    timestamp space_coordinate key now data_hash :
  HashUtils.calculate_data_hash (payload_str data_content) = Ok data_hash ->
  match data_content with
  | Single _ => True
  | Keyed d => NoDup (map fst d) /\ (2 <= length d)%nat
  end ->
  let saved :=
    save_four_d_data payload_str storage_path fs data_content data_id
      user_id paper_id timestamp space_coordinate key now in
  let out :=
    load_four_d_data storage_path (snd saved) data_id key None None in
  let temp_path := path_join storage_path (data_id ++ lit "_temp.h5") in
  fst out =
    Ok {| r_metadata :=
            metadata_of data_id user_id paper_id timestamp space_coordinate
              data_hash now;
          r_data :=
            match data_content with
            | Single a => LArray a
            | Keyed d => LDict (list_to_map d)
            end |} /\
  snd out !! temp_path = None /\
  (forall q, q <> temp_path -> snd out !! q = snd saved !! q).
Proof.
  intros Hhash Hshape saved out temp_path.
  pose proof (load_after_save payload_str storage_path fs data_content
                data_id user_id paper_id timestamp space_coordinate key now
                data_hash Hhash Hshape) as Hload.
  cbv zeta in Hload. fold saved out in Hload. split; [exact Hload|].
  subst out. unfold load_four_d_data in *.
  destruct (snd saved !! _) as [c|]; [|discriminate].
  destruct (decrypt_content c key) as [d|e]; [|discriminate].
  destruct (read_temp d None None) as [r|e]; [|discriminate].
  cbn [snd]. fold temp_path. split.
  - apply lookup_delete_eq.
  - intros q Hq. rewrite lookup_delete_ne, lookup_insert_ne by done. done.
Qed.

(** The two arrays of the sample, stored and loaded at once. *)
Lemma save_then_load_witness :
  let saved :=
    save_four_d_data Samples.printed (lit "./storage/four_d_data") ∅
      Samples.weather (lit "data_P1_0a1b2c3d") (lit "U1") (lit "P1")
      Samples.noon None Samples.fernet_key Samples.later in
  let out :=
    load_four_d_data (lit "./storage/four_d_data") (snd saved)
      (lit "data_P1_0a1b2c3d") Samples.fernet_key None None in
  let temp_path := lit "./storage/four_d_data/data_P1_0a1b2c3d_temp.h5" in
  fst out =
    Ok {| r_metadata :=
            metadata_of (lit "data_P1_0a1b2c3d") (lit "U1") (lit "P1")
              Samples.noon None
              (lit "fd0df2ed568c876bee7af4ab55bba0b3e431c702d09293ba5779aababdafced1")
              Samples.later;
          r_data :=
            LDict
              (<[lit "temperature" :=
                   {| shape := [3]; items := [1; 2; 3]%Z |}]>
                 {[ lit "pressure" :=
                      {| shape := [2]; items := [4; 5]%Z |} ]})
       |} /\
  snd out !! temp_path = None /\
  (forall q, q <> temp_path -> snd out !! q = snd saved !! q).
Proof.
  apply (save_then_load Samples.printed (lit "./storage/four_d_data") ∅
           Samples.weather (lit "data_P1_0a1b2c3d") (lit "U1") (lit "P1")
           Samples.noon None Samples.fernet_key Samples.later
           (lit "fd0df2ed568c876bee7af4ab55bba0b3e431c702d09293ba5779aababdafced1")).
  - vm_compute. reflexivity.
  - split; [|simpl; lia].
    apply (bool_decide_unpack _). vm_compute. exact I.
Defined.

(** ** Files encrypted and decrypted in place *)

Import DataEncryptionService.







(** ** The file types of an ingestion *)

Import DataIngestion.

Example splitext_samples :
  map splitext
    [lit "a/b.tar.gz"; lit ".bashrc"; lit "a.b/c"; lit "dir/..x"; lit "x.";
     lit "a/.b.c"; lit "/.h5"] =
  [(lit "a/b.tar", lit ".gz"); (lit ".bashrc", []); (lit "a.b/c", []);
   (lit "dir/..x", []); (lit "x", lit "."); (lit "a/.b", lit ".c");
   (lit "/.h5", [])].
Proof. vm_compute. reflexivity. Qed.

Section IngestionFacts.
  Variable lower_other : pystr -> nat -> pystr.
  Variables read_csv read_excel np_load _load_hdf5 : pystr -> outcome pyval.

Ltac by_extension ext L :=
  destruct (decide (ext = L)) as [->|?];
  [ vm_compute; tauto
  | rewrite ?(proj2 (str_eqb_neq ext L)) by assumption;
    rewrite ?(proj2 (str_eqb_neq L ext)) by congruence ].

(** The type a file is given and the way it is read go by the same
    extension, and they disagree on two of them: a file typed [tabular],
    [numpy_array] or [hdf5] is handed to the reader of its kind, whose outcome
    is the outcome of [_load_data]; a file typed [json] or [text], like one of
    unknown type, is never read: [_load_data] raises [ValueError] for it. *)
Theorem load_data_by_type (data_path : pystr) :
  let t := _get_data_type lower_other data_path in
  let r :=
    _load_data lower_other read_csv read_excel np_load _load_hdf5 data_path in
  (t = lit "tabular" /\ (r = read_csv data_path \/ r = read_excel data_path))
  \/ (t = lit "numpy_array" /\ r = np_load data_path)
  \/ (t = lit "hdf5" /\ r = _load_hdf5 data_path)
  \/ ((t = lit "json" \/ t = lit "text" \/ t = lit "unknown") /\
      r = Raise (Exn (lit "ValueError")
                   (lit "Unsupported file format: "
                      ++ ext_of lower_other data_path))).
Proof.
  cbv zeta. unfold _get_data_type, _load_data, ext_map.
  generalize (ext_of lower_other data_path). intros ext.
  cbn [existsb dict_get].
  by_extension ext (lit ".csv"). by_extension ext (lit ".xlsx").
  by_extension ext (lit ".xls"). by_extension ext (lit ".npy").
  by_extension ext (lit ".npz"). by_extension ext (lit ".h5").
  by_extension ext (lit ".json"). by_extension ext (lit ".txt").
  cbn [orb default]. tauto.
Qed.

End IngestionFacts.

(** ** The index, written and read *)

Import Json.


Lemma skip_whitespace_head (c : N) (r : pystr) :
  is_whitespace c = false -> skip_whitespace (c :: r) = c :: r.
Proof. intros H. cbn [skip_whitespace]. rewrite H. reflexivity. Qed.

Lemma skip_whitespace_spaces (n : nat) (r : pystr) :
  skip_whitespace (concat (repeat (lit "  ") n) ++ r) = skip_whitespace r.
Proof. induction n as [|n IH]; [reflexivity|]. exact IH. Qed.

Lemma skip_whitespace_indent (depth : nat) (c : N) (r : pystr) :
  is_whitespace c = false ->
  skip_whitespace (indent depth ++ c :: r) = c :: r.
Proof.
  intros H. unfold indent. cbn [app skip_whitespace]. 
  change (is_whitespace ch_newline) with true. cbv iota.
  rewrite skip_whitespace_spaces. apply skip_whitespace_head, H.
Qed.

(** The four digits of an escape are read as the number they were written
    for. *)
Lemma hex_value_hex_digit (d : N) :
  d < 16 -> hex_value (hex_digit d) = Some d.
Proof.
  intros Hd.
  assert (In d (map N.of_nat (seq 0 16))) as Hin.
  { apply in_map_iff. exists (N.to_nat d). split; [lia|].
    apply in_seq. lia. }
  cbn in Hin.
  repeat (destruct Hin as [<-|Hin]; [reflexivity|]). contradiction.
Qed.

Lemma hex4_hex_fixed (c : N) :
  c < 0x10000 ->
  exists h1 h2 h3 h4,
    hex_fixed 4 c = [h1; h2; h3; h4] /\ hex4 h1 h2 h3 h4 = Some c.
Proof.
  intros Hc. do 4 eexists. split; [reflexivity|].
  unfold hex4.
  change 15 with (N.ones 4). rewrite !N.land_ones, !N.shiftr_div_pow2.
  change (2 ^ 4) with 16.
  rewrite !hex_value_hex_digit by (apply N.mod_lt; discriminate).
  f_equal.
  pose proof (N.div_mod c 16). pose proof (N.div_mod (c / 16) 16).
  pose proof (N.div_mod (c / 16 / 16) 16).
  pose proof (N.mod_lt c 16). pose proof (N.mod_lt (c / 16) 16).
  pose proof (N.mod_lt (c / 16 / 16) 16).
  assert (c / 16 / 16 / 16 < 16).
  { apply N.Div0.div_lt_upper_bound. apply N.Div0.div_lt_upper_bound.
    apply N.Div0.div_lt_upper_bound. exact Hc. }
  rewrite (N.mod_small (c / 16 / 16 / 16) 16) by assumption.
  lia.
Qed.

Lemma lor_shifted (k a : N) :
  a < 2 ^ 10 -> N.lor (k * 2 ^ 10) a = k * 2 ^ 10 + a.
Proof.
  intros Ha.
  assert (N.land (k * 2 ^ 10) a = 0) as Hland.
  { apply N.bits_inj. intros i. rewrite N.land_spec, N.bits_0.
    destruct (N.lt_ge_cases i 10) as [Hi|Hi].
    - rewrite N.mul_pow2_bits_low by exact Hi. reflexivity.
    - replace (N.testbit a i) with false; [apply andb_false_r|].
      symmetry. destruct (N.eq_dec a 0) as [->|Hne]; [apply N.bits_0|].
      apply N.bits_above_log2.
      apply N.lt_le_trans with 10; [|exact Hi].
      apply N.log2_lt_pow2; lia. }
  rewrite <- N.lxor_lor by exact Hland.
  symmetry. apply N.add_nocarry_lxor, Hland.
Qed.

Lemma land_shifted (k a : N) :
  a < 2 ^ 10 -> N.land (k * 2 ^ 10 + a) 0x3FF = a.
Proof.
  intros Ha. change 0x3FF with (N.ones 10). rewrite N.land_ones.
  rewrite N.add_comm, N.Div0.mod_add. apply N.mod_small, Ha.
Qed.

(** The two escapes of a character above the basic plane: a high and a low
    surrogate, which are joined to the character. *)
Lemma surrogate_pair (c : N) :
  0x10000 <= c -> c <= 0x10FFFF ->
  let n := c - 0x10000 in
  let high := N.lor 0xD800 (N.land (N.shiftr n 10) 0x3FF) in
  let low := N.lor 0xDC00 (N.land n 0x3FF) in
  high < 0x10000 /\ low < 0x10000 /\
  is_high_surrogate high = true /\ is_low_surrogate low = true /\
  join_surrogates high low = c.
Proof.
  intros Hlo Hhi n high low.
  assert (n < 0x100000) as Hn by (unfold n; lia).
  assert (N.land (N.shiftr n 10) 0x3FF = n / 2 ^ 10) as Ea.
  { rewrite N.shiftr_div_pow2. change 0x3FF with (N.ones 10).
    rewrite N.land_ones. apply N.mod_small.
    apply N.Div0.div_lt_upper_bound. exact Hn. }
  assert (N.land n 0x3FF = n mod 2 ^ 10) as Eb.
  { change 0x3FF with (N.ones 10). apply N.land_ones. }
  assert (n / 2 ^ 10 < 2 ^ 10) as Ha
    by (apply N.Div0.div_lt_upper_bound; exact Hn).
  assert (n mod 2 ^ 10 < 2 ^ 10) as Hb by (apply N.mod_lt; discriminate).
  assert (high = 54 * 2 ^ 10 + n / 2 ^ 10) as Ehigh.
  { unfold high. rewrite Ea. apply (lor_shifted 54), Ha. }
  assert (low = 55 * 2 ^ 10 + n mod 2 ^ 10) as Elow.
  { unfold low. rewrite Eb. apply (lor_shifted 55), Hb. }
  change (2 ^ 10) with 1024 in *.
  split; [lia|]. split; [lia|]. split; [|split].
  - unfold is_high_surrogate. apply andb_true_iff.
    split; apply N.leb_le; lia.
  - unfold is_low_surrogate. apply andb_true_iff.
    split; apply N.leb_le; lia.
  - unfold join_surrogates. rewrite Ehigh, Elow.
    change 1024 with (2 ^ 10) in *.
    rewrite !land_shifted by assumption.
    rewrite N.shiftl_mul_pow2, lor_shifted by assumption.
    pose proof (N.div_mod n (2 ^ 10)). unfold n in *.
    change (2 ^ 10) with 1024 in *. lia.
Qed.

(** One character of a text, as [json.dump] writes it and as the scanner
    reads it. *)
Lemma scanstring_escape_char (c : N) (rest : pystr) :
  c <= 0x10FFFF -> is_surrogate c = false -> rest <> [] ->
  scanstring (escape_char_ascii c ++ rest) = cons_char c (scanstring rest).
Proof.
  intros Hc Hs Hrest. destruct rest as [|x rest]; [contradiction|].
  unfold escape_char_ascii, short_escape.
  destruct (c =? 34) eqn:E1; [apply N.eqb_eq in E1; subst; reflexivity|].
  destruct (c =? 92) eqn:E2; [apply N.eqb_eq in E2; subst; reflexivity|].
  destruct (c =? 10) eqn:E3; [apply N.eqb_eq in E3; subst; reflexivity|].
  destruct (c =? 13) eqn:E4; [apply N.eqb_eq in E4; subst; reflexivity|].
  destruct (c =? 9) eqn:E5; [apply N.eqb_eq in E5; subst; reflexivity|].
  destruct (c =? 8) eqn:E6; [apply N.eqb_eq in E6; subst; reflexivity|].
  destruct (c =? 12) eqn:E7; [apply N.eqb_eq in E7; subst; reflexivity|].
  destruct ((32 <=? c) && (c <=? 126)) eqn:Eprint.
  - apply andb_true_iff in Eprint as [H32 _]. apply N.leb_le in H32.
    cbn [app scanstring]. rewrite E1, E2.
    replace (c <=? 31) with false by (symmetry; apply N.leb_gt; lia).
    reflexivity.
  - assert (is_high_surrogate c = false) as Hhigh.
    { unfold is_surrogate in Hs. unfold is_high_surrogate.
      apply andb_false_iff in Hs as [H|H]; apply andb_false_iff;
        [left; exact H|right].
      apply N.leb_gt in H. apply N.leb_gt. lia. }
    destruct (c <? 0x10000) eqn:Ebmp.
    + apply N.ltb_lt in Ebmp.
      destruct (hex4_hex_fixed c Ebmp) as (h1 & h2 & h3 & h4 & Eh & Ev).
      unfold u_escape. rewrite Eh.
      change (scanstring ((ch_backslash :: lit "u" ++ [h1; h2; h3; h4])
                            ++ x :: rest))
        with (match hex4 h1 h2 h3 h4 with
              | None => None
              | Some u =>
                  if is_high_surrogate u
                  then after_high_surrogate scanstring u (x :: rest)
                  else cons_char u (scanstring (x :: rest))
              end).
      rewrite Ev, Hhigh. reflexivity.
    + apply N.ltb_ge in Ebmp.
      destruct (surrogate_pair c Ebmp Hc) as (Hh & Hl & Hhs & Hls & Hj).
      cbv zeta in *.
      set (high := N.lor 0xD800 _) in *. set (low := N.lor 0xDC00 _) in *.
      destruct (hex4_hex_fixed high Hh) as (h1 & h2 & h3 & h4 & Eh & Ev).
      destruct (hex4_hex_fixed low Hl) as (g1 & g2 & g3 & g4 & Eg & Ew).
      unfold u_escape. rewrite Eh, Eg.
      change (scanstring
                (((ch_backslash :: lit "u" ++ [h1; h2; h3; h4])
                    ++ ch_backslash :: lit "u" ++ [g1; g2; g3; g4])
                   ++ x :: rest))
        with (match hex4 h1 h2 h3 h4 with
              | None => None
              | Some u =>
                  if is_high_surrogate u
                  then
                    match hex4 g1 g2 g3 g4 with
                    | None => None
                    | Some u2 =>
                        if is_low_surrogate u2
                        then cons_char (join_surrogates u u2)
                               (scanstring (x :: rest))
                        else cons_char u
                               (scanstring
                                  (ch_backslash :: lit "u"
                                     ++ [g1; g2; g3; g4] ++ x :: rest))
                    end
                  else cons_char u
                         (scanstring
                            (ch_backslash :: lit "u"
                               ++ [g1; g2; g3; g4] ++ x :: rest))
              end).
      rewrite Ev, Hhs, Ew, Hls, Hj. reflexivity.
Qed.

Lemma scanstring_escapes (s r : pystr) :
  scalar_text s ->
  scanstring (concat (map escape_char_ascii s) ++ ch_quote :: r) = Some (s, r).
Proof.
  induction 1 as [|c s [Hc Hs] _ IH]; [reflexivity|].
  cbn [map concat]. rewrite <- app_assoc.
  rewrite scanstring_escape_char; [|assumption|assumption|].
  - rewrite IH. reflexivity.
  - destruct (concat _); discriminate.
Qed.

(** A text between quotes is read as a string, at any depth. *)
Lemma scan_once_quoted (m d : nat) (s rest : pystr) :
  scalar_text s ->
  scan_once m d (quoted escape_char_ascii s ++ rest) = Some (JStr s, rest).
Proof.
  intros Hs. unfold quoted. rewrite <- !app_assoc.
  change ([ch_quote] ++ concat (map escape_char_ascii s) ++ [ch_quote] ++ rest)
    with (ch_quote :: (concat (map escape_char_ascii s) ++ ch_quote :: rest)).
  destruct d; cbn [scan_once]; change (ch_quote =? 34) with true; cbv iota;
    rewrite scanstring_escapes by exact Hs; reflexivity.
Qed.

Lemma dict_set_fresh {V} (k : pystr) (v : V) (d : list (pystr * V)) :
  k ∉ map fst d -> dict_set k v d = d ++ [(k, v)].
Proof.
  induction d as [|[k0 v0] d IH]; intros Hk; [reflexivity|].
  cbn [dict_set]. cbn [map fst] in Hk.
  apply not_elem_of_cons in Hk as [Hne Hk].
  rewrite (proj2 (str_eqb_neq k0 k)) by congruence.
  rewrite IH by exact Hk. reflexivity.
Qed.

Section Members.
  Context {A : Type}.
  Variable scan : pystr -> option (value * pystr).
  Variable good : A -> Prop.
  Variable dv : A -> pystr.
  Variable pv : A -> value.
  Hypothesis scan_dv :
    forall x rest, good x -> scan (dv x ++ rest) = Some (pv x, rest).
  Hypothesis dv_head :
    forall x rest, skip_whitespace (dv x ++ rest) = dv x ++ rest.

(** The members of an object as [json.dump] writes them with an indent,
    read from the first key on: they are added to those read before, in
    their order. *)
Lemma parse_members_dump (k : nat) (items : list (pystr * A)) :
  forall (acc : list (pystr * value)) (fuel : nat) (rest : pystr),
  items <> [] ->
  Forall (fun kv => scalar_text kv.1 /\ good kv.2) items ->
  NoDup (map fst acc ++ map fst items) ->
  (length items <= fuel)%nat ->
  parse_members scan fuel acc
    (join (lit "," ++ indent (S k))
       (map (fun kv => quoted escape_char_ascii kv.1 ++ lit ": " ++ dv kv.2)
          items)
       ++ indent k ++ lit "}" ++ rest)
  = Some (JObj (acc ++ map (fun kv => (kv.1, pv kv.2)) items), rest).
Proof.
  induction items as [|[key x] items IH]; intros acc fuel rest Hne Hgood
    Hnodup Hfuel; [contradiction|].
  apply Forall_cons in Hgood as [[Hkey Hx] Hgood]. cbn [fst snd] in *.
  destruct fuel as [|fuel]; [cbn in Hfuel; lia|].
  assert (key ∉ map fst acc) as Hfresh.
  { cbn [map fst] in Hnodup. apply NoDup_app in Hnodup as (_ & Hdisj & _).
    intros Hin. apply (Hdisj _ Hin). left. }
  assert (NoDup (map fst (acc ++ [(key, pv x)]) ++ map fst items)) as Hnodup'.
  { rewrite map_app, <- app_assoc. exact Hnodup. }
  assert (forall tail,
            parse_members scan (S fuel) acc
              ((quoted escape_char_ascii key ++ lit ": " ++ dv x) ++ tail)
            = match skip_whitespace tail with
              | c :: s5 =>
                  if c =? 125
                  then Some (JObj (acc ++ [(key, pv x)]), s5)
                  else if c =? 44
                  then parse_members scan fuel (acc ++ [(key, pv x)])
                         (skip_whitespace s5)
                  else None
              | [] => None
              end) as Hstep.
  { intros tail. unfold quoted. rewrite <- !app_assoc.
    change ([ch_quote] ++ concat (map escape_char_ascii key) ++ [ch_quote]
              ++ lit ": " ++ dv x ++ tail)
      with (ch_quote
              :: (concat (map escape_char_ascii key)
                    ++ ch_quote :: lit ": " ++ dv x ++ tail)).
    cbn [parse_members]. change (ch_quote =? 34) with true. cbv iota.
    rewrite scanstring_escapes by exact Hkey.
    change (skip_whitespace (lit ": " ++ dv x ++ tail))
      with (58 :: 32 :: dv x ++ tail).
    change (58 =? 58) with true. cbv iota.
    change (skip_whitespace (32 :: dv x ++ tail))
      with (skip_whitespace (dv x ++ tail)).
    rewrite dv_head, scan_dv by exact Hx.
    rewrite dict_set_fresh by exact Hfresh. reflexivity. }
  destruct items as [|kv items].
  - cbn [map join]. rewrite Hstep.
    change (lit "}" ++ rest) with (125 :: rest).
    rewrite skip_whitespace_indent by reflexivity.
    cbv beta iota. change (125 =? 125) with true. cbv iota. reflexivity.
  - change (join (lit "," ++ indent (S k))
              (map (fun kv => quoted escape_char_ascii kv.1 ++ lit ": "
                                ++ dv kv.2) ((key, x) :: kv :: items)))
      with ((quoted escape_char_ascii key ++ lit ": " ++ dv x)
              ++ (lit "," ++ indent (S k))
              ++ join (lit "," ++ indent (S k))
                   (map (fun kv => quoted escape_char_ascii kv.1 ++ lit ": "
                                     ++ dv kv.2) (kv :: items))).
    rewrite <- (app_assoc (quoted escape_char_ascii key ++ lit ": " ++ dv x)).
    rewrite Hstep. rewrite <- !app_assoc.
    set (members := join _ _).
    change (skip_whitespace (lit "," ++ indent (S k) ++ members ++ indent k
                               ++ lit "}" ++ rest))
      with (44 :: (indent (S k) ++ members ++ indent k ++ lit "}" ++ rest)).
    cbv beta iota.
    change (44 =? 125) with false. change (44 =? 44) with true. cbv iota.
    assert (exists tail, members = ch_quote :: tail) as [tail Etail].
    { unfold members. destruct kv as [key' x'], items; cbn [map join];
        unfold quoted; eexists; reflexivity. }
    rewrite Etail at 1. cbn [app].
    rewrite skip_whitespace_indent by reflexivity.
    change (ch_quote :: tail ++ indent k ++ lit "}" ++ rest)
      with ((ch_quote :: tail) ++ indent k ++ lit "}" ++ rest).
    rewrite <- Etail. unfold members.
    rewrite IH; [|discriminate|exact Hgood|exact Hnodup'|cbn in *; lia].
    rewrite <- app_assoc. reflexivity.
Qed.

End Members.


Lemma scalar_text_lit (s : string) : scalar_text (lit s).
Proof.
  unfold lit, scalar_text. apply Forall_map, Forall_forall. intros a _.
  cbn. pose proof (N_ascii_bounded a). split; [lia|].
  apply low_not_surrogate. lia.
Qed.

Lemma scan_once_entry (m d : nat) (e : entry) (rest : pystr) :
  scalar_entry e ->
  scan_once m (S d) (dumps_str_dict_indent 1 (entry_fields e) ++ rest)
  = Some (entry_value e, rest).
Proof.
  intros He. unfold dumps_str_dict_indent.
  change (entry_fields e) with
    ([(lit "hash", e_hash e); (lit "data_type", e_data_type e);
      (lit "paper_id", e_paper_id e); (lit "user_id", e_user_id e);
      (lit "timestamp", e_timestamp e)]) at 1.
  cbv iota. rewrite <- !app_assoc.
  set (members := join _ _).
  change (scan_once m (S d)
            (lit "{" ++ indent 2 ++ members ++ indent 1 ++ lit "}" ++ rest))
    with (match skip_whitespace
                  (indent 2 ++ members ++ indent 1 ++ lit "}" ++ rest) with
          | c' :: s2 =>
              if c' =? 125 then Some (JObj [], s2)
              else parse_members (scan_once m d)
                     (length (indent 2 ++ members ++ indent 1 ++ lit "}"
                                ++ rest)) []
                     (skip_whitespace
                        (indent 2 ++ members ++ indent 1 ++ lit "}" ++ rest))
          | [] => None
          end).
  assert (exists tail, members = ch_quote :: tail) as [tail Etail].
  { unfold members. cbn [entry_fields map join]. unfold quoted.
    eexists. reflexivity. }
  assert (skip_whitespace (indent 2 ++ members ++ indent 1 ++ lit "}" ++ rest)
          = members ++ indent 1 ++ lit "}" ++ rest) as ->.
  { rewrite Etail. cbn [app]. apply skip_whitespace_indent. reflexivity. }
  rewrite Etail at 1. cbn [app]. change (ch_quote =? 125) with false.
  cbv iota. unfold members.
  rewrite (parse_members_dump (scan_once m d) scalar_text
             (quoted escape_char_ascii) JStr).
  - reflexivity.
  - intros x r Hx. apply scan_once_quoted, Hx.
  - intros x r. unfold quoted. rewrite <- !app_assoc. reflexivity.
  - discriminate.
  - apply Forall_forall. intros kv Hin. split.
    + cbn [entry_fields] in Hin.
      repeat (apply elem_of_cons in Hin as [->|Hin];
              [apply scalar_text_lit|]).
      inversion Hin.
    + unfold scalar_entry in He. rewrite Forall_forall in He. auto.
  - cbn [entry_fields map fst app]. apply (bool_decide_unpack _).
    vm_compute. exact I.
  - rewrite !length_app. cbn. lia.
Qed.

Lemma entry_of_entry_value (e : entry) :
  entry_of_value (entry_value e) = Some e.
Proof. destruct e. reflexivity. Qed.

Lemma index_of_entry_values (idx : index) :
  index_of_value (JObj (map (fun kv => (kv.1, entry_value kv.2)) idx))
  = Some idx.
Proof.
  unfold index_of_value. induction idx as [|[k e] idx IH]; [reflexivity|].
  cbn [map mapM fst snd]. rewrite entry_of_entry_value.
  cbn [mbind option_bind]. rewrite IH. reflexivity.
Qed.

Lemma join_length (sep : pystr) (parts : list pystr) :
  Forall (fun p => p <> []) parts ->
  (length parts <= length (join sep parts))%nat.
Proof.
  induction 1 as [|p parts Hp _ IH]; [reflexivity|].
  destruct parts as [|q parts].
  - cbn. destruct p; [contradiction|cbn; lia].
  - change (join sep (p :: q :: parts))
      with (p ++ sep ++ join sep (q :: parts)).
    rewrite !length_app. destruct p; [contradiction|].
    cbn [length] in *. lia.
Qed.

(** The text that [json.dump] writes for an index is read as the object of
    its entries. *)
Lemma loads_dump_index (m d : nat) (idx : index) :
  NoDup (map fst idx) ->
  Forall (fun kv => scalar_text kv.1 /\ scalar_entry kv.2) idx ->
  loads m (S (S d)) (dump_index idx)
  = Some (JObj (map (fun kv => (kv.1, entry_value kv.2)) idx)).
Proof.
  intros Hnodup Hgood. destruct idx as [|kv0 idx0]; [reflexivity|].
  set (idx := kv0 :: idx0) in *.
  unfold dump_index. fold idx.
  change (match idx with [] => lit "{}" | _ :: _ => ?t end) with t.
  set (members := join _ _).
  assert (exists tail, members = ch_quote :: tail) as [tail Etail].
  { unfold members, idx. destruct kv0, idx0; cbn [map join]; unfold quoted;
      eexists; reflexivity. }
  unfold loads.
  change (skip_whitespace (lit "{" ++ indent 1 ++ members ++ indent 0
                             ++ lit "}"))
    with (123 :: (indent 1 ++ members ++ indent 0 ++ lit "}")).
  change (scan_once m (S (S d))
            (123 :: (indent 1 ++ members ++ indent 0 ++ lit "}")))
    with (match skip_whitespace
                  (indent 1 ++ members ++ indent 0 ++ lit "}") with
          | c' :: s2 =>
              if c' =? 125 then Some (JObj [], s2)
              else parse_members (scan_once m (S d))
                     (length (indent 1 ++ members ++ indent 0 ++ lit "}")) []
                     (skip_whitespace
                        (indent 1 ++ members ++ indent 0 ++ lit "}"))
          | [] => None
          end).
  assert (skip_whitespace (indent 1 ++ members ++ indent 0 ++ lit "}")
          = members ++ indent 0 ++ lit "}" ++ []) as ->.
  { rewrite Etail. cbn [app]. rewrite app_nil_r.
    apply skip_whitespace_indent. reflexivity. }
  rewrite Etail at 1. cbn [app]. change (ch_quote =? 125) with false.
  cbv iota. unfold members.
  rewrite (parse_members_dump (scan_once m (S d)) scalar_entry
             (fun e => dumps_str_dict_indent 1 (entry_fields e))
             entry_value).
  - reflexivity.
  - intros e r He. apply scan_once_entry, He.
  - intros e r. reflexivity.
  - discriminate.
  - exact Hgood.
  - exact Hnodup.
  - rewrite !length_app.
    pose proof (join_length (lit "," ++ indent 1)
                  (map (fun kv => quoted escape_char_ascii kv.1 ++ lit ": "
                                    ++ dumps_str_dict_indent 1
                                         (entry_fields kv.2)) idx)) as Hlen.
    rewrite length_map in Hlen. fold members in Hlen.
    assert (length idx <= length members)%nat;
      [|unfold members in *; lia].
    apply Hlen, Forall_map, Forall_forall. intros kv _. discriminate.
Qed.



(** The reader on a few texts, with the results of [json.loads]. *)
Example loads_samples :
  map (loads 4300 100)
    [lit "[1, 2.5, -0.0, 1e5, null, true]"; lit " 12 "; lit "01"; lit "1.";
     lit "[1,]"; lit "{ }"; lit "[[[]]]"; lit "-Infinity"; lit "nul"; [];
     lit "[1 2]"; lit "0.1"; lit "1e400"; lit "1e"; lit "-";
     ch_quote :: lit "a\u00e9\n" ++ [ch_quote];
     ch_quote :: lit "\ud83d\ude00" ++ [ch_quote];
     ch_quote :: lit "\ud83dx" ++ [ch_quote];
     ch_quote :: lit "\u12" ++ [ch_quote];
     ch_quote :: lit "a"] =
  [Some (JArr [JInt 1; JFloat 2.5; JFloat (-0); JFloat 100000; JNull;
               JBool true]);
   Some (JInt 12); None; None; None; Some (JObj []);
   Some (JArr [JArr [JArr []]]); Some (JFloat neg_infinity); None; None;
   None; Some (JFloat 0x1.999999999999ap-4); Some (JFloat infinity); None;
   None;
   Some (JStr [97; 233; 10]); Some (JStr [0x1F600]);
   Some (JStr [0xD83D; 120]); None; None].
Proof. vm_compute. reflexivity. Qed.

(** Texts as [json.dumps] writes them, read: a high surrogate that a low
    one follows comes back as one character, and nothing else changes. *)
Example loads_of_written_texts :
  let texts :=
    [lit "plain"; [0xD83D; 0xDE00]; [0xD83D]; [0xDE00; 0xD83D];
     [0xD83D; 0xD83D; 0xDE00; 0xDE00]; [0x1F600; 34; 92; 10; 0xE9; 0x7F];
     [0xD83D; 110]; [0xD83D; 92]] in
  map (fun s => loads 4300 10 (quoted escape_char_ascii s)) texts =
  map (fun s => Some (JStr (combine_surrogates s))) texts.
Proof. vm_compute. reflexivity. Qed.

(** *** The fuel of the reader *)

Lemma skip_whitespace_length (s : pystr) :
  (length (skip_whitespace s) <= length s)%nat.
Proof.
  induction s as [|c s IH]; [reflexivity|].
  cbn [skip_whitespace]. destruct (is_whitespace c); cbn [length]; lia.
Qed.

Lemma scanstring_shorter (s t rest : pystr) :
  scanstring s = Some (t, rest) -> (length rest < length s)%nat.
Proof.
  remember (length s) as n eqn:Hn. revert s t rest Hn.
  induction n as [n IH] using lt_wf_ind. intros s t rest -> Hs.
  assert (forall s' c t rest,
            (length s' < length s)%nat ->
            cons_char c (scanstring s') = Some (t, rest) ->
            (length rest < length s)%nat) as Hrec.
  { intros s' c t' rest' Hlen H.
    destruct (scanstring s') as [[t0 r0]|] eqn:E; [|discriminate].
    injection H as _ <-.
    pose proof (IH _ Hlen s' t0 r0 eq_refl E). lia. }
  destruct s as [|c s1]; [discriminate|]. cbn [scanstring] in Hs.
  destruct (c =? 34).
  { injection Hs as _ <-. cbn. lia. }
  destruct (c =? 92).
  - destruct s1 as [|e s2]; [discriminate|].
    destruct (e =? 117).
    + destruct s2 as [|h1 [|h2 [|h3 [|h4 [|x s3]]]]]; try discriminate.
      destruct (hex4 h1 h2 h3 h4) as [u|]; [|discriminate].
      destruct (is_high_surrogate u).
      * unfold after_high_surrogate in Hs.
        destruct s3 as [|v [|g1 [|g2 [|g3 [|g4 [|y s4]]]]]];
          try (apply Hrec in Hs; [exact Hs|cbn; lia]).
        destruct ((x =? 92) && (v =? 117));
          [|apply Hrec in Hs; [exact Hs|cbn; lia]].
        destruct (hex4 g1 g2 g3 g4) as [u2|]; [|discriminate].
        destruct (is_low_surrogate u2);
          apply Hrec in Hs; try exact Hs; cbn; lia.
      * apply Hrec in Hs; [exact Hs|cbn; lia].
    + destruct (unescape e); [|discriminate].
      apply Hrec in Hs; [exact Hs|cbn; lia].
  - destruct (c <=? 31); [discriminate|].
    apply Hrec in Hs; [exact Hs|cbn; lia].
Qed.

Lemma span_digits_length (s ds rest : pystr) :
  span_digits s = (ds, rest) -> (length rest <= length s)%nat.
Proof.
  revert ds rest. induction s as [|c s IH]; intros ds rest.
  - intros [= _ <-]. reflexivity.
  - cbn [span_digits]. destruct (is_digit c).
    + destruct (span_digits s) as [ds' rest'] eqn:E. intros [= _ <-].
      pose proof (IH _ _ eq_refl). cbn. lia.
    + intros [= _ <-]. reflexivity.
Qed.

Lemma match_fraction_length (s : pystr) :
  (length (match_fraction s).2 <= length s)%nat.
Proof.
  unfold match_fraction. destruct s as [|p s1]; [reflexivity|].
  destruct (p =? 46); [|reflexivity].
  destruct (span_digits s1) as [ds rest] eqn:E.
  pose proof (span_digits_length _ _ _ E).
  destruct ds; cbn [snd length] in *; lia.
Qed.

Lemma match_exponent_length (s : pystr) :
  (length (match_exponent s).2 <= length s)%nat.
Proof.
  unfold match_exponent. destruct s as [|e s1]; [reflexivity|].
  destruct ((e =? 101) || (e =? 69)); [|reflexivity].
  set (sign := match s1 with [] => _ | _ => _ end).
  assert (length sign.2 <= length s1)%nat as Hsign.
  { unfold sign. destruct s1 as [|sg s2]; [reflexivity|].
    destruct (sg =? 45); [cbn; lia|]. destruct (sg =? 43); cbn; lia. }
  destruct sign as [negative s2]. cbn [snd] in Hsign.
  destruct (span_digits s2) as [ds rest] eqn:E.
  pose proof (span_digits_length _ _ _ E).
  destruct ds; cbn [snd length] in *; lia.
Qed.

Lemma match_number_shorter (s : pystr) (n : number) (rest : pystr) :
  match_number s = Some (n, rest) -> (length rest < length s)%nat.
Proof.
  unfold match_number.
  set (sign := match s with [] => _ | _ => _ end).
  assert (length sign.2 <= length s)%nat as Hsign.
  { unfold sign. destruct s as [|c s']; [reflexivity|].
    destruct (c =? 45); cbn; lia. }
  destruct sign as [negative s1]. cbn [snd] in Hsign.
  destruct s1 as [|d s2]; [discriminate|].
  set (integer := if d =? 48 then _ else _).
  assert (forall int s3, integer = Some (int, s3) ->
                         (length s3 <= length s2)%nat) as Hint.
  { intros int s3. unfold integer. destruct (d =? 48).
    - intros [= _ <-]. reflexivity.
    - destruct (is_digit d); [|discriminate].
      destruct (span_digits s2) as [ds r] eqn:E. intros [= _ <-].
      exact (span_digits_length _ _ _ E). }
  destruct integer as [[int s3]|]; [|discriminate].
  specialize (Hint _ _ eq_refl).
  pose proof (match_fraction_length s3) as Hf.
  destruct (match_fraction s3) as [frac s4]. cbn [snd] in Hf.
  pose proof (match_exponent_length s4) as He.
  destruct (match_exponent s4) as [exp s5]. cbn [snd] in He.
  intros [= _ <-]. cbn [length] in *. lia.
Qed.

Section Fuel.
  Variable scan : pystr -> option (value * pystr).
  Hypothesis scan_shorter :
    forall s v rest, scan s = Some (v, rest) -> (length rest < length s)%nat.

Lemma parse_members_shorter (fuel : nat) :
  forall acc s v rest,
    parse_members scan fuel acc s = Some (v, rest) ->
    (length rest < length s)%nat.
Proof.
  induction fuel as [|fuel IH]; intros acc s v rest; [discriminate|].
  cbn [parse_members]. destruct s as [|q s1]; [discriminate|].
  destruct (q =? 34); [|discriminate].
  destruct (scanstring s1) as [[key s2]|] eqn:Ekey; [|discriminate].
  apply scanstring_shorter in Ekey.
  pose proof (skip_whitespace_length s2) as H2.
  destruct (skip_whitespace s2) as [|colon s3]; [discriminate|].
  destruct (colon =? 58); [|discriminate].
  pose proof (skip_whitespace_length s3) as H3.
  destruct (scan (skip_whitespace s3)) as [[val s4]|] eqn:Eval;
    [|discriminate].
  apply scan_shorter in Eval.
  pose proof (skip_whitespace_length s4) as H4.
  destruct (skip_whitespace s4) as [|c s5]; [discriminate|].
  cbn [length] in *.
  destruct (c =? 125); [intros [= _ <-]; lia|].
  destruct (c =? 44); [|discriminate].
  intros H. apply IH in H. pose proof (skip_whitespace_length s5). lia.
Qed.

Lemma parse_items_shorter (fuel : nat) :
  forall acc s v rest,
    parse_items scan fuel acc s = Some (v, rest) ->
    (length rest < length s)%nat.
Proof.
  induction fuel as [|fuel IH]; intros acc s v rest; [discriminate|].
  cbn [parse_items].
  destruct (scan s) as [[val s1]|] eqn:Eval; [|discriminate].
  apply scan_shorter in Eval.
  pose proof (skip_whitespace_length s1) as H1.
  destruct (skip_whitespace s1) as [|c s2]; [discriminate|].
  cbn [length] in *.
  destruct (c =? 93); [intros [= _ <-]; lia|].
  destruct (c =? 44); [|discriminate].
  intros H. apply IH in H. pose proof (skip_whitespace_length s2). lia.
Qed.

(** Fuel beyond the length of the text changes nothing: no member and no
    item is left unread for want of fuel. *)
Lemma parse_members_fuel (fuel1 : nat) :
  forall fuel2 acc s,
    (length s <= fuel1)%nat -> (length s <= fuel2)%nat ->
    parse_members scan fuel1 acc s = parse_members scan fuel2 acc s.
Proof.
  induction fuel1 as [|fuel1 IH]; intros fuel2 acc s H1 H2.
  - destruct s; [|cbn in H1; lia]. destruct fuel2; reflexivity.
  - destruct fuel2 as [|fuel2].
    { destruct s; [reflexivity|cbn in H2; lia]. }
    cbn [parse_members]. destruct s as [|q s1]; [reflexivity|].
    destruct (q =? 34); [|reflexivity].
    destruct (scanstring s1) as [[key s2]|] eqn:Ekey; [|reflexivity].
    apply scanstring_shorter in Ekey.
    pose proof (skip_whitespace_length s2) as L2.
    destruct (skip_whitespace s2) as [|colon s3]; [reflexivity|].
    destruct (colon =? 58); [|reflexivity].
    pose proof (skip_whitespace_length s3) as L3.
    destruct (scan (skip_whitespace s3)) as [[val s4]|] eqn:Eval;
      [|reflexivity].
    apply scan_shorter in Eval.
    pose proof (skip_whitespace_length s4) as L4.
    destruct (skip_whitespace s4) as [|c s5]; [reflexivity|].
    destruct (c =? 125); [reflexivity|].
    destruct (c =? 44); [|reflexivity].
    pose proof (skip_whitespace_length s5).
    cbn [length] in *. apply IH; lia.
Qed.

Lemma parse_items_fuel (fuel1 : nat) :
  forall fuel2 acc s,
    (length s <= fuel1)%nat -> (length s <= fuel2)%nat ->
    parse_items scan fuel1 acc s = parse_items scan fuel2 acc s.
Proof.
  induction fuel1 as [|fuel1 IH]; intros fuel2 acc s H1 H2.
  - destruct s; [|cbn in H1; lia]. destruct fuel2; [reflexivity|].
    cbn [parse_items].
    destruct (scan []) as [[v r]|] eqn:E; [|reflexivity].
    apply scan_shorter in E. cbn in E. lia.
  - destruct fuel2 as [|fuel2].
    { destruct s; [|cbn in H2; lia]. cbn [parse_items].
      destruct (scan []) as [[v r]|] eqn:E; [|reflexivity].
      apply scan_shorter in E. cbn in E. lia. }
    cbn [parse_items].
    destruct (scan s) as [[val s1]|] eqn:Eval; [|reflexivity].
    apply scan_shorter in Eval.
    pose proof (skip_whitespace_length s1) as L1.
    destruct (skip_whitespace s1) as [|c s2]; [reflexivity|].
    destruct (c =? 93); [reflexivity|].
    destruct (c =? 44); [|reflexivity].
    pose proof (skip_whitespace_length s2).
    cbn [length] in *. apply IH; lia.
Qed.

End Fuel.

Lemma scan_once_shorter (m d : nat) :
  forall s v rest,
    scan_once m d s = Some (v, rest) -> (length rest < length s)%nat.
Proof.
  assert (forall s v rest,
            match match_number s with
            | Some (n, rest) =>
                match number_value m n with
                | Some v => Some (v, rest)
                | None => None
                end
            | None => None
            end = Some (v, rest) -> (length rest < length s)%nat) as Hnumber.
  { intros s v rest.
    destruct (match_number s) as [[n r]|] eqn:E; [|discriminate].
    apply match_number_shorter in E.
    destruct (number_value m n); [|discriminate]. intros [= _ <-]. exact E. }
  assert (forall (c : N) (s1 : pystr) v rest,
            (if startswith (lit "null") (c :: s1)
             then Some (JNull, skipn 4 (c :: s1))
             else if startswith (lit "true") (c :: s1)
             then Some (JBool true, skipn 4 (c :: s1))
             else if startswith (lit "false") (c :: s1)
             then Some (JBool false, skipn 5 (c :: s1))
             else if startswith (lit "NaN") (c :: s1)
             then Some (JFloat nan, skipn 3 (c :: s1))
             else if startswith (lit "Infinity") (c :: s1)
             then Some (JFloat infinity, skipn 8 (c :: s1))
             else if startswith (lit "-Infinity") (c :: s1)
             then Some (JFloat neg_infinity, skipn 9 (c :: s1))
             else
               match match_number (c :: s1) with
               | Some (n, rest) =>
                   match number_value m n with
                   | Some v => Some (v, rest)
                   | None => None
                   end
               | None => None
               end) = Some (v, rest) ->
            (length rest < length (c :: s1))%nat) as Hother.
  { intros c s1 v rest H.
    repeat (destruct (startswith _ (c :: s1));
            [injection H as _ <-; rewrite length_skipn; cbn; lia|]).
    exact (Hnumber _ _ _ H). }
  induction d as [|d IH]; intros s v rest H;
    (destruct s as [|c s1]; [discriminate|]); cbn [scan_once] in H;
    (destruct (c =? 34);
     [destruct (scanstring s1) as [[t r]|] eqn:E; [|discriminate];
      injection H as _ <-; apply scanstring_shorter in E; cbn; lia|]).
  - destruct (c =? 123); [discriminate|].
    destruct (c =? 91); [discriminate|].
    exact (Hother c s1 _ _ H).
  - pose proof (skip_whitespace_length s1) as Hws.
    destruct (c =? 123).
    { destruct (skip_whitespace s1) as [|c' s2] eqn:Es; [discriminate|].
      destruct (c' =? 125).
      - injection H as _ <-. cbn [length] in *. lia.
      - apply (parse_members_shorter _ IH) in H. cbn [length] in *. lia. }
    destruct (c =? 91).
    { destruct (skip_whitespace s1) as [|c' s2] eqn:Es; [discriminate|].
      destruct (c' =? 93).
      - injection H as _ <-. cbn [length] in *. lia.
      - apply (parse_items_shorter _ IH) in H. cbn [length] in *. lia. }
    exact (Hother c s1 _ _ H).
Qed.

(** The fuel of the reader is enough: with more fuel than the length of
    the text, the members of an object and the items of an array are read
    as they are with the length. *)
Lemma reader_fuel_enough (m d fuel : nat) (s : pystr) :
  (length s <= fuel)%nat ->
  (forall acc,
     parse_members (scan_once m d) fuel acc s =
     parse_members (scan_once m d) (length s) acc s) /\
  (forall acc,
     parse_items (scan_once m d) fuel acc s =
     parse_items (scan_once m d) (length s) acc s).
Proof.
  intros Hfuel. split; intros acc.
  - apply parse_members_fuel; [apply scan_once_shorter|exact Hfuel|lia].
  - apply parse_items_fuel; [apply scan_once_shorter|exact Hfuel|lia].
Qed.

(** *** A text that is cut *)



Lemma cut_app {A} (p q a b : list A) :
  a ++ b = p ++ q -> q <> [] ->
  (exists l, a = p ++ l /\ l <> []) \/
  (exists p2, p = a ++ p2 /\ b = p2 ++ q).
Proof.
  intros H Hq. apply app_eq_app in H as [l [[-> ->]|[-> ->]]].
  - destruct l as [|x l].
    + right. exists []. rewrite !app_nil_r. split; reflexivity.
    + left. exists (x :: l). split; [reflexivity|discriminate].
  - right. exists l. split; reflexivity.
Qed.

Lemma cut_cons {A} (p q : list A) (x : A) (t : list A) :
  x :: t = p ++ q -> p = [] \/ exists p', p = x :: p' /\ t = p' ++ q.
Proof.
  destruct p as [|y p]; [left; reflexivity|].
  intros [= <- ->]. right. eauto.
Qed.

Lemma skip_whitespace_indent_app (k : nat) (r : pystr) :
  skip_whitespace (indent k ++ r) = skip_whitespace r.
Proof.
  unfold indent. cbn [app skip_whitespace].
  change (is_whitespace ch_newline) with true. cbv iota.
  apply skip_whitespace_spaces.
Qed.

Lemma indent_whitespace (k : nat) :
  Forall (fun c => is_whitespace c = true) (indent k).
Proof.
  unfold indent. constructor; [reflexivity|].
  induction k as [|k IH]; [constructor|].
  cbn [repeat concat]. apply Forall_app. split; [|exact IH].
  repeat constructor.
Qed.

(** What is cut out of an indent is white space. *)
Lemma skip_whitespace_cut_indent (k : nat) (p l : pystr) :
  indent k = p ++ l -> skip_whitespace p = [].
Proof.
  intros H. pose proof (indent_whitespace k) as Hws.
  rewrite H in Hws. apply Forall_app in Hws as [Hp _]. clear H.
  induction Hp as [|c p Hc _ IH]; [reflexivity|].
  cbn [skip_whitespace]. rewrite Hc. exact IH.
Qed.

Lemma skip_whitespace_cut_head (c : N) (t p q : pystr) :
  is_whitespace c = false -> c :: t = p ++ q ->
  skip_whitespace p = p.
Proof.
  intros Hc H. apply cut_cons in H as [->|(p' & -> & _)]; [reflexivity|].
  apply skip_whitespace_head, Hc.
Qed.

Lemma cut_nil {A} (p q : list A) : [] = p ++ q -> p = [].
Proof. destruct p; [reflexivity|discriminate]. Qed.

(** The cuts of a list that is written out, one after the other. *)
Ltac cuts H :=
  first
    [ apply cut_nil in H; subst
    | let p' := fresh "p" in
      apply cut_cons in H as [->|(p' & -> & H)]; [|cuts H] ].

(** One character of a text, written and cut: the scanner reads nothing
    of what is left. *)
Lemma scanstring_cut_escape (c : N) (p l : pystr) :
  c <= 0x10FFFF -> is_surrogate c = false ->
  escape_char_ascii c = p ++ l -> scanstring p = None.
Proof.
  intros Hc Hs. unfold escape_char_ascii, short_escape.
  destruct (c =? 34) eqn:E1; [intros H; cuts H; reflexivity|].
  destruct (c =? 92) eqn:E2; [intros H; cuts H; reflexivity|].
  destruct (c =? 10); [intros H; cuts H; reflexivity|].
  destruct (c =? 13); [intros H; cuts H; reflexivity|].
  destruct (c =? 9); [intros H; cuts H; reflexivity|].
  destruct (c =? 8); [intros H; cuts H; reflexivity|].
  destruct (c =? 12); [intros H; cuts H; reflexivity|].
  destruct ((32 <=? c) && (c <=? 126)) eqn:Eprint.
  - apply andb_true_iff in Eprint as [H32 _]. apply N.leb_le in H32.
    intros H. apply cut_cons in H as [->|(p' & -> & H)]; [reflexivity|].
    apply cut_nil in H. subst p'. cbn [scanstring]. rewrite E1, E2.
    replace (c <=? 31) with false by (symmetry; apply N.leb_gt; lia).
    reflexivity.
  - destruct (c <? 0x10000) eqn:Ebmp.
    + apply N.ltb_lt in Ebmp.
      destruct (hex4_hex_fixed c Ebmp) as (h1 & h2 & h3 & h4 & Eh & _).
      unfold u_escape. rewrite Eh. intros H.
      change (ch_backslash :: lit "u" ++ [h1; h2; h3; h4])
        with [92; 117; h1; h2; h3; h4] in H.
      cuts H; reflexivity.
    + apply N.ltb_ge in Ebmp.
      destruct (surrogate_pair c Ebmp Hc) as (Hh & Hl & Hhs & _ & _).
      cbv zeta in *.
      set (high := N.lor 0xD800 _) in *. set (low := N.lor 0xDC00 _) in *.
      destruct (hex4_hex_fixed high Hh) as (h1 & h2 & h3 & h4 & Eh & Ev).
      destruct (hex4_hex_fixed low Hl) as (g1 & g2 & g3 & g4 & Eg & _).
      unfold u_escape. rewrite Eh, Eg. intros H.
      change ((ch_backslash :: lit "u" ++ [h1; h2; h3; h4])
                ++ ch_backslash :: lit "u" ++ [g1; g2; g3; g4])
        with [92; 117; h1; h2; h3; h4; 92; 117; g1; g2; g3; g4] in H.
      cuts H;
        first [ reflexivity
              | cbn [scanstring];
                change (92 =? 34) with false; change (92 =? 92) with true;
                change (117 =? 117) with true; cbv iota;
                rewrite Ev, Hhs; reflexivity ].
Qed.

(** A text, written and cut before or behind its closing quote: the
    scanner reads nothing of it. *)
Lemma scanstring_cut (s : pystr) :
  scalar_text s ->
  fails_before scanstring (concat (map escape_char_ascii s) ++ [ch_quote]).
Proof.
  induction 1 as [|c s [Hc Hs] _ IH]; intros p q H Hq.
  - cbn in H. apply cut_cons in H as [->|(p' & -> & H)]; [reflexivity|].
    symmetry in H. apply app_eq_nil in H as [_ ->]. contradiction.
  - cbn [map concat] in H. rewrite <- app_assoc in H.
    destruct (cut_app _ _ _ _ H Hq) as [(l & Hl & _)|(p2 & -> & H')];
      clear H; [|rename H' into H].
    + exact (scanstring_cut_escape c p l Hc Hs Hl).
    + destruct p2 as [|x p2].
      * rewrite app_nil_r.
        apply (scanstring_cut_escape c _ [] Hc Hs). rewrite app_nil_r.
        reflexivity.
      * rewrite scanstring_escape_char by (assumption || discriminate).
        rewrite (IH _ _ H Hq). reflexivity.
Qed.

Lemma scan_once_cut_quoted (m d : nat) (s : pystr) :
  scalar_text s ->
  fails_before (scan_once m d) (quoted escape_char_ascii s).
Proof.
  intros Hs p q H Hq. unfold quoted in H. cbn [app] in H.
  apply cut_cons in H as [->|(p' & -> & H)].
  - destruct d; reflexivity.
  - pose proof (scanstring_cut s Hs _ _ H Hq) as Hnone.
    destruct d; cbn [scan_once]; change (ch_quote =? 34) with true;
      cbv iota; rewrite Hnone; reflexivity.
Qed.

Lemma parse_members_nil (scan : pystr -> option (value * pystr))
    (fuel : nat) (acc : list (pystr * value)) :
  parse_members scan fuel acc [] = None.
Proof. destruct fuel; reflexivity. Qed.

Section MembersCut.
  Context {A : Type}.
  Variable scan : pystr -> option (value * pystr).
  Variable good : A -> Prop.
  Variable dv : A -> pystr.
  Variable pv : A -> value.
  Hypothesis scan_dv :
    forall x rest, good x -> scan (dv x ++ rest) = Some (pv x, rest).
  Hypothesis dv_first :
    forall x, exists c t, dv x = c :: t /\ is_whitespace c = false.
  Hypothesis dv_cut : forall x, good x -> fails_before scan (dv x).

(** One member and what follows it. *)
Lemma parse_members_step (fuel : nat) (acc : list (pystr * value))
    (key : pystr) (tail : pystr) :
  scalar_text key ->
  parse_members scan (S fuel) acc
    (ch_quote :: (concat (map escape_char_ascii key) ++ [ch_quote]) ++ tail)
  = match skip_whitespace tail with
    | colon :: s3 =>
        if colon =? 58 then
          match scan (skip_whitespace s3) with
          | Some (val, s4) =>
              let acc' := dict_set key val acc in
              match skip_whitespace s4 with
              | c :: s5 =>
                  if c =? 125 then Some (JObj acc', s5)
                  else if c =? 44
                  then parse_members scan fuel acc' (skip_whitespace s5)
                  else None
              | [] => None
              end
          | None => None
          end
        else None
    | [] => None
    end.
Proof.
  intros Hkey. cbn [parse_members]. change (ch_quote =? 34) with true.
  cbv iota. rewrite <- app_assoc. cbn [app].
  rewrite scanstring_escapes by exact Hkey. reflexivity.
Qed.

(** The members of an object, written and cut: nothing is read of
    them. *)
Lemma parse_members_cut (k : nat) (items : list (pystr * A)) :
  items <> [] ->
  Forall (fun kv => scalar_text kv.1 /\ good kv.2) items ->
  forall acc fuel,
    fails_before (parse_members scan fuel acc)
      (join (lit "," ++ indent (S k))
         (map (fun kv => quoted escape_char_ascii kv.1 ++ lit ": "
                           ++ dv kv.2) items)
         ++ indent k ++ lit "}").
Proof.
  induction items as [|[key x] items IH]; intros Hne Hgood acc fuel p q H Hq;
    [contradiction|].
  apply Forall_cons in Hgood as [[Hkey Hx] Hgood]. cbn [fst snd] in *.
  destruct fuel as [|fuel]; [destruct p; reflexivity|].
  destruct (dv_first x) as (c0 & t0 & Edv & Hc0).
  set (tail_text :=
         match items with
         | [] => indent k ++ lit "}"
         | _ :: _ =>
             lit "," ++ indent (S k)
               ++ join (lit "," ++ indent (S k))
                    (map (fun kv => quoted escape_char_ascii kv.1 ++ lit ": "
                                      ++ dv kv.2) items)
               ++ indent k ++ lit "}"
         end).
  assert (ch_quote
            :: (concat (map escape_char_ascii key) ++ [ch_quote])
            ++ 58 :: 32 :: dv x ++ tail_text = p ++ q) as H'.
  { rewrite <- H. unfold tail_text, quoted.
    destruct items as [|kv items]; cbn [map join fst snd];
      rewrite <- ?app_assoc; reflexivity. }
  clear H. rename H' into H.
  apply cut_cons in H as [->|(p1 & -> & H)]; [reflexivity|].
  destruct (cut_app _ _ _ _ H Hq) as [(l & Hl & Hlne)|(p2 & -> & H2)];
    clear H.
  { pose proof (scanstring_cut key Hkey _ _ Hl Hlne) as Hnone.
    cbn [parse_members]. change (ch_quote =? 34) with true. cbv iota.
    rewrite Hnone. reflexivity. }
  rewrite parse_members_step by exact Hkey.
  apply cut_cons in H2 as [->|(p3 & -> & H3)]; [reflexivity|].
  rewrite skip_whitespace_head by reflexivity. cbv beta iota.
  change (58 =? 58) with true. cbv iota.
  assert (scan [] = None) as Hscan_nil.
  { apply (dv_cut x Hx [] (dv x)); [reflexivity|].
    rewrite Edv. discriminate. }
  apply cut_cons in H3 as [->|(p4 & -> & H4)].
  { cbn [skip_whitespace]. rewrite Hscan_nil. reflexivity. }
  change (skip_whitespace (32 :: p4)) with (skip_whitespace p4).
  destruct (cut_app _ _ _ _ H4 Hq) as [(l & Hl & Hlne)|(p5 & -> & H5)];
    clear H4.
  { assert (skip_whitespace p4 = p4) as ->.
    { rewrite Edv in Hl. exact (skip_whitespace_cut_head _ _ _ _ Hc0 Hl). }
    rewrite (dv_cut x Hx _ _ Hl Hlne). reflexivity. }
  assert (skip_whitespace (dv x ++ p5) = dv x ++ p5) as ->.
  { rewrite Edv. apply skip_whitespace_head, Hc0. }
  rewrite scan_dv by exact Hx. cbv zeta.
  destruct items as [|kv items]; unfold tail_text in H5.
  - destruct (cut_app _ _ _ _ H5 Hq) as [(l & Hl & _)|(p6 & -> & H6)].
    + rewrite (skip_whitespace_cut_indent _ _ _ Hl). reflexivity.
    + cbn in H6. apply cut_cons in H6 as [->|(p7 & -> & H7)].
      * rewrite (skip_whitespace_cut_indent k (indent k ++ []) []);
          [reflexivity|rewrite !app_nil_r; reflexivity].
      * symmetry in H7. apply app_eq_nil in H7 as [_ ->]. contradiction.
  - cbn [app] in H5. apply cut_cons in H5 as [->|(p6 & -> & H6)];
      [reflexivity|].
    rewrite skip_whitespace_head by reflexivity. cbv beta iota.
    change (44 =? 125) with false. change (44 =? 44) with true. cbv iota.
    destruct (cut_app _ _ _ _ H6 Hq) as [(l & Hl & _)|(p7 & -> & H7)].
    + rewrite (skip_whitespace_cut_indent _ _ _ Hl).
      apply parse_members_nil.
    + rewrite skip_whitespace_indent_app.
      assert (exists tail,
                join (lit "," ++ indent (S k))
                  (map (fun kv => quoted escape_char_ascii kv.1 ++ lit ": "
                                    ++ dv kv.2) (kv :: items))
                  ++ indent k ++ lit "}" = ch_quote :: tail) as [tail Etail].
      { destruct kv as [key' x'], items; cbn [map join]; unfold quoted;
          eexists; reflexivity. }
      assert (skip_whitespace p7 = p7) as ->.
      { rewrite Etail in H7.
        exact (skip_whitespace_cut_head ch_quote _ _ _ eq_refl H7). }
      apply (IH ltac:(discriminate) Hgood _ _ _ _ H7 Hq).
Qed.

End MembersCut.

(** An object that is written with an indent and cut: where nothing is
    read of its members when they are cut, nothing is read of it. *)
Lemma scan_once_cut_object (m d k : nat) (members : pystr) (tail : pystr) :
  members = ch_quote :: tail ->
  (forall fuel acc,
     fails_before (parse_members (scan_once m d) fuel acc)
       (members ++ indent k ++ lit "}")) ->
  fails_before (scan_once m (S d))
    (lit "{" ++ indent (S k) ++ members ++ indent k ++ lit "}").
Proof.
  intros Etail Hcut p q H Hq.
  change (lit "{" ++ indent (S k) ++ members ++ indent k ++ lit "}")
    with (123 :: (indent (S k) ++ members ++ indent k ++ lit "}")) in H.
  apply cut_cons in H as [->|(p1 & -> & H)]; [reflexivity|].
  change (scan_once m (S d) (123 :: p1))
    with (match skip_whitespace p1 with
          | c' :: s2 =>
              if c' =? 125 then Some (JObj [], s2)
              else parse_members (scan_once m d) (length p1) []
                     (skip_whitespace p1)
          | [] => None
          end).
  destruct (cut_app _ _ _ _ H Hq) as [(l & Hl & _)|(p2 & -> & H2)].
  - rewrite (skip_whitespace_cut_indent _ _ _ Hl). reflexivity.
  - rewrite skip_whitespace_indent_app.
    assert (skip_whitespace p2 = p2) as E.
    { rewrite Etail in H2. cbn [app] in H2.
      exact (skip_whitespace_cut_head ch_quote _ _ _ eq_refl H2). }
    rewrite E. destruct p2 as [|c' p2]; [reflexivity|].
    assert (c' = ch_quote) as ->.
    { rewrite Etail in H2. cbn [app] in H2. congruence. }
    change (ch_quote =? 125) with false. cbv iota.
    apply (Hcut _ _ _ _ H2 Hq).
Qed.

Lemma quoted_first (s : pystr) :
  exists c t, quoted escape_char_ascii s = c :: t /\ is_whitespace c = false.
Proof. unfold quoted. cbn [app]. eauto. Qed.

Lemma scan_once_cut_entry (m d : nat) (e : entry) :
  scalar_entry e ->
  fails_before (scan_once m (S d)) (dumps_str_dict_indent 1 (entry_fields e)).
Proof.
  intros He. unfold dumps_str_dict_indent.
  change (entry_fields e) with
    ([(lit "hash", e_hash e); (lit "data_type", e_data_type e);
      (lit "paper_id", e_paper_id e); (lit "user_id", e_user_id e);
      (lit "timestamp", e_timestamp e)]) at 1.
  cbv iota. 
  eapply (scan_once_cut_object m d 1).
  - cbn [entry_fields map join]. unfold quoted. cbn [app]. reflexivity.
  - intros fuel acc.
    apply (parse_members_cut (scan_once m d) scalar_text
             (quoted escape_char_ascii) JStr).
    + intros x r Hx. apply scan_once_quoted, Hx.
    + apply quoted_first.
    + intros x Hx. apply scan_once_cut_quoted, Hx.
    + discriminate.
    + apply Forall_forall. intros kv Hin. split.
      * cbn [entry_fields] in Hin.
        repeat (apply elem_of_cons in Hin as [->|Hin];
                [apply scalar_text_lit|]).
        inversion Hin.
      * unfold scalar_entry in He. rewrite Forall_forall in He. auto.
Qed.

(** The text of an index, cut before its end, is no JSON document. *)
Lemma loads_cut_index (m d : nat) (idx : index) :
  Forall (fun kv => scalar_text kv.1 /\ scalar_entry kv.2) idx ->
  fails_before (loads m (S (S d))) (dump_index idx).
Proof.
  intros Hgood p q H Hq.
  assert (scan_once m (S (S d)) p = None /\ skip_whitespace p = p)
    as [Hscan Hws]; [|unfold loads; rewrite Hws, Hscan; reflexivity].
  destruct idx as [|kv0 idx0].
  { cbn in H. apply cut_cons in H as [->|(p1 & -> & H)]; [split; reflexivity|].
    apply cut_cons in H as [->|(p2 & -> & H)]; [split; reflexivity|].
    symmetry in H. apply app_eq_nil in H as [_ ->]. contradiction. }
  set (idx := kv0 :: idx0) in *.
  unfold dump_index in H. fold idx in H.
  change (match idx with [] => lit "{}" | _ :: _ => ?t end) with t in H.
  split.
  - set (members := join _ _) in H.
    assert (exists tail, members = ch_quote :: tail) as [tail Etail].
    { unfold members, idx. destruct kv0, idx0; cbn [map join];
        unfold quoted; eexists; reflexivity. }
    apply (scan_once_cut_object m (S d) 0 members tail Etail) with (q := q);
      [|exact H|exact Hq].
    intros fuel acc. unfold members.
    apply (parse_members_cut (scan_once m (S d)) scalar_entry
             (fun e => dumps_str_dict_indent 1 (entry_fields e))
             entry_value).
    + intros e r He. apply scan_once_entry, He.
    + intros e. unfold dumps_str_dict_indent. cbn [entry_fields app].
      eauto.
    + intros e He. apply scan_once_cut_entry, He.
    + discriminate.
    + exact Hgood.
  - cbn [app] in H. exact (skip_whitespace_cut_head 123 _ _ _ eq_refl H).
Qed.


(** *** The service that starts *)

(** A service that starts on the file that another one has saved has the
    index of that one, entry for entry and in its order: what
    [_save_data_index] writes, [_load_data_index] reads back. The ids of the
    index are distinct and its texts hold code points and no surrogate; the
    interpreter follows two containers, one in the other. *)
Theorem index_read_back (s s0 : service) (fs : gmap pystr pystr)
    (int_max_str_digits depth : nat) :
  data_index_path s0 = data_index_path s ->
  (2 <= depth)%nat ->
  NoDup (map fst (data_index s)) ->
  Forall (fun kv => scalar_text kv.1 /\ scalar_entry kv.2) (data_index s) ->
  _load_data_index int_max_str_digits depth
    (fs_run fs (_save_data_index s)) s0
  = Some (with_index s0 (data_index s)).
Proof.
  intros Hpath Hdepth Hnodup Hgood.
  destruct depth as [|[|d]]; [lia|lia|].
  pose proof (save_data_index_trace s fs) as (_ & _ & _ & Hfile).
  unfold _load_data_index. rewrite Hpath, Hfile.
  rewrite loads_dump_index by assumption.
  rewrite index_of_entry_values. reflexivity.
Qed.

(** A file that holds no JSON document, as the file of an index is while
    it is written or when a save did not come to its end, is read without a
    word as the empty index; the registration that follows then writes a file
    that holds its one entry, and whatever the file held before is gone. *)
Theorem index_lost_with_file (s : service) (fs : gmap pystr pystr)
    (text : pystr) (int_max_str_digits depth : nat)
    (h t paper user stamp iso : pystr) :
  fs !! data_index_path s = Some text ->
  loads int_max_str_digits depth text = None ->
  let started := _load_data_index int_max_str_digits depth fs s in
  let reg := add_data_to_index (with_index s []) h t paper user stamp iso in
  started = Some (with_index s []) /\
  fs_run fs reg.2 !! data_index_path s =
    Some (dump_index
            [(reg.1.1,
              {| e_hash := h; e_data_type := t; e_paper_id := paper;
                 e_user_id := user; e_timestamp := iso |})]).
Proof.
  intros Hfile Hloads. cbv zeta. split.
  - unfold _load_data_index. rewrite Hfile, Hloads. reflexivity.
  - pose proof (save_data_index_trace
                  (add_data_to_index (with_index s []) h t paper user stamp
                     iso).1.2 fs) as (_ & _ & _ & Hlast).
    exact Hlast.
Qed.


(** A service that starts while another one saves its index reads all of
    it or nothing: at every moment of the save the file holds the beginning
    of the new text, which is read as the empty index until the last piece
    is written, and as the whole index then. The first thing it can read is
    nothing. *)
Theorem start_during_save (s s0 : service) (fs : gmap pystr pystr)
    (int_max_str_digits depth : nat) :
  data_index_path s0 = data_index_path s ->
  (2 <= depth)%nat ->
  NoDup (map fst (data_index s)) ->
  Forall (fun kv => scalar_text kv.1 /\ scalar_entry kv.2) (data_index s) ->
  Forall (fun st =>
            _load_data_index int_max_str_digits depth st s0
              = Some (with_index s0 []) \/
            _load_data_index int_max_str_digits depth st s0
              = Some (with_index s0 (data_index s)))
    (fs_trace fs (_save_data_index s)) /\
  exists st rest,
    fs_trace fs (_save_data_index s) = st :: rest /\
    _load_data_index int_max_str_digits depth st s0
      = Some (with_index s0 []).
Proof.
  intros Hpath Hdepth Hnodup Hgood.
  destruct depth as [|[|d]]; [lia|lia|].
  pose proof (save_data_index_trace s fs) as (_ & [rest Hfirst] & Hall & _).
  split.
  - eapply Forall_impl; [exact Hall|].
    intros st [(pre & Hpre & [k Hk]) _]. cbv beta.
    unfold _load_data_index. rewrite Hpath, Hpre.
    destruct k as [|c k].
    + right. rewrite app_nil_r in Hk. subst pre.
      rewrite loads_dump_index by assumption.
      rewrite index_of_entry_values. reflexivity.
    + left. rewrite (loads_cut_index _ d _ Hgood pre (c :: k) Hk);
        [reflexivity|discriminate].
  - exists (<[data_index_path s := []]> fs), rest. split; [exact Hfirst|].
    unfold _load_data_index. rewrite Hpath, lookup_insert_eq. reflexivity.
Qed.

(** The two entries of the sample, saved and read by a service that
    starts. *)
Lemma index_read_back_witness :
  _load_data_index 4300 1000
    (fs_run ∅ (_save_data_index Samples.two_entries))
    (with_index Samples.two_entries [])
  = Some (with_index (with_index Samples.two_entries [])
            (data_index Samples.two_entries)).
Proof.
  apply (index_read_back Samples.two_entries
           (with_index Samples.two_entries []) ∅ 4300 1000).
  - reflexivity.
  - lia.
  - apply (bool_decide_unpack _). vm_compute. exact I.
  - repeat (constructor;
            [split; [apply scalar_text_lit|];
             repeat (constructor; [apply scalar_text_lit|]); constructor|]).
    constructor.
Defined.

(** The file holds the first forty characters of the two entries of the
    sample: a save that was cut short. *)
Lemma index_lost_with_file_witness :
  let fs : gmap pystr pystr :=
    {[ lit "./storage/deduplication/data_index.json" :=
         firstn 40 (dump_index (data_index Samples.two_entries)) ]} in
  let started := _load_data_index 4300 1000 fs Samples.two_entries in
  let reg :=
    add_data_to_index (with_index Samples.two_entries []) (lit "cc")
      (lit "hdf5") (lit "P3") (lit "U2") (lit "1700000003.0")
      (lit "2023-11-14T22:13:23") in
  started = Some (with_index Samples.two_entries []) /\
  fs_run fs reg.2 !! lit "./storage/deduplication/data_index.json" =
    Some (dump_index
            [(reg.1.1,
              {| e_hash := lit "cc"; e_data_type := lit "hdf5";
                 e_paper_id := lit "P3"; e_user_id := lit "U2";
                 e_timestamp := lit "2023-11-14T22:13:23" |})]).
Proof.
  apply (index_lost_with_file Samples.two_entries
           {[ lit "./storage/deduplication/data_index.json" :=
                firstn 40 (dump_index (data_index Samples.two_entries)) ]}
           (firstn 40 (dump_index (data_index Samples.two_entries)))).
  - vm_compute. reflexivity.
  - vm_compute. reflexivity.
Defined.

(** The two entries of the sample, and a service that starts at any
    moment of their save. *)
Lemma start_during_save_witness :
  let s0 := with_index Samples.two_entries [] in
  Forall (fun st =>
            _load_data_index 4300 1000 st s0 = Some (with_index s0 []) \/
            _load_data_index 4300 1000 st s0
              = Some (with_index s0 (data_index Samples.two_entries)))
    (fs_trace ∅ (_save_data_index Samples.two_entries)) /\
  exists st rest,
    fs_trace ∅ (_save_data_index Samples.two_entries) = st :: rest /\
    _load_data_index 4300 1000 st s0 = Some (with_index s0 []).
Proof.
  apply (start_during_save Samples.two_entries
           (with_index Samples.two_entries []) ∅ 4300 1000).
  - reflexivity.
  - lia.
  - apply (bool_decide_unpack _). vm_compute. exact I.
  - repeat (constructor;
            [split; [apply scalar_text_lit|];
             repeat (constructor; [apply scalar_text_lit|]); constructor|]).
    constructor.
Defined.
